(** * Bytecode accessors of the interpreter (interpreter/bytecode.cpp)

    A shallow embedding of [Bytecode], [Bytecode_member_ref],
    [Bytecode_invoke], [Bytecode_loadconstant], [Bytecode_lookupswitch] and
    [Bytecode_tableswitch], followed by the properties proved about them.

    C++ [int] values are integers of [Z] with the 32-bit wrap-around written
    out ([wrap_jint]); addresses are integers of [Z]; the VM is an explicit
    state (raw memory, the [tty] stream, the thread's pending exception)
    threaded through a small monad whose outcomes distinguish a normal
    return, a fatal VM error ([assert], [fatal]) and undefined behaviour. *)

From Stdlib Require Import ZArith List String Bool Lia.
Import ListNotations.
Local Open Scope string_scope.
Local Open Scope Z_scope.

(** ** Machine integers *)

Definition jintSize : Z := 4.
Definition min_jint : Z := - 2 ^ 31.
Definition max_jint : Z := 2 ^ 31 - 1.

(** Conversion of a mathematical integer to a C++ [int]. *)
Definition wrap_jint (z : Z) : Z := (z + 2 ^ 31) mod 2 ^ 32 - 2 ^ 31.

(** [(u1)z]. *)
Definition to_u1 (z : Z) : Z := z mod 256.

(** ** Build configuration

    [ASSERT] guards the [assert] macro, [DEBUG_ONLY] and the block of
    [#ifdef ASSERT]; [PRODUCT] removes the block of [#ifndef PRODUCT];
    [Java_byte_ordering_different] is [Bytes::is_Java_byte_ordering_different()]
    (true on a little-endian platform). *)

Record Build : Type := mkBuild {
  ASSERT : bool;
  PRODUCT : bool;
  Java_byte_ordering_different : bool
}.

(** ** Opcode metadata (class [Bytecodes]) *)

Module Bytecodes.

Definition Code : Type := Z.

(** Modelled from the spec: the [Code] enumeration of bytecodes.hpp is not
    under src/; the opcodes named by bytecode.cpp carry their JVM numbers
    (the opcode is the first byte of an instruction). *)
Definition _ldc : Code := 18.
Definition _ldc_w : Code := 19.
Definition _ldc2_w : Code := 20.
Definition _aload_0 : Code := 42.
Definition _tableswitch : Code := 170.
Definition _lookupswitch : Code := 171.
Definition _getfield : Code := 180.
Definition _invokevirtual : Code := 182.
Definition _invokespecial : Code := 183.
Definition _invokestatic : Code := 184.
Definition _invokeinterface : Code := 185.
Definition _invokedynamic : Code := 186.
Definition _new : Code := 187.
Definition _wide : Code := 196.
Definition _breakpoint : Code := 202.
Definition number_of_java_codes : Z := 203.
Definition _fast_aldc : Code := 229.
Definition _fast_aldc_w : Code := 230.

(** [Bytecodes::cast]: an [int] taken as a [Code]. *)
Definition cast (c : Z) : Code := c.

(** Modelled from the spec: the flag bits of bytecodes.hpp (section 3,
    Opcode Format Descriptor: a bit-set describing the operand shape). *)
Definition _bc_can_trap : Z := Z.shiftl 1 0.
Definition _bc_can_rewrite : Z := Z.shiftl 1 1.
Definition _fmt_has_c : Z := Z.shiftl 1 2.
Definition _fmt_has_j : Z := Z.shiftl 1 3.
Definition _fmt_has_k : Z := Z.shiftl 1 4.
Definition _fmt_has_i : Z := Z.shiftl 1 5.
Definition _fmt_has_o : Z := Z.shiftl 1 6.
Definition _fmt_has_nbo : Z := Z.shiftl 1 7.
Definition _fmt_has_u2 : Z := Z.shiftl 1 8.
Definition _fmt_has_u4 : Z := Z.shiftl 1 9.
Definition _fmt_not_variable : Z := Z.shiftl 1 10.
Definition _fmt_not_simple : Z := Z.shiftl 1 11.
Definition _all_fmt_bits : Z := _fmt_not_simple * 2 - _fmt_has_c.

Definition _fmt_b : Z := _fmt_not_variable.
Definition _fmt_bc : Z := Z.lor _fmt_b _fmt_has_c.
Definition _fmt_bi : Z := Z.lor _fmt_b _fmt_has_i.
Definition _fmt_bkk : Z := Z.lor (Z.lor _fmt_b _fmt_has_k) _fmt_has_u2.
Definition _fmt_bJJ : Z :=
  Z.lor (Z.lor (Z.lor _fmt_b _fmt_has_j) _fmt_has_u2) _fmt_has_nbo.
Definition _fmt_bo2 : Z := Z.lor (Z.lor _fmt_b _fmt_has_o) _fmt_has_u2.
Definition _fmt_bo4 : Z := Z.lor (Z.lor _fmt_b _fmt_has_o) _fmt_has_u4.

(** The static tables of the class, filled once at start-up by code that
    is not under src/: they are taken as they come. [flags c w] is
    [Bytecodes::flags(c, w)]. *)
Record Table : Type := mkTable {
  flags : Code -> bool -> Z;
  length_for : Code -> Z;
  wide_length_for : Code -> Z;
  java_code : Code -> Code
}.

(** [has_all_flags], [can_rewrite] and [native_byte_order] of
    bytecodes.hpp, which read the flags table. *)
Definition has_all_flags (T : Table) (c : Code) (test_flags : Z)
           (is_wide : bool) : bool :=
  Z.land (flags T c is_wide) test_flags =? test_flags.

Definition can_rewrite (T : Table) (c : Code) : bool :=
  has_all_flags T c _bc_can_rewrite false.

Definition native_byte_order (T : Table) (c : Code) : bool :=
  has_all_flags T c _fmt_has_nbo false.

End Bytecodes.

(** ** The VM state and the monad of VM code *)

Definition address : Type := Z.
Definition oop : Type := Z.
Definition symbolOop : Type := Z.

(** A line printed on [tty] by one of the format checks. *)
Inductive tty_line : Type :=
| Tty_same_format (testbc thisbc : Z) (is_wide : bool) (testflags thisflags : Z)
| Tty_index_size (size bc : Z) (is_wide : bool) (have_fmt need_fmt : Z)
| Tty_offset_size (size bc : Z) (is_wide : bool) (have_fmt need_fmt : Z)
| Tty_constant_size (size where_ bc : Z) (is_wide : bool) (have_fmt need_fmt : Z).

Record VM : Type := mkVM {
  memory : address -> Z;
  tty : list tty_line;
  pending_exception : option oop
}.

Inductive outcome (A : Type) : Type :=
| Normal (a : A)
| VMError (msg : string)
| Undefined (what : string).
Arguments Normal {A} a.
Arguments VMError {A} msg.
Arguments Undefined {A} what.

Definition M (A : Type) : Type := VM -> outcome A * VM.

Definition ret {A} (a : A) : M A := fun s => (Normal a, s).

Definition bind {A B} (c : M A) (k : A -> M B) : M B :=
  fun s =>
    match c s with
    | (Normal a, s') => k a s'
    | (VMError msg, s') => (VMError msg, s')
    | (Undefined w, s') => (Undefined w, s')
    end.

Notation "x <- c1 ;; c2" := (bind c1 (fun x => c2))
  (at level 61, c1 at next level, right associativity).
Notation "c1 ;; c2" := (bind c1 (fun _ => c2))
  (at level 61, right associativity).

(** [fatal(msg)]: the VM reports the error and stops. *)
Definition fatal {A} (msg : string) : M A := fun s => (VMError msg, s).

(** Dereferencing a pointer that is [NULL]. *)
Definition undefined {A} (what : string) : M A := fun s => (Undefined what, s).

Definition gets {A} (f : VM -> A) : M A := fun s => (Normal (f s), s).

Definition print_cr (l : tty_line) : M unit :=
  fun s => (Normal tt, mkVM (memory s) (tty s ++ [l]) (pending_exception s)).

Definition when (c : bool) (k : M unit) : M unit := if c then k else ret tt.

(** ** Raw reads (class [Bytes]) *)

Section Reads.
Variable B : Build.

Definition u1_at (mem : address -> Z) (p : address) : Z := to_u1 (mem p).

Definition get_Java_u2 (mem : address -> Z) (p : address) : Z :=
  Z.lor (Z.shiftl (u1_at mem p) 8) (u1_at mem (p + 1)).

Definition get_Java_u4 (mem : address -> Z) (p : address) : Z :=
  Z.lor (Z.lor (Z.lor (Z.shiftl (u1_at mem p) 24)
                      (Z.shiftl (u1_at mem (p + 1)) 16))
               (Z.shiftl (u1_at mem (p + 2)) 8))
        (u1_at mem (p + 3)).

Definition get_native_u2 (mem : address -> Z) (p : address) : Z :=
  if Java_byte_ordering_different B
  then Z.lor (Z.shiftl (u1_at mem (p + 1)) 8) (u1_at mem p)
  else get_Java_u2 mem p.

Definition get_native_u4 (mem : address -> Z) (p : address) : Z :=
  if Java_byte_ordering_different B
  then Z.lor (Z.lor (Z.lor (Z.shiftl (u1_at mem (p + 3)) 24)
                           (Z.shiftl (u1_at mem (p + 2)) 16))
                    (Z.shiftl (u1_at mem (p + 1)) 8))
             (u1_at mem p)
  else get_Java_u4 mem p.
End Reads.

(** ** Constant pool, constant-pool cache, method, link resolver

    Modelled from the spec: these classes are the collaborators of
    bytecode.cpp (section 6) and are not under src/. A cache maps a slot to
    an entry that stores the pool slot it was allocated for; the constant
    pool and the link resolver are interfaces whose operations are taken as
    they come. *)

Record ConstantPoolCacheEntry : Type := mkEntry {
  constant_pool_index : Z
}.

Record constantPoolCacheOop : Type := mkCache {
  cache_length : Z;
  cache_base : Z -> ConstantPoolCacheEntry
}.

(** The constant pool: its cache, which is [NULL] until the rewriter has
    run, and the operations bytecode.cpp calls on it, taken as they come. *)
Record constantPoolOop : Type := mkPool {
  cache : option constantPoolCacheOop;
  name_ref_at : Z -> M symbolOop;
  signature_ref_at : Z -> M symbolOop;
  resolve_constant_at : Z -> M oop;
  resolve_cached_constant_at : Z -> M oop
}.

Record methodOop : Type := mkMethod {
  code_base : address;
  constants : constantPoolOop
}.

(** A handle is a pointer that may be [NULL]. *)
Definition methodHandle : Type := option methodOop.
Definition KlassHandle : Type := option oop.

(** [LinkResolver]: each entry fills the two handles passed by reference,
    or leaves an exception pending in the thread. *)
Record LinkResolver : Type := mkResolver {
  resolve_method : constantPoolOop -> Z -> M (methodHandle * KlassHandle);
  resolve_interface_method : constantPoolOop -> Z -> M (methodHandle * KlassHandle);
  resolve_dynamic_method : constantPoolOop -> Z -> M (methodHandle * KlassHandle)
}.

Definition deref (h : methodHandle) : M methodOop :=
  match h with
  | Some m => ret m
  | None => undefined "NULL method handle"
  end.

Definition bcp_from (m : methodOop) (bci : Z) : address := code_base m + bci.

(** Accessors over a method and a bytecode index. *)
Record Bytecode_member_ref : Type := mkMemberRef {
  mr_method : methodHandle;
  mr_bci : Z
}.

Record Bytecode_loadconstant : Type := mkLoadConstant {
  lc_bci : Z;
  lc_method : methodHandle
}.

(** [Bytecode], [Bytecode_lookupswitch], [Bytecode_tableswitch] and
    [LookupswitchPair] are this-relative objects: the object is the address
    of the bytes it views. *)
Definition Bytecode : Type := address.

Section Accessors.
Variable B : Build.
Variable T : Bytecodes.Table.
Variable LR : LinkResolver.

Import Bytecodes.

(** *** Assertions *)

(** Modelled from the spec: the [assert] macro (utilities/debug.hpp, not
    under src/): a fatal internal-consistency failure, checked only in debug
    builds; the condition is not evaluated otherwise. *)
Definition vm_assertM (cond : M bool) (msg : string) : M unit :=
  if ASSERT B
  then c <- cond ;; if (c : bool) then ret tt else fatal msg
  else ret tt.

Definition vm_assert (cond : bool) (msg : string) : M unit :=
  vm_assertM (ret cond) msg.

(** Modelled from the spec: [constantPoolOopDesc::CPCACHE_INDEX_TAG]
    (constantPoolOop.hpp, not under src/), the fixed cache-index tag that
    keeps cache indices distinct from pool indices in debug builds, and zero
    otherwise. *)
Definition CPCACHE_INDEX_TAG : Z := if ASSERT B then 65536 else 0.

(** *** Class [Bytecode]: address computation and raw access

    Modelled from the spec: these inline members are declared in
    bytecode.hpp, which is not under src/ (section 4.2: big-endian reads
    relative to the instruction, and rounding up to a 4-byte boundary). *)

Definition addr_at (this : Bytecode) (offset : Z) : address := this + offset.

Definition round_to (x s : Z) : Z := Z.land (x + (s - 1)) (Z.lnot (s - 1)).

Definition aligned_addr_at (this : Bytecode) (offset : Z) : address :=
  round_to (addr_at this offset) jintSize.

Definition aligned_offset (this : Bytecode) (offset : Z) : Z :=
  wrap_jint (aligned_addr_at this offset - addr_at this 0).

Definition byte_at (this : Bytecode) (offset : Z) : M Z :=
  gets (fun s => u1_at (memory s) (addr_at this offset)).

Definition get_Java_u2_at (this : Bytecode) (offset : Z) : M Z :=
  gets (fun s => get_Java_u2 (memory s) (addr_at this offset)).

Definition get_Java_u4_at (this : Bytecode) (offset : Z) : M Z :=
  gets (fun s => wrap_jint (get_Java_u4 (memory s) (addr_at this offset))).

Definition get_native_u2_at (this : Bytecode) (offset : Z) : M Z :=
  gets (fun s => get_native_u2 B (memory s) (addr_at this offset)).

Definition get_native_u4_at (this : Bytecode) (offset : Z) : M Z :=
  gets (fun s => wrap_jint (get_native_u4 B (memory s) (addr_at this offset))).

(** Modelled from the spec: [Bytecode::code()], the opcode being the first
    byte of the instruction. *)
Definition code (this : Bytecode) : M Code :=
  c <- byte_at this 0 ;; ret (cast c).

Definition java_code (this : Bytecode) : M Code :=
  c <- code this ;; ret (Bytecodes.java_code T c).

(** *** Implementation of Bytecode *)

Definition check_must_rewrite (this : Bytecode) (code : Code) : M bool :=
  vm_assert (can_rewrite T code) "post-check only" ;;
  (* Some codes are conditionally rewriting. *)
  if code =? _aload_0 then ret false
  else if code =? _lookupswitch then ret false
  else if code =? _new then ret false
  else ret true.

(** The format checks exist under [ASSERT] only. *)

Definition compare_formats (testbc thisbc : Code) (is_wide : bool) : M unit :=
  let thisflags := Z.land (flags T testbc is_wide) _all_fmt_bits in
  let testflags := Z.land (flags T thisbc is_wide) _all_fmt_bits in
  when (negb (thisflags =? testflags))
       (print_cr (Tty_same_format testbc thisbc is_wide testflags thisflags)) ;;
  vm_assert (thisflags =? testflags) "expected format".

Definition assert_same_format_as (this : Bytecode) (testbc : Code)
           (is_wide : bool) : M unit :=
  if negb (ASSERT B) then ret tt else
  b0 <- byte_at this 0 ;;
  let thisbc := cast b0 in
  if thisbc =? _breakpoint then ret tt (* let the assertion fail silently *)
  else if is_wide then
    vm_assert (thisbc =? _wide) "expected a wide instruction" ;;
    b1 <- byte_at this 1 ;;
    let thisbc := cast b1 in
    if thisbc =? _breakpoint then ret tt
    else compare_formats testbc thisbc is_wide
  else compare_formats testbc thisbc is_wide.

Definition assert_index_size (size : Z) (bc : Code) (is_wide : bool) : M unit :=
  if negb (ASSERT B) then ret tt else
  let have_fmt :=
    Z.land (flags T bc is_wide)
           (Z.lor (Z.lor (Z.lor _fmt_has_u2 _fmt_has_u4) _fmt_not_simple)
                  _fmt_has_o) in
  let need_fmt :=
    if size =? 1 then 0
    else if size =? 2 then _fmt_has_u2
    else if size =? 4 then _fmt_has_u4
    else -1 in
  let need_fmt := if is_wide then Z.lor need_fmt _fmt_not_simple else need_fmt in
  if negb (have_fmt =? need_fmt) then
    print_cr (Tty_index_size size bc is_wide have_fmt need_fmt) ;;
    vm_assert (have_fmt =? need_fmt) "assert_index_size"
  else ret tt.

Definition assert_offset_size (size : Z) (bc : Code) (is_wide : bool) : M unit :=
  if negb (ASSERT B) then ret tt else
  let have_fmt := Z.land (flags T bc is_wide) _all_fmt_bits in
  let need_fmt :=
    if size =? 2 then _fmt_bo2
    else if size =? 4 then _fmt_bo4
    else -1 in
  let need_fmt := if is_wide then Z.lor need_fmt _fmt_not_simple else need_fmt in
  if negb (have_fmt =? need_fmt) then
    print_cr (Tty_offset_size size bc is_wide have_fmt need_fmt) ;;
    vm_assert (have_fmt =? need_fmt) "assert_offset_size"
  else ret tt.

Definition assert_constant_size (size where_ : Z) (bc : Code)
           (is_wide : bool) : M unit :=
  if negb (ASSERT B) then ret tt else
  let have_fmt :=
    Z.land (flags T bc is_wide)
           (Z.land _all_fmt_bits (Z.lnot _fmt_has_i)) in
  let need_fmt :=
    if size =? 1 then _fmt_bc
    else if size =? 2 then Z.lor _fmt_bc _fmt_has_u2
    else -1 in
  let need_fmt := if is_wide then Z.lor need_fmt _fmt_not_simple else need_fmt in
  let length := if is_wide then wide_length_for T bc else length_for T bc in
  when (negb (have_fmt =? need_fmt) || negb (wrap_jint (where_ + size) =? length))
       (print_cr (Tty_constant_size size where_ bc is_wide have_fmt need_fmt)) ;;
  vm_assert (have_fmt =? need_fmt) "assert_constant_size" ;;
  vm_assert (wrap_jint (where_ + size) =? length) "assert_constant_size oob".

Definition assert_native_index (bc : Code) (is_wide : bool) : M unit :=
  if negb (ASSERT B) then ret tt else
  vm_assert (negb (Z.land (flags T bc is_wide) _fmt_has_nbo =? 0)) "native index".

(** *** Index operands

    Modelled from the spec: the operand readers of bytecode.hpp, which is
    not under src/ (sections 4.3 and 4.5). Each one runs the format checks
    of bytecode.cpp and then reads its field; the cache-index readers add
    the cache-index tag. *)

Definition can_use_native_byte_order (bc : Code) (is_wide : bool) : bool :=
  negb (Java_byte_ordering_different B) || native_byte_order T bc.

Definition get_index_u1 (this : Bytecode) (bc : Code) : M Z :=
  assert_same_format_as this bc false ;;
  assert_index_size 1 bc false ;;
  byte_at this 1.

Definition get_index_u2 (this : Bytecode) (bc : Code) (is_wide : bool) : M Z :=
  assert_same_format_as this bc is_wide ;;
  assert_index_size 2 bc is_wide ;;
  let p := if is_wide then 2 else 1 in
  if can_use_native_byte_order bc is_wide
  then get_native_u2_at this p
  else get_Java_u2_at this p.

Definition get_index_u2_cpcache (this : Bytecode) (bc : Code) : M Z :=
  assert_same_format_as this bc false ;;
  assert_index_size 2 bc false ;;
  assert_native_index bc false ;;
  v <- get_native_u2_at this 1 ;;
  ret (wrap_jint (v + CPCACHE_INDEX_TAG)).

Definition get_index_u4 (this : Bytecode) (bc : Code) : M Z :=
  assert_same_format_as this bc false ;;
  assert_index_size 4 bc false ;;
  vm_assert (can_use_native_byte_order bc false) "" ;;
  get_native_u4_at this 1.

Definition has_index_u4 (bc : Code) : bool := bc =? _invokedynamic.

(** Modelled from the spec: [constantPoolCacheOopDesc::entry_at]
    (cpCacheOop.hpp, not under src/): the entry of a slot, the slot being
    checked against the length of the cache in debug builds. *)
Definition entry_at (c : constantPoolCacheOop) (i : Z) : M ConstantPoolCacheEntry :=
  vm_assert ((0 <=? i) && (i <? cache_length c)) "index out of bounds" ;;
  ret (cache_base c i).

(** [_method->constants()->cache()->entry_at(index)->constant_pool_index()] *)
Definition cache_pool_index (m : methodOop) (index : Z) : M Z :=
  match cache (constants m) with
  | None => undefined "NULL constant pool cache"
  | Some c => e <- entry_at c index ;; ret (constant_pool_index e)
  end.

(** *** Implementation of Bytecode_member_ref and Bytecode_invoke *)

Definition Bytecode_member_ref_bytecode (mr : Bytecode_member_ref) : M Bytecode :=
  m <- deref (mr_method mr) ;; ret (bcp_from m (mr_bci mr)).

Definition Bytecode_member_ref_code (mr : Bytecode_member_ref) : M Code :=
  bcp <- Bytecode_member_ref_bytecode mr ;; code bcp.

Definition Bytecode_member_ref_java_code (mr : Bytecode_member_ref) : M Code :=
  c <- Bytecode_member_ref_code mr ;; ret (Bytecodes.java_code T c).

Definition Bytecode_member_ref_index (mr : Bytecode_member_ref) : M Z :=
  rawc <- Bytecode_member_ref_code mr ;;
  invoke <- Bytecode_member_ref_bytecode mr ;;
  if has_index_u4 rawc
  then get_index_u4 invoke rawc
  else get_index_u2_cpcache invoke rawc.

Definition Bytecode_member_ref_pool_index (mr : Bytecode_member_ref) : M Z :=
  index <- Bytecode_member_ref_index mr ;;
  index <- (if ASSERT B then
              bcp <- Bytecode_member_ref_bytecode mr ;;
              c <- Bytecode_member_ref_code mr ;;
              if negb (has_index_u4 c)
              then ret (wrap_jint (index - CPCACHE_INDEX_TAG))
              else ret index
            else ret index) ;;
  m <- deref (mr_method mr) ;;
  cache_pool_index m index.

Definition Bytecode_member_ref_signature (mr : Bytecode_member_ref) : M symbolOop :=
  m <- deref (mr_method mr) ;;
  let constants := constants m in
  i <- Bytecode_member_ref_index mr ;;
  signature_ref_at constants i.

Definition Bytecode_member_ref_name (mr : Bytecode_member_ref) : M symbolOop :=
  m <- deref (mr_method mr) ;;
  let constants := constants m in
  i <- Bytecode_member_ref_index mr ;;
  name_ref_at constants i.

(** [CHECK_(result)]: after a call that may throw, return [result] when an
    exception is pending in the thread. *)
Definition CHECK_ {A} (result : A) (k : M A) : M A :=
  pe <- gets pending_exception ;;
  match pe with
  | Some _ => ret result
  | None => k
  end.

Definition Bytecode_invoke_static_target (inv : Bytecode_member_ref) : M methodHandle :=
  mo <- deref (mr_method inv) ;;
  let constants := constants mo in
  jc <- Bytecode_member_ref_java_code inv ;;
  if jc =? _invokedynamic then
    i <- Bytecode_member_ref_index inv ;;
    r <- resolve_dynamic_method LR constants i ;;
    CHECK_ None (ret (fst r))
  else
    jc <- Bytecode_member_ref_java_code inv ;;
    if negb (jc =? _invokeinterface) then
      i <- Bytecode_member_ref_index inv ;;
      r <- resolve_method LR constants i ;;
      CHECK_ None (ret (fst r))
    else
      i <- Bytecode_member_ref_index inv ;;
      r <- resolve_interface_method LR constants i ;;
      CHECK_ None (ret (fst r)).

(** *** Implementation of Bytecode_loadconstant *)

Definition Bytecode_loadconstant_bytecode (lc : Bytecode_loadconstant) : M Bytecode :=
  m <- deref (lc_method lc) ;; ret (bcp_from m (lc_bci lc)).

Definition Bytecode_loadconstant_code (lc : Bytecode_loadconstant) : M Code :=
  bcp <- Bytecode_loadconstant_bytecode lc ;; code bcp.

(** Modelled from the spec: [Bytecode_loadconstant::has_cache_index]
    (bytecode.hpp, not under src/): only the rewritten, non-standard forms
    of the instruction carry a cache index. *)
Definition Bytecode_loadconstant_has_cache_index (lc : Bytecode_loadconstant) : M bool :=
  c <- Bytecode_loadconstant_code lc ;; ret (number_of_java_codes <=? c).

Definition Bytecode_loadconstant_raw_index (lc : Bytecode_loadconstant) : M Z :=
  bcp <- Bytecode_loadconstant_bytecode lc ;;
  rawc <- code bcp ;;
  vm_assert (negb (rawc =? _wide)) "verifier prevents this" ;;
  if Bytecodes.java_code T rawc =? _ldc
  then get_index_u1 bcp rawc
  else get_index_u2 bcp rawc false.

Definition Bytecode_loadconstant_pool_index (lc : Bytecode_loadconstant) : M Z :=
  index <- Bytecode_loadconstant_raw_index lc ;;
  h <- Bytecode_loadconstant_has_cache_index lc ;;
  if (h : bool) then
    m <- deref (lc_method lc) ;;
    cache_pool_index m index
  else ret index.

Definition Bytecode_loadconstant_resolve_constant (lc : Bytecode_loadconstant) : M oop :=
  vm_assert (match lc_method lc with Some _ => true | None => false end)
            "must supply method to resolve constant" ;;
  index <- Bytecode_loadconstant_raw_index lc ;;
  m <- deref (lc_method lc) ;;
  let constants := constants m in
  h <- Bytecode_loadconstant_has_cache_index lc ;;
  if (h : bool)
  then resolve_cached_constant_at constants index
  else resolve_constant_at constants index.

(** *** Switch accessors

    Modelled from the spec: the inline attribute readers of
    [Bytecode_lookupswitch], [LookupswitchPair] and [Bytecode_tableswitch]
    (bytecode.hpp, not under src/; section 4.6): 4-byte fields at fixed
    aligned offsets following the opcode byte. *)

Definition jint_add (a b : Z) : Z := wrap_jint (a + b).
Definition jint_sub (a b : Z) : Z := wrap_jint (a - b).
Definition jint_mul (a b : Z) : Z := wrap_jint (a * b).

Definition Bytecode_lookupswitch_default_offset (this : Bytecode) : M Z :=
  get_Java_u4_at this (aligned_offset this (1 + 0 * jintSize)).

Definition Bytecode_lookupswitch_number_of_pairs (this : Bytecode) : M Z :=
  get_Java_u4_at this (aligned_offset this (1 + 1 * jintSize)).

Definition Bytecode_lookupswitch_pair_at (this : Bytecode) (i : Z) : M address :=
  vm_assertM (n <- Bytecode_lookupswitch_number_of_pairs this ;;
              ret ((0 <=? i) && (i <? n)))
             "pair index out of bounds" ;;
  ret (aligned_addr_at this (jint_add 1 (jint_mul (jint_mul (jint_add 1 i) 2) jintSize))).

Definition LookupswitchPair_match (this : address) : M Z :=
  get_Java_u4_at this (0 * jintSize).

Definition LookupswitchPair_offset (this : address) : M Z :=
  get_Java_u4_at this (1 * jintSize).

Definition Bytecode_tableswitch_default_offset (this : Bytecode) : M Z :=
  get_Java_u4_at this (aligned_offset this (1 + 0 * jintSize)).

Definition Bytecode_tableswitch_low_key (this : Bytecode) : M Z :=
  get_Java_u4_at this (aligned_offset this (1 + 1 * jintSize)).

Definition Bytecode_tableswitch_high_key (this : Bytecode) : M Z :=
  get_Java_u4_at this (aligned_offset this (1 + 2 * jintSize)).

(** Implementation of Bytecode_tableswitch *)

Definition Bytecode_tableswitch_dest_offset_at (this : Bytecode) (i : Z) : M Z :=
  get_Java_u4_at this
    (aligned_offset this (jint_add 1 (jint_mul (jint_add 3 i) jintSize))).

(** Non-product code *)

(** [while (i-- > 0) body], entered with [i = Z.of_nat k]: the body runs
    with [i] equal to [k-1], ..., [0]. *)
Fixpoint countdown (body : Z -> M unit) (k : nat) : M unit :=
  match k with
  | O => ret tt
  | S k' => body (Z.of_nat k') ;; countdown body k'
  end.

(** The body of the loop of [Bytecode_lookupswitch::verify]. *)
Definition sorted_check (this : Bytecode) (i : Z) : M unit :=
  vm_assertM
    (p <- Bytecode_lookupswitch_pair_at this i ;;
     m <- LookupswitchPair_match p ;;
     p' <- Bytecode_lookupswitch_pair_at this (jint_add i 1) ;;
     m' <- LookupswitchPair_match p' ;;
     ret (m <? m'))
    "unsorted table entries".

Definition Bytecode_lookupswitch_verify (this : Bytecode) : M unit :=
  if PRODUCT B then ret tt else
  c <- code this ;;
  if Bytecodes.java_code T c =? _lookupswitch then
    n <- Bytecode_lookupswitch_number_of_pairs this ;;
    let i := jint_sub n 1 in
    countdown (sorted_check this) (Z.to_nat i)
  else fatal "not a lookupswitch bytecode".

Definition Bytecode_tableswitch_verify (this : Bytecode) : M unit :=
  if PRODUCT B then ret tt else
  c <- code this ;;
  if Bytecodes.java_code T c =? _tableswitch then
    lo <- Bytecode_tableswitch_low_key this ;;
    hi <- Bytecode_tableswitch_high_key this ;;
    vm_assert (lo <=? hi) "incorrect hi/lo values in tableswitch" ;;
    let i := jint_sub (jint_sub hi lo) 1 in
    countdown (fun _ => ret tt (* no special check needed *)) (Z.to_nat i)
  else fatal "not a tableswitch bytecode".

End Accessors.

(** ** Concrete builds, tables and memories

    The accessors are evaluated below on concrete instructions; this is the
    environment they run in. *)

(** The debug build has assertions, the product build has neither
    assertions nor the non-product code, and the optimized build has the
    non-product code without assertions. The platform stores its integers
    in Java byte order, except in the build named [_le]. *)
Definition debug_build : Build := mkBuild true false false.
Definition optimized_build : Build := mkBuild false false false.
Definition product_build : Build := mkBuild false true false.
Definition product_build_le : Build := mkBuild false true true.

(** Memory holding [bytes] from address [base] on, and zero elsewhere. *)
Definition mem_of_bytes (base : address) (bytes : list Z) : address -> Z :=
  fun a => if a <? base then 0 else nth (Z.to_nat (a - base)) bytes 0.

Definition vm_of_bytes (base : address) (bytes : list Z) : VM :=
  mkVM (mem_of_bytes base bytes) [] None.

(** Modelled from the spec: an excerpt of the format table (section 3 and
    section 8: [invokevirtual] has a 2-byte cache index and length 3); the
    table itself is filled by bytecodes.cpp, which is not under src/. The
    wide form of these opcodes has no format. *)
Definition demo_flags (c : Bytecodes.Code) (is_wide : bool) : Z :=
  if is_wide then 0
  else if c =? Bytecodes._ldc then
    Z.lor (Z.lor Bytecodes._bc_can_trap Bytecodes._bc_can_rewrite)
          (Z.lor Bytecodes._fmt_b Bytecodes._fmt_has_k)
  else if c =? Bytecodes._ldc_w then
    Z.lor (Z.lor Bytecodes._bc_can_trap Bytecodes._bc_can_rewrite) Bytecodes._fmt_bkk
  else if c =? Bytecodes._aload_0 then
    Z.lor Bytecodes._bc_can_rewrite Bytecodes._fmt_b
  else if c =? Bytecodes._tableswitch then Bytecodes._fmt_not_simple
  else if c =? Bytecodes._lookupswitch then
    Z.lor Bytecodes._bc_can_rewrite Bytecodes._fmt_not_simple
  else if (Bytecodes._getfield <=? c) && (c <=? Bytecodes._invokeinterface) then
    Z.lor Bytecodes._bc_can_trap Bytecodes._fmt_bJJ
  else if c =? Bytecodes._invokedynamic then
    Z.lor Bytecodes._bc_can_trap
          (Z.lor (Z.lor (Z.lor Bytecodes._fmt_b Bytecodes._fmt_has_j)
                        Bytecodes._fmt_has_u4) Bytecodes._fmt_has_nbo)
  else if c =? Bytecodes._new then
    Z.lor (Z.lor Bytecodes._bc_can_trap Bytecodes._bc_can_rewrite) Bytecodes._fmt_bkk
  else if c =? Bytecodes._wide then Bytecodes._fmt_not_simple
  else if c =? Bytecodes._breakpoint then
    Z.lor Bytecodes._bc_can_trap Bytecodes._fmt_not_simple
  else if c =? Bytecodes._fast_aldc then
    Z.lor Bytecodes._bc_can_trap (Z.lor Bytecodes._fmt_b Bytecodes._fmt_has_j)
  else if c =? Bytecodes._fast_aldc_w then
    Z.lor Bytecodes._bc_can_trap Bytecodes._fmt_bJJ
  else 0.

Definition demo_length_for (c : Bytecodes.Code) : Z :=
  if (c =? Bytecodes._ldc) || (c =? Bytecodes._fast_aldc) then 2
  else if c =? Bytecodes._aload_0 then 1
  else if (c =? Bytecodes._tableswitch) || (c =? Bytecodes._lookupswitch) then 0
  else if (c =? Bytecodes._invokeinterface) || (c =? Bytecodes._invokedynamic) then 5
  else 3.

Definition demo_java_code (c : Bytecodes.Code) : Bytecodes.Code :=
  if c =? Bytecodes._fast_aldc then Bytecodes._ldc
  else if c =? Bytecodes._fast_aldc_w then Bytecodes._ldc_w
  else c.

Definition demo_table : Bytecodes.Table :=
  Bytecodes.mkTable demo_flags demo_length_for (fun _ => 0) demo_java_code.

(** Big-endian image of a 32-bit value. *)
Definition be32 (z : Z) : list Z :=
  [(z / 2 ^ 24) mod 256; (z / 2 ^ 16) mod 256; (z / 2 ^ 8) mod 256; z mod 256].

(** The bytes of a [lookupswitch] and of a [tableswitch] whose opcode lies
    at an address that is a multiple of four: three bytes of padding follow
    the opcode. *)
Definition lookupswitch_bytes (default : Z) (pairs : list (Z * Z)) : list Z :=
  (Bytecodes._lookupswitch :: 0 :: 0 :: 0 ::
   be32 default ++ be32 (Z.of_nat (List.length pairs)) ++
   flat_map (fun p => be32 (fst p) ++ be32 (snd p)) pairs)%list.

Definition tableswitch_bytes (default lo hi : Z) (offsets : list Z) : list Z :=
  (Bytecodes._tableswitch :: 0 :: 0 :: 0 ::
   be32 default ++ be32 lo ++ be32 hi ++ flat_map be32 offsets)%list.

(** Modelled from the spec: a constant pool (section 6) whose slot [i] holds
    a member named [5000 + i] with descriptor [6000 + i] and a constant
    [7000 + i], and whose cached-constant path resolves the pool slot stored
    in the cache entry; constantPoolOop.cpp is not under src/. *)
Definition demo_pool (c : option constantPoolCacheOop) : constantPoolOop :=
  mkPool c
         (fun i => ret (5000 + i))
         (fun i => ret (6000 + i))
         (fun i => ret (7000 + i))
         (fun slot =>
            match c with
            | Some ca => ret (7000 + constant_pool_index (cache_base ca slot))
            | None => undefined "NULL constant pool cache"
            end).

(** A cache of 50 entries: slot 7 was allocated for pool slot 42, and slot
    [i] for pool slot [100 + i] otherwise. *)
Definition demo_cache : constantPoolCacheOop :=
  mkCache 50 (fun i => mkEntry (if i =? 7 then 42 else 100 + i)).

Definition demo_method (c : option constantPoolCacheOop) : methodOop :=
  mkMethod 1000 (demo_pool c).

(** A link resolver whose ordinary resolution throws (exception 99 is left
    pending), whose interface resolution finds a method, and whose dynamic
    resolution stops the VM. *)
Definition demo_resolver : LinkResolver :=
  mkResolver
    (fun _ _ s => (Normal (None, None), mkVM (memory s) (tty s) (Some 99)))
    (fun cp _ s => (Normal (Some (mkMethod 2000 cp), Some 77), s))
    (fun _ _ s => (VMError "resolve_dynamic_method", s)).

(** The switch instructions of section 8, at address 1000. *)
Definition demo_tableswitch_vm : VM :=
  vm_of_bytes 1000 (tableswitch_bytes (-20) 2 4 [10; 20; 30]).

Definition demo_lookupswitch_vm : VM :=
  vm_of_bytes 1000 (lookupswitch_bytes 0 [(1, 100); (5, 200); (9, 300)]).

Definition unsorted_lookupswitch_vm : VM :=
  vm_of_bytes 1000 (lookupswitch_bytes 0 [(5, 200); (1, 100)]).

Definition inverted_tableswitch_vm : VM :=
  vm_of_bytes 1000 (tableswitch_bytes (-20) 4 2 []).

(** An [invokevirtual] on which a breakpoint has been set, and the same
    instruction after the rewriter has stored cache slot 7 in it. *)
Definition breakpoint_vm : VM := vm_of_bytes 1000 [202; 0; 7].
Definition invokevirtual_vm : VM := vm_of_bytes 1000 [182; 0; 7].

(** The instruction of [invokevirtual_vm] before the rewriter has run:
    its operand is pool slot 42, in Java byte order. *)
Definition unrewritten_invokevirtual_vm : VM := vm_of_bytes 1000 [182; 0; 42].

(** The accessor for the instruction at index 0 of the method at 1000. *)
Definition demo_member_ref : Bytecode_member_ref :=
  mkMemberRef (Some (demo_method (Some demo_cache))) 0.

(** An [ldc] of pool slot 42, and the same instruction rewritten to
    [fast_aldc] with cache slot 7. *)
Definition ldc_vm : VM := vm_of_bytes 1000 [18; 42].
Definition fast_aldc_vm : VM := vm_of_bytes 1000 [229; 7].

Definition demo_loadconstant (c : option constantPoolCacheOop) : Bytecode_loadconstant :=
  mkLoadConstant 0 (Some (demo_method c)).

(** An [invokeinterface] with cache slot 7. *)
Definition invokeinterface_vm : VM := vm_of_bytes 1000 [185; 0; 7; 1; 0].

(** ** Views of the instruction bytes used to state the properties *)

(** The opcode at [this]. *)
Definition opcode_at (s : VM) (this : address) : Bytecodes.Code :=
  Bytecodes.cast (u1_at (memory s) this).

(** The 32-bit big-endian word at [p], as a C++ [int]. *)
Definition jint_at (s : VM) (p : address) : Z :=
  wrap_jint (get_Java_u4 (memory s) p).

(** [pair_at(i)->match()], [number_of_pairs()], [low_key()] and
    [high_key()] as values read from the state. *)
Definition pair_match_at (s : VM) (this : Bytecode) (i : Z) : Z :=
  jint_at s (aligned_addr_at this
               (jint_add 1 (jint_mul (jint_mul (jint_add 1 i) 2) jintSize))).

Definition number_of_pairs_at (s : VM) (this : Bytecode) : Z :=
  jint_at s (this + aligned_offset this 5).

Definition low_key_at (s : VM) (this : Bytecode) : Z :=
  jint_at s (this + aligned_offset this 5).

Definition high_key_at (s : VM) (this : Bytecode) : Z :=
  jint_at s (this + aligned_offset this 9).

(** The pairs of a lookupswitch are strictly increasing by match key. *)
Definition pairs_sorted (s : VM) (this : Bytecode) : Prop :=
  forall i, 0 <= i < number_of_pairs_at s this - 1 ->
            pair_match_at s this i < pair_match_at s this (i + 1).

(** The jump table of a tableswitch: its first entry lies past the three
    header words (default, low, high), and it has [high - low + 1] entries
    ([Bytecode_tableswitch::length()]). A 4-byte field at [p] is an entry of
    the table when it lies within these entries. *)
Definition tableswitch_entries (this : Bytecode) : address :=
  aligned_addr_at this 1 + 3 * jintSize.

Definition tableswitch_length (s : VM) (this : Bytecode) : Z :=
  high_key_at s this - low_key_at s this + 1.

Definition in_jump_table (s : VM) (this : Bytecode) (p : address) : Prop :=
  tableswitch_entries this <= p /\
  p + jintSize <= tableswitch_entries this + tableswitch_length s this * jintSize.

(** The format bits of an opcode, and the opcode that
    [assert_same_format_as] decodes: the byte after the wide prefix when
    [is_wide], the first byte otherwise. *)
Definition format_bits (T : Bytecodes.Table) (c : Bytecodes.Code)
           (is_wide : bool) : Z :=
  Z.land (Bytecodes.flags T c is_wide) Bytecodes._all_fmt_bits.

Definition decoded_opcode (s : VM) (this : Bytecode) (is_wide : bool) : Bytecodes.Code :=
  if is_wide then opcode_at s (this + 1) else opcode_at s this.

(** The format that the operand readers of a member reference demand of
    its opcode in a debug build: a 2-byte index in native byte order, or,
    for the opcode with a 4-byte index, a 4-byte one. *)
Definition index_size_bits (T : Bytecodes.Table) (bc : Bytecodes.Code) : Z :=
  Z.land (Bytecodes.flags T bc false)
         (Z.lor (Z.lor (Z.lor Bytecodes._fmt_has_u2 Bytecodes._fmt_has_u4)
                       Bytecodes._fmt_not_simple)
                Bytecodes._fmt_has_o).

Definition member_ref_format (B : Build) (T : Bytecodes.Table)
           (bc : Bytecodes.Code) : Prop :=
  if has_index_u4 bc
  then index_size_bits T bc = Bytecodes._fmt_has_u4 /\
       can_use_native_byte_order B T bc false = true
  else index_size_bits T bc = Bytecodes._fmt_has_u2 /\
       Z.land (Bytecodes.flags T bc false) Bytecodes._fmt_has_nbo <> 0.

(** The operand of a member reference as the instruction stores it: the
    native-order 2-byte field, or the 4-byte field of the opcode with a
    4-byte index. *)
Definition member_ref_operand (B : Build) (s : VM) (bcp : address) : Z :=
  if has_index_u4 (opcode_at s bcp)
  then wrap_jint (get_native_u4 B (memory s) (bcp + 1))
  else get_native_u2 B (memory s) (bcp + 1).

(** What [index()] makes of that operand: the readers of a 2-byte cache
    index add the cache-index tag. *)
Definition member_ref_index_value (B : Build) (s : VM) (bcp : address) : Z :=
  if has_index_u4 (opcode_at s bcp)
  then member_ref_operand B s bcp
  else member_ref_operand B s bcp + CPCACHE_INDEX_TAG B.

(** The resolver that belongs to a call opcode in its Java form. *)
Definition resolver_for (LR : LinkResolver) (jc : Bytecodes.Code)
  : constantPoolOop -> Z -> M (methodHandle * KlassHandle) :=
  if jc =? Bytecodes._invokedynamic then resolve_dynamic_method LR
  else if jc =? Bytecodes._invokeinterface then resolve_interface_method LR
  else resolve_method LR.

(** The same accessor over a method whose constant pool has another cache. *)
Definition with_cache (m : methodOop) (c : option constantPoolCacheOop) : methodOop :=
  mkMethod (code_base m)
           (mkPool c
                   (name_ref_at (constants m))
                   (signature_ref_at (constants m))
                   (resolve_constant_at (constants m))
                   (resolve_cached_constant_at (constants m))).

(** A computation that, when it returns, leaves the VM state as found. *)
Definition in_place {A} (c : M A) : Prop :=
  forall s a s', c s = (Normal a, s') -> s' = s.

Definition lc_with_cache (lc : Bytecode_loadconstant)
           (c : option constantPoolCacheOop) : Bytecode_loadconstant :=
  mkLoadConstant (lc_bci lc) (option_map (fun m => with_cache m c) (lc_method lc)).

(** The format that [raw_index()] demands of a load-constant opcode in a
    debug build, and the operand it reads: one byte for the forms of
    [ldc], two bytes otherwise. *)
Definition loadconstant_format (T : Bytecodes.Table) (bc : Bytecodes.Code) : Prop :=
  bc <> Bytecodes._wide /\
  index_size_bits T bc
  = if Bytecodes.java_code T bc =? Bytecodes._ldc then 0 else Bytecodes._fmt_has_u2.

Definition loadconstant_operand (B : Build) (T : Bytecodes.Table) (s : VM)
           (bcp : address) : Z :=
  if Bytecodes.java_code T (opcode_at s bcp) =? Bytecodes._ldc
  then u1_at (memory s) (bcp + 1)
  else if can_use_native_byte_order B T (opcode_at s bcp) false
       then get_native_u2 B (memory s) (bcp + 1)
       else get_Java_u2 (memory s) (bcp + 1).

(** Modelled from the spec: the constant pool and its cache, whose code
    (constantPoolOop.cpp, cpCacheOop.cpp) is not under src/. Section 6
    gives the pool [resolve_constant_at(index) -> value] and the cache
    [entry_at(slot) -> {constant_pool_index, ...}] and
    [resolve_cached_constant_at(slot) -> value]; the glossary calls the cache
    a side table mapping cache slots to pre-resolved pool entries; section
    4.3 has the cache entry store the original pool slot. So the pool holds
    a constant per slot, which the direct path yields, and a cache entry
    holds, once it is filled, a resolved constant, which the cached path
    yields. What the cached path does on an entry that is not filled is left
    open, as are the names and the descriptors of the pool. *)
Record pool_model : Type := mkPoolModel {
  pool_constant : Z -> oop;
  entry_value : Z -> option oop;
  resolve_unfilled : Z -> M oop;
  pool_name_ref_at : Z -> M symbolOop;
  pool_signature_ref_at : Z -> M symbolOop
}.

Definition model_pool (d : pool_model) (c : option constantPoolCacheOop)
  : constantPoolOop :=
  mkPool c
         (pool_name_ref_at d)
         (pool_signature_ref_at d)
         (fun index => ret (pool_constant d index))
         (fun slot =>
            match c with
            | None => undefined "NULL constant pool cache"
            | Some _ =>
                match entry_value d slot with
                | Some v => ret v
                | None => resolve_unfilled d slot
                end
            end).

(** Modelled from the spec: the cache populated for slot [k] (section 4.5,
    section 8): entry [k] is filled with the pre-resolved pool entry it
    stands for, the constant of the pool slot that the entry stores. *)
Definition populate (d : pool_model) (c : constantPoolCacheOop) (k : Z)
  : pool_model :=
  mkPoolModel
    (pool_constant d)
    (fun slot =>
       if slot =? k
       then Some (pool_constant d (constant_pool_index (cache_base c k)))
       else entry_value d slot)
    (resolve_unfilled d)
    (pool_name_ref_at d)
    (pool_signature_ref_at d).

(** A pool whose slot [i] holds the constant [7000 + i] and whose cache has
    no entry filled yet; the same pool with entry 7 holding a constant that
    is not the one of its pool slot; and a load-constant accessor over a
    method with a given pool. *)
Definition demo_pool_model : pool_model :=
  mkPoolModel (fun i => 7000 + i) (fun _ => None)
              (fun _ => fatal "unfilled cache entry")
              (fun i => ret (5000 + i)) (fun i => ret (6000 + i)).

Definition misfilled_pool_model : pool_model :=
  mkPoolModel (fun i => 7000 + i) (fun slot => if slot =? 7 then Some 9007 else None)
              (fun _ => fatal "unfilled cache entry")
              (fun i => ret (5000 + i)) (fun i => ret (6000 + i)).

Definition loadconstant_over (cp : constantPoolOop) : Bytecode_loadconstant :=
  mkLoadConstant 0 (Some (mkMethod 1000 cp)).

(** ** The remaining accessors of bytecode.cpp *)

Section More_accessors.
Variable B : Build.
Variable T : Bytecodes.Table.

(** [Bytecode_invoke::is_valid()] is declared in bytecode.hpp, which is not
    under src/: it is taken as it comes. *)
Variable is_valid : Bytecode_member_ref -> M bool.

(** Implementation of Bytecode_invoke *)
Definition Bytecode_invoke_verify (inv : Bytecode_member_ref) : M unit :=
  vm_assertM B (is_valid inv) "check invoke" ;;
  vm_assertM B
    (m <- deref (mr_method inv) ;;
     ret (match cache (constants m) with Some _ => true | None => false end))
    "do not call this from verifier or rewriter".

(** Implementation of Bytecode_field *)
Definition Bytecode_field_verify (f : Bytecode_member_ref) : M unit :=
  vm_assertM B (is_valid f) "check field".

(** Modelled from the spec: the tag of a pool slot ([tag_at(index)], section
    6) and the basic type a tag stands for; constantPoolOop.hpp and
    constantTag.hpp are not under src/. *)
Variable constantTag : Type.
Variable BasicType : Type.
Variable tag_at : constantPoolOop -> Z -> constantTag.
Variable basic_type : constantTag -> BasicType.

Definition Bytecode_loadconstant_result_type (lc : Bytecode_loadconstant) : M BasicType :=
  index <- Bytecode_loadconstant_pool_index B T lc ;;
  m <- deref (lc_method lc) ;;
  let tag := tag_at (constants m) index in
  ret (basic_type tag).

End More_accessors.

(** ** The layout of the switch instructions in memory *)

(** The four bytes at [p] are the big-endian image of [z]. *)
Definition word_at (s : VM) (p : address) (z : Z) : Prop :=
  u1_at (memory s) p = (z / 2 ^ 24) mod 256 /\
  u1_at (memory s) (p + 1) = (z / 2 ^ 16) mod 256 /\
  u1_at (memory s) (p + 2) = (z / 2 ^ 8) mod 256 /\
  u1_at (memory s) (p + 3) = z mod 256.

Definition is_jint (z : Z) : Prop := min_jint <= z <= max_jint.

(** The memory at [this] holds a tableswitch: the opcode, padding up to the
    next multiple of four, then the default offset, the low key, the high
    key and the offsets, each a big-endian 32-bit word. *)
Definition holds_tableswitch (s : VM) (this : Bytecode)
           (default lo hi : Z) (offsets : list Z) : Prop :=
  opcode_at s this = Bytecodes._tableswitch /\
  word_at s (aligned_addr_at this 1) default /\
  word_at s (aligned_addr_at this 1 + 4) lo /\
  word_at s (aligned_addr_at this 1 + 8) hi /\
  forall i : nat, (i < List.length offsets)%nat ->
    word_at s (aligned_addr_at this 1 + 12 + 4 * Z.of_nat i) (nth i offsets 0).

(** The memory at [this] holds a lookupswitch: the opcode, padding, the
    default offset, the number of pairs and the pairs of match key and
    offset. *)
Definition holds_lookupswitch (s : VM) (this : Bytecode)
           (default : Z) (pairs : list (Z * Z)) : Prop :=
  opcode_at s this = Bytecodes._lookupswitch /\
  word_at s (aligned_addr_at this 1) default /\
  word_at s (aligned_addr_at this 1 + 4) (Z.of_nat (List.length pairs)) /\
  forall i : nat, (i < List.length pairs)%nat ->
    word_at s (aligned_addr_at this 1 + 8 + 8 * Z.of_nat i)
            (fst (nth i pairs (0, 0))) /\
    word_at s (aligned_addr_at this 1 + 12 + 8 * Z.of_nat i)
            (snd (nth i pairs (0, 0))).

(** The match keys of a list of pairs increase strictly. *)
Definition keys_increasing (pairs : list (Z * Z)) : Prop :=
  forall i : nat, (S i < List.length pairs)%nat ->
    fst (nth i pairs (0, 0)) < fst (nth (S i) pairs (0, 0)).

(** A computation that never dereferences [NULL]. *)
Definition never_undefined {A} (c : M A) : Prop :=
  forall s w s', c s <> (Undefined w, s').

(** A computation that either returns in place or stops the VM. *)
Definition returns_or_stops {A} (c : M A) : Prop :=
  forall s, (exists a, c s = (Normal a, s)) \/
            (exists msg s', c s = (VMError msg, s')).

(** A computation that leaves the VM state as found, whatever its outcome. *)
Definition keeps_state {A} (c : M A) : Prop :=
  forall s, snd (c s) = s.

(** An [is_valid()] for call sites: the opcode in its Java form is one of
    the five invoke opcodes. *)
Definition demo_is_valid (inv : Bytecode_member_ref) : M bool :=
  c <- Bytecode_member_ref_java_code demo_table inv ;;
  ret ((Bytecodes._invokevirtual <=? c) && (c <=? Bytecodes._invokedynamic)).

(** An [invokevirtual] whose pool has no cache yet. *)
Definition uncached_member_ref : Bytecode_member_ref :=
  mkMemberRef (Some (demo_method None)) 0.

(** A [wide] prefix where a load-constant accessor was placed. *)
Definition wide_vm : VM := vm_of_bytes 1000 [196; 18; 0; 42].

(** A [tableswitch] whose opcode lies one byte before a multiple of four,
    so that no padding follows it. *)
Definition unpadded_tableswitch_vm : VM :=
  vm_of_bytes 1003
    (Bytecodes._tableswitch :: be32 7 ++ be32 0 ++ be32 1 ++ be32 100 ++ be32 200)%list.

(** * Properties *)

(** ** Machine integers *)

Lemma wrap_jint_small (z : Z) : min_jint <= z <= max_jint -> wrap_jint z = z.
Proof.
  unfold wrap_jint, min_jint, max_jint. intros H.
  rewrite Z.mod_small; lia.
Qed.

Lemma wrap_jint_range (z : Z) : min_jint <= wrap_jint z <= max_jint.
Proof.
  unfold wrap_jint, min_jint, max_jint.
  pose proof (Z.mod_pos_bound (z + 2 ^ 31) (2 ^ 32) ltac:(lia)). lia.
Qed.

Lemma to_u1_range (z : Z) : 0 <= to_u1 z < 256.
Proof. unfold to_u1. apply Z.mod_pos_bound. lia. Qed.

(** ** The monad *)

Lemma bind_normal {A C} (c : M A) (k : A -> M C) (s s' : VM) (a : A) :
  c s = (Normal a, s') -> bind c k s = k a s'.
Proof. unfold bind. intros ->. reflexivity. Qed.

Lemma bind_normal_inv {A C} (c : M A) (k : A -> M C) (s s' : VM) (b : C) :
  bind c k s = (Normal b, s') ->
  exists a s1, c s = (Normal a, s1) /\ k a s1 = (Normal b, s').
Proof.
  unfold bind. destruct (c s) as [[a|msg|w] s1]; intros H; try discriminate H.
  exists a, s1. split; [reflexivity|exact H].
Qed.

Lemma bind_vmerror {A C} (c : M A) (k : A -> M C) (s s' : VM) (msg : string) :
  c s = (VMError msg, s') -> bind c k s = (VMError msg, s').
Proof. unfold bind. intros ->. reflexivity. Qed.

Lemma vm_assert_true (B : Build) (msg : string) (s : VM) :
  vm_assert B true msg s = (Normal tt, s).
Proof. unfold vm_assert, vm_assertM. destruct (ASSERT B); reflexivity. Qed.

Lemma countdown_skip (k : nat) (s : VM) :
  countdown (fun _ => ret tt) k s = (Normal tt, s).
Proof.
  induction k as [|k IH]; simpl; [reflexivity|].
  unfold bind, ret in *. exact IH.
Qed.

(** ** The rewrite policy *)

Section Rewrite_policy.
Variable B : Build.
Variable T : Bytecodes.Table.

(** C2. For an opcode that can be rewritten, [check_must_rewrite] returns
    normally in every build, leaves the VM state (memory, tty, pending
    exception) as it found it, and its result is [false] exactly for
    [_aload_0], [_lookupswitch] and [_new], and [true] for every other
    such opcode. *)
Theorem check_must_rewrite_policy (this : Bytecode) (code : Bytecodes.Code) (s : VM) :
  Bytecodes.can_rewrite T code = true ->
  exists r : bool,
    check_must_rewrite B T this code s = (Normal r, s) /\
    (r = false <->
     code = Bytecodes._aload_0 \/ code = Bytecodes._lookupswitch \/
     code = Bytecodes._new) /\
    (r = true <->
     code <> Bytecodes._aload_0 /\ code <> Bytecodes._lookupswitch /\
     code <> Bytecodes._new).
Proof.
  intros Hcan.
  assert (Hpre : vm_assert B (Bytecodes.can_rewrite T code) "post-check only" s
                 = (Normal tt, s)).
  { unfold vm_assert, vm_assertM. rewrite Hcan.
    destruct (ASSERT B); reflexivity. }
  unfold check_must_rewrite. rewrite (bind_normal _ _ _ _ _ Hpre).
  destruct (code =? Bytecodes._aload_0) eqn:E1.
  { apply Z.eqb_eq in E1. exists false. repeat split; auto; try discriminate.
    intros (Hn & _); contradiction. }
  destruct (code =? Bytecodes._lookupswitch) eqn:E2.
  { apply Z.eqb_eq in E2. exists false. repeat split; auto; try discriminate.
    intros (_ & Hn & _); contradiction. }
  destruct (code =? Bytecodes._new) eqn:E3.
  { apply Z.eqb_eq in E3. exists false. repeat split; auto; try discriminate.
    intros (_ & _ & Hn); contradiction. }
  apply Z.eqb_neq in E1, E2, E3.
  exists true. repeat split; auto; try discriminate.
  intros [H | [H | H]]; contradiction.
Qed.

End Rewrite_policy.

Lemma check_must_rewrite_policy_witness :
  Bytecodes.can_rewrite demo_table Bytecodes._aload_0 = true /\
  exists r : bool,
    check_must_rewrite debug_build demo_table 1000 Bytecodes._aload_0
                       (vm_of_bytes 1000 [42]) = (Normal r, vm_of_bytes 1000 [42]) /\
    (r = false <->
     Bytecodes._aload_0 = Bytecodes._aload_0 \/
     Bytecodes._aload_0 = Bytecodes._lookupswitch \/
     Bytecodes._aload_0 = Bytecodes._new) /\
    (r = true <->
     Bytecodes._aload_0 <> Bytecodes._aload_0 /\
     Bytecodes._aload_0 <> Bytecodes._lookupswitch /\
     Bytecodes._aload_0 <> Bytecodes._new).
Proof.
  split; [reflexivity|].
  apply (check_must_rewrite_policy debug_build demo_table 1000 Bytecodes._aload_0).
  reflexivity.
Defined.

(** ** Validation of the switch accessors *)

Section Switch_validation.
Variable B : Build.
Variable T : Bytecodes.Table.

Lemma code_reads_opcode (this : Bytecode) (s : VM) :
  code this s = (Normal (opcode_at s this), s).
Proof.
  unfold code, byte_at, gets, bind, ret, opcode_at, addr_at.
  rewrite Z.add_0_r. reflexivity.
Qed.

(** C9. In a build that is not the product build, [verify()] of a switch
    accessor placed on another instruction stops the VM with [fatal],
    whatever the bytes that follow the opcode hold and whether or not
    assertions are compiled in: the opcode, mapped to its Java form, decides
    alone. *)
Theorem verify_wrong_opcode_is_fatal (this : Bytecode) (s : VM) :
  PRODUCT B = false ->
  (Bytecodes.java_code T (opcode_at s this) <> Bytecodes._lookupswitch ->
   Bytecode_lookupswitch_verify B T this s
   = (VMError "not a lookupswitch bytecode", s)) /\
  (Bytecodes.java_code T (opcode_at s this) <> Bytecodes._tableswitch ->
   Bytecode_tableswitch_verify B T this s
   = (VMError "not a tableswitch bytecode", s)).
Proof.
  intros HP. split; intros Hne; apply Z.eqb_neq in Hne.
  - unfold Bytecode_lookupswitch_verify. rewrite HP.
    rewrite (bind_normal _ _ _ _ _ (code_reads_opcode this s)).
    rewrite Hne. reflexivity.
  - unfold Bytecode_tableswitch_verify. rewrite HP.
    rewrite (bind_normal _ _ _ _ _ (code_reads_opcode this s)).
    rewrite Hne. reflexivity.
Qed.

End Switch_validation.

Lemma verify_wrong_opcode_is_fatal_witness :
  PRODUCT optimized_build = false /\
  Bytecodes.java_code demo_table (opcode_at demo_tableswitch_vm 1000)
  <> Bytecodes._lookupswitch /\
  Bytecodes.java_code demo_table (opcode_at demo_lookupswitch_vm 1000)
  <> Bytecodes._tableswitch /\
  Bytecode_lookupswitch_verify optimized_build demo_table 1000 demo_tableswitch_vm
  = (VMError "not a lookupswitch bytecode", demo_tableswitch_vm) /\
  Bytecode_tableswitch_verify optimized_build demo_table 1000 demo_lookupswitch_vm
  = (VMError "not a tableswitch bytecode", demo_lookupswitch_vm).
Proof.
  assert (H1 : Bytecodes.java_code demo_table (opcode_at demo_tableswitch_vm 1000)
               <> Bytecodes._lookupswitch) by (vm_compute; discriminate).
  assert (H2 : Bytecodes.java_code demo_table (opcode_at demo_lookupswitch_vm 1000)
               <> Bytecodes._tableswitch) by (vm_compute; discriminate).
  split; [reflexivity|]. split; [exact H1|]. split; [exact H2|]. split.
  - exact (proj1 (verify_wrong_opcode_is_fatal optimized_build demo_table 1000
                    demo_tableswitch_vm eq_refl) H1).
  - exact (proj2 (verify_wrong_opcode_is_fatal optimized_build demo_table 1000
                    demo_lookupswitch_vm eq_refl) H2).
Defined.

(** ** The table checks of [verify()] *)

Section Switch_tables.
Variable B : Build.
Variable T : Bytecodes.Table.
Hypothesis debug : ASSERT B = true.

Lemma vm_assertM_holds (cond : M bool) (msg : string) (s : VM) :
  cond s = (Normal true, s) -> vm_assertM B cond msg s = (Normal tt, s).
Proof.
  intros H. unfold vm_assertM. rewrite debug.
  rewrite (bind_normal _ _ _ _ _ H). reflexivity.
Qed.

Lemma vm_assertM_fails (cond : M bool) (msg : string) (s : VM) :
  cond s = (Normal false, s) -> vm_assertM B cond msg s = (VMError msg, s).
Proof.
  intros H. unfold vm_assertM. rewrite debug.
  rewrite (bind_normal _ _ _ _ _ H). reflexivity.
Qed.

Lemma number_of_pairs_reads (this : Bytecode) (s : VM) :
  Bytecode_lookupswitch_number_of_pairs this s
  = (Normal (number_of_pairs_at s this), s).
Proof. reflexivity. Qed.

Lemma low_key_reads (this : Bytecode) (s : VM) :
  Bytecode_tableswitch_low_key this s = (Normal (low_key_at s this), s).
Proof. reflexivity. Qed.

Lemma high_key_reads (this : Bytecode) (s : VM) :
  Bytecode_tableswitch_high_key this s = (Normal (high_key_at s this), s).
Proof. reflexivity. Qed.

Lemma pair_match_reads (p : address) (s : VM) :
  LookupswitchPair_match p s = (Normal (jint_at s p), s).
Proof.
  unfold LookupswitchPair_match, get_Java_u4_at, gets, jint_at, addr_at.
  replace (p + 0 * jintSize) with p by (unfold jintSize; lia). reflexivity.
Qed.

Lemma pair_at_in_bounds (this : Bytecode) (i : Z) (s : VM) :
  0 <= i < number_of_pairs_at s this ->
  Bytecode_lookupswitch_pair_at B this i s
  = (Normal (aligned_addr_at this
               (jint_add 1 (jint_mul (jint_mul (jint_add 1 i) 2) jintSize))), s).
Proof.
  intros [H0 H1]. unfold Bytecode_lookupswitch_pair_at.
  erewrite bind_normal; [reflexivity|].
  apply vm_assertM_holds.
  rewrite (bind_normal _ _ _ _ _ (number_of_pairs_reads this s)).
  apply Z.leb_le in H0. apply Z.ltb_lt in H1. unfold ret. rewrite H0, H1.
  reflexivity.
Qed.

Lemma sorted_check_result (this : Bytecode) (i : Z) (s : VM) :
  0 <= i -> i + 1 < number_of_pairs_at s this ->
  sorted_check B this i s
  = if pair_match_at s this i <? pair_match_at s this (i + 1)
    then (Normal tt, s)
    else (VMError "unsorted table entries", s).
Proof.
  intros H0 H1.
  assert (Hn : number_of_pairs_at s this <= max_jint)
    by (unfold number_of_pairs_at, jint_at; apply wrap_jint_range).
  assert (Hi : jint_add i 1 = i + 1).
  { unfold jint_add. apply wrap_jint_small. unfold min_jint, max_jint in *. lia. }
  assert (Hc : (p <- Bytecode_lookupswitch_pair_at B this i ;;
                m <- LookupswitchPair_match p ;;
                p' <- Bytecode_lookupswitch_pair_at B this (i + 1) ;;
                m' <- LookupswitchPair_match p' ;;
                ret (m <? m')) s
               = (Normal (pair_match_at s this i <? pair_match_at s this (i + 1)), s)).
  { rewrite (bind_normal _ _ _ _ _ (pair_at_in_bounds this i s ltac:(lia))).
    rewrite (bind_normal _ _ _ _ _ (pair_match_reads _ s)).
    rewrite (bind_normal _ _ _ _ _ (pair_at_in_bounds this (i + 1) s ltac:(lia))).
    rewrite (bind_normal _ _ _ _ _ (pair_match_reads _ s)).
    reflexivity. }
  unfold sorted_check. rewrite Hi.
  destruct (pair_match_at s this i <? pair_match_at s this (i + 1)).
  - apply vm_assertM_holds, Hc.
  - apply vm_assertM_fails, Hc.
Qed.

Lemma sorted_loop_result (this : Bytecode) (s : VM) (k : nat) :
  (0 < Z.of_nat k -> Z.of_nat k < number_of_pairs_at s this) ->
  (countdown (sorted_check B this) k s = (Normal tt, s) /\
   forall i, 0 <= i < Z.of_nat k ->
             pair_match_at s this i < pair_match_at s this (i + 1)) \/
  (countdown (sorted_check B this) k s = (VMError "unsorted table entries", s) /\
   exists i, 0 <= i < Z.of_nat k /\
             ~ pair_match_at s this i < pair_match_at s this (i + 1)).
Proof.
  induction k as [|k IH]; intros Hk.
  - left. split; [reflexivity|]. intros i Hi. simpl in Hi. lia.
  - simpl countdown. specialize (Hk ltac:(lia)).
    pose proof (sorted_check_result this (Z.of_nat k) s ltac:(lia) ltac:(lia)) as Hb.
    destruct (pair_match_at s this (Z.of_nat k)
              <? pair_match_at s this (Z.of_nat k + 1)) eqn:E.
    + rewrite (bind_normal _ _ _ _ _ Hb). apply Z.ltb_lt in E.
      destruct (IH ltac:(lia)) as [[Hr Hs] | [Hr (i & Hi & Hs)]].
      * left. split; [exact Hr|]. intros i Hi.
        destruct (Z.eq_dec i (Z.of_nat k)) as [->|Hne]; [exact E|].
        apply Hs. lia.
      * right. split; [exact Hr|]. exists i. split; [lia|exact Hs].
    + rewrite (bind_vmerror _ _ _ _ _ Hb). apply Z.ltb_ge in E.
      right. split; [reflexivity|]. exists (Z.of_nat k). split; [lia|lia].
Qed.

(** C6 (amended). With assertions compiled in, in a build that is not the
    product build: [verify()] of a lookupswitch accessor on a lookupswitch
    returns when the match keys read by [pair_at] are strictly increasing
    over all adjacent pairs, and stops the VM otherwise; [verify()] of a
    tableswitch accessor on a tableswitch returns when [high_key >= low_key]
    and stops the VM otherwise. The VM state is left as found. *)
Theorem verify_checks_switch_tables (this : Bytecode) (s : VM) :
  PRODUCT B = false ->
  (Bytecodes.java_code T (opcode_at s this) = Bytecodes._lookupswitch ->
   min_jint < number_of_pairs_at s this ->
   (Bytecode_lookupswitch_verify B T this s = (Normal tt, s) /\
    pairs_sorted s this) \/
   (Bytecode_lookupswitch_verify B T this s
    = (VMError "unsorted table entries", s) /\
    ~ pairs_sorted s this)) /\
  (Bytecodes.java_code T (opcode_at s this) = Bytecodes._tableswitch ->
   (Bytecode_tableswitch_verify B T this s = (Normal tt, s) /\
    high_key_at s this >= low_key_at s this) \/
   (Bytecode_tableswitch_verify B T this s
    = (VMError "incorrect hi/lo values in tableswitch", s) /\
    high_key_at s this < low_key_at s this)).
Proof.
  intros HP. split.
  - intros Hop Hmin.
    apply Z.eqb_eq in Hop.
    unfold Bytecode_lookupswitch_verify. rewrite HP.
    rewrite (bind_normal _ _ _ _ _ (code_reads_opcode this s)), Hop.
    rewrite (bind_normal _ _ _ _ _ (number_of_pairs_reads this s)).
    set (n := number_of_pairs_at s this) in *.
    assert (Hn : n <= max_jint)
      by (unfold n, number_of_pairs_at, jint_at; apply wrap_jint_range).
    assert (Hsub : jint_sub n 1 = n - 1).
    { unfold jint_sub. apply wrap_jint_small. unfold min_jint, max_jint in *. lia. }
    rewrite Hsub.
    assert (Hk : 0 < Z.of_nat (Z.to_nat (n - 1)) -> Z.of_nat (Z.to_nat (n - 1)) < n) by lia.
    destruct (sorted_loop_result this s (Z.to_nat (n - 1)) Hk)
      as [[Hr Hs] | [Hr (i & Hi & Hs)]].
    + left. split; [exact Hr|]. intros i Hi. apply Hs. fold n in Hi. lia.
    + right. split; [exact Hr|]. intros Hsorted. apply Hs, Hsorted.
      fold n. lia.
  - intros Hop. apply Z.eqb_eq in Hop.
    unfold Bytecode_tableswitch_verify. rewrite HP.
    rewrite (bind_normal _ _ _ _ _ (code_reads_opcode this s)), Hop.
    rewrite (bind_normal _ _ _ _ _ (low_key_reads this s)).
    rewrite (bind_normal _ _ _ _ _ (high_key_reads this s)).
    unfold vm_assert, vm_assertM. rewrite debug.
    destruct (low_key_at s this <=? high_key_at s this) eqn:E.
    + left. split; [|apply Z.leb_le in E; lia].
      unfold bind at 1 2. unfold ret at 1. apply countdown_skip.
    + right. split; [reflexivity|]. apply Z.leb_gt in E. lia.
Qed.

End Switch_tables.

Lemma verify_checks_switch_tables_witness :
  ASSERT debug_build = true /\ PRODUCT debug_build = false /\
  Bytecodes.java_code demo_table (opcode_at demo_lookupswitch_vm 1000)
  = Bytecodes._lookupswitch /\
  min_jint < number_of_pairs_at demo_lookupswitch_vm 1000 /\
  Bytecode_lookupswitch_verify debug_build demo_table 1000 demo_lookupswitch_vm
  = (Normal tt, demo_lookupswitch_vm) /\
  pairs_sorted demo_lookupswitch_vm 1000 /\
  Bytecodes.java_code demo_table (opcode_at inverted_tableswitch_vm 1000)
  = Bytecodes._tableswitch /\
  Bytecode_tableswitch_verify debug_build demo_table 1000 inverted_tableswitch_vm
  = (VMError "incorrect hi/lo values in tableswitch", inverted_tableswitch_vm) /\
  high_key_at inverted_tableswitch_vm 1000 < low_key_at inverted_tableswitch_vm 1000.
Proof.
  assert (Hop : Bytecodes.java_code demo_table (opcode_at demo_lookupswitch_vm 1000)
                = Bytecodes._lookupswitch) by reflexivity.
  assert (Hmin : min_jint < number_of_pairs_at demo_lookupswitch_vm 1000)
    by (vm_compute; reflexivity).
  assert (Hop' : Bytecodes.java_code demo_table (opcode_at inverted_tableswitch_vm 1000)
                 = Bytecodes._tableswitch) by reflexivity.
  split; [reflexivity|]. split; [reflexivity|].
  split; [exact Hop|]. split; [exact Hmin|].
  destruct (proj1 (verify_checks_switch_tables debug_build demo_table eq_refl
                     1000 demo_lookupswitch_vm eq_refl) Hop Hmin)
    as [[Hr Hs] | [Hr Hs]].
  - split; [exact Hr|]. split; [exact Hs|]. split; [exact Hop'|].
    destruct (proj2 (verify_checks_switch_tables debug_build demo_table eq_refl
                       1000 inverted_tableswitch_vm eq_refl) Hop')
      as [[Hr' Hs'] | [Hr' Hs']].
    + exfalso. vm_compute in Hs'. apply Hs'. reflexivity.
    + split; [exact Hr'|exact Hs'].
  - exfalso. vm_compute in Hr. discriminate Hr.
Defined.

(** C6, as stated, fails in a build that is not the product build and has
    no assertions: [verify()] returns on a lookupswitch whose keys decrease
    and on a tableswitch whose high key is below its low key. *)
Lemma verify_without_assertions_accepts_bad_tables :
  PRODUCT optimized_build = false /\
  Bytecodes.java_code demo_table (opcode_at unsorted_lookupswitch_vm 1000)
  = Bytecodes._lookupswitch /\
  ~ pairs_sorted unsorted_lookupswitch_vm 1000 /\
  Bytecode_lookupswitch_verify optimized_build demo_table 1000 unsorted_lookupswitch_vm
  = (Normal tt, unsorted_lookupswitch_vm) /\
  Bytecodes.java_code demo_table (opcode_at inverted_tableswitch_vm 1000)
  = Bytecodes._tableswitch /\
  ~ high_key_at inverted_tableswitch_vm 1000 >= low_key_at inverted_tableswitch_vm 1000 /\
  Bytecode_tableswitch_verify optimized_build demo_table 1000 inverted_tableswitch_vm
  = (Normal tt, inverted_tableswitch_vm).
Proof.
  split; [reflexivity|]. split; [reflexivity|]. split.
  { intros H. specialize (H 0).
    assert (Hr : 0 <= 0 < number_of_pairs_at unsorted_lookupswitch_vm 1000 - 1)
      by (vm_compute; split; [discriminate|reflexivity]).
    specialize (H Hr). vm_compute in H. discriminate H. }
  split; [vm_compute; reflexivity|]. split; [reflexivity|]. split.
  { vm_compute. intros H. apply H. reflexivity. }
  vm_compute. reflexivity.
Qed.

(** ** Bytes and bit operations *)

Lemma land_shiftl_low (a b n : Z) :
  0 <= n -> 0 <= b < 2 ^ n -> Z.land (Z.shiftl a n) b = 0.
Proof.
  intros Hn Hb. apply Z.bits_inj'. intros m Hm.
  rewrite Z.land_spec, Z.bits_0.
  destruct (Z.lt_ge_cases m n) as [Hlt|Hge].
  - rewrite Z.shiftl_spec_low by exact Hlt. reflexivity.
  - assert (Hbm : Z.testbit b m = false).
    { apply Z.testbit_false; [exact Hm|].
      rewrite Z.div_small; [reflexivity|].
      split; [lia|]. apply Z.lt_le_trans with (2 ^ n); [lia|].
      apply Z.pow_le_mono_r; lia. }
    rewrite Hbm. apply andb_false_r.
Qed.

Lemma lor_shiftl_add (a b n : Z) :
  0 <= n -> 0 <= b < 2 ^ n -> Z.lor (Z.shiftl a n) b = a * 2 ^ n + b.
Proof.
  intros Hn Hb.
  rewrite <- Z.lxor_lor by (apply land_shiftl_low; assumption).
  rewrite <- Z.add_nocarry_lxor by (apply land_shiftl_low; assumption).
  rewrite Z.shiftl_mul_pow2 by exact Hn. reflexivity.
Qed.

Lemma u1_at_range (mem : address -> Z) (p : address) : 0 <= u1_at mem p < 256.
Proof. apply to_u1_range. Qed.

Lemma get_Java_u2_value (mem : address -> Z) (p : address) :
  get_Java_u2 mem p = u1_at mem p * 256 + u1_at mem (p + 1).
Proof.
  unfold get_Java_u2. rewrite lor_shiftl_add; [reflexivity|lia|].
  change (2 ^ 8) with 256. apply u1_at_range.
Qed.

Lemma get_native_u2_range (B : Build) (mem : address -> Z) (p : address) :
  0 <= get_native_u2 B mem p < 65536.
Proof.
  pose proof (u1_at_range mem p). pose proof (u1_at_range mem (p + 1)).
  unfold get_native_u2. destruct (Java_byte_ordering_different B).
  - rewrite lor_shiftl_add by (change (2 ^ 8) with 256; lia).
    change (2 ^ 8) with 256. lia.
  - rewrite get_Java_u2_value. lia.
Qed.

Lemma get_Java_u4_value (mem : address -> Z) (p : address) :
  get_Java_u4 mem p
  = u1_at mem p * 2 ^ 24 + u1_at mem (p + 1) * 2 ^ 16
    + u1_at mem (p + 2) * 2 ^ 8 + u1_at mem (p + 3).
Proof.
  pose proof (u1_at_range mem (p + 1)). pose proof (u1_at_range mem (p + 2)).
  pose proof (u1_at_range mem (p + 3)).
  unfold get_Java_u4.
  replace (Z.shiftl (u1_at mem p) 24)
    with (Z.shiftl (Z.shiftl (Z.shiftl (u1_at mem p) 8) 8) 8)
    by (rewrite !Z.shiftl_shiftl by lia; reflexivity).
  replace (Z.shiftl (u1_at mem (p + 1)) 16)
    with (Z.shiftl (Z.shiftl (u1_at mem (p + 1)) 8) 8)
    by (rewrite !Z.shiftl_shiftl by lia; reflexivity).
  rewrite <- !Z.shiftl_lor.
  rewrite !lor_shiftl_add by (change (2 ^ 8) with 256; lia).
  lia.
Qed.

(** ** The jump table of a tableswitch *)

Lemma round_to_jint (x : Z) : round_to x jintSize = 4 * ((x + 3) / 4).
Proof.
  unfold round_to, jintSize. replace (x + (4 - 1)) with (x + 3) by lia.
  change (Z.lnot (4 - 1)) with (Z.lnot (Z.ones 2)).
  rewrite <- Z.ldiff_land.
  rewrite Z.ldiff_ones_r by lia.
  rewrite Z.shiftr_div_pow2, Z.shiftl_mul_pow2 by lia.
  change (2 ^ 2) with 4. lia.
Qed.

Lemma round_to_jint_bounds (x : Z) : x <= round_to x jintSize <= x + 3.
Proof.
  rewrite round_to_jint.
  pose proof (Z.div_mod (x + 3) 4 ltac:(lia)).
  pose proof (Z.mod_pos_bound (x + 3) 4 ltac:(lia)). lia.
Qed.

Lemma aligned_addr_at_shift (this : Bytecode) (offset k : Z) :
  aligned_addr_at this (offset + 4 * k) = aligned_addr_at this offset + 4 * k.
Proof.
  unfold aligned_addr_at, addr_at. rewrite !round_to_jint.
  replace (this + (offset + 4 * k) + 3) with (this + offset + 3 + k * 4) by lia.
  rewrite Z.div_add by lia. lia.
Qed.

Lemma aligned_offset_small (this : Bytecode) (offset : Z) :
  min_jint <= offset <= max_jint - 3 ->
  this + aligned_offset this offset = aligned_addr_at this offset.
Proof.
  intros H. unfold aligned_offset, aligned_addr_at, addr_at.
  pose proof (round_to_jint_bounds (this + offset)).
  rewrite wrap_jint_small; unfold min_jint, max_jint in *; lia.
Qed.

(** The three header words. *)
Lemma tableswitch_header (this : Bytecode) (s : VM) :
  Bytecode_tableswitch_default_offset this s
  = (Normal (jint_at s (aligned_addr_at this 1)), s) /\
  Bytecode_tableswitch_low_key this s
  = (Normal (jint_at s (aligned_addr_at this 1 + 1 * jintSize)), s) /\
  Bytecode_tableswitch_high_key this s
  = (Normal (jint_at s (aligned_addr_at this 1 + 2 * jintSize)), s).
Proof.
  unfold Bytecode_tableswitch_default_offset, Bytecode_tableswitch_low_key,
    Bytecode_tableswitch_high_key, get_Java_u4_at, gets, jint_at, addr_at.
  change (1 + 0 * jintSize) with 1.
  change (1 + 1 * jintSize) with (1 + 4 * 1).
  change (1 + 2 * jintSize) with (1 + 4 * 2).
  rewrite !aligned_offset_small by (unfold min_jint, max_jint; lia).
  rewrite !aligned_addr_at_shift. unfold jintSize.
  repeat split; repeat f_equal; lia.
Qed.

(** The layout of a lookupswitch: the number of pairs follows the default
    offset, and pair [i] lies [(1 + i) * 8] bytes past the default offset. *)
Lemma lookupswitch_layout (this : Bytecode) (i : Z) (s : VM) :
  0 <= i < 2 ^ 27 ->
  number_of_pairs_at s this = jint_at s (aligned_addr_at this 1 + 1 * jintSize) /\
  pair_match_at s this i
  = jint_at s (aligned_addr_at this 1 + (1 + i) * 2 * jintSize).
Proof.
  intros Hi. split.
  - unfold number_of_pairs_at.
    rewrite aligned_offset_small by (unfold min_jint, max_jint; lia).
    change 5 with (1 + 4 * 1). rewrite aligned_addr_at_shift. reflexivity.
  - unfold pair_match_at, jint_add, jint_mul, jintSize.
    rewrite (wrap_jint_small (1 + i)) by (unfold min_jint, max_jint; lia).
    rewrite (wrap_jint_small ((1 + i) * 2)) by (unfold min_jint, max_jint; lia).
    rewrite (wrap_jint_small ((1 + i) * 2 * 4)) by (unfold min_jint, max_jint; lia).
    rewrite wrap_jint_small by (unfold min_jint, max_jint; lia).
    replace (1 + (1 + i) * 2 * 4) with (1 + 4 * ((1 + i) * 2)) by lia.
    rewrite aligned_addr_at_shift. f_equal. lia.
Qed.




(** ** The format check *)

Section Format_check.
Variable B : Build.
Variable T : Bytecodes.Table.
Hypothesis debug : ASSERT B = true.

Lemma byte_at_reads (this : Bytecode) (offset : Z) (s : VM) :
  byte_at this offset s = (Normal (opcode_at s (this + offset)), s).
Proof. reflexivity. Qed.

Lemma compare_formats_outcome (testbc thisbc : Bytecodes.Code) (is_wide : bool) (s : VM) :
  (format_bits T testbc is_wide = format_bits T thisbc is_wide ->
   compare_formats B T testbc thisbc is_wide s = (Normal tt, s)) /\
  (format_bits T testbc is_wide <> format_bits T thisbc is_wide ->
   compare_formats B T testbc thisbc is_wide s
   = (VMError "expected format",
      mkVM (memory s)
           (tty s ++ [Tty_same_format testbc thisbc is_wide
                        (format_bits T thisbc is_wide)
                        (format_bits T testbc is_wide)])
           (pending_exception s))).
Proof.
  unfold compare_formats, vm_assert, vm_assertM. rewrite debug.
  fold (format_bits T testbc is_wide). fold (format_bits T thisbc is_wide).
  split; intros H.
  - apply Z.eqb_eq in H. rewrite H. reflexivity.
  - apply Z.eqb_neq in H. rewrite H. reflexivity.
Qed.

(** C8 (amended). In a debug build [assert_same_format_as] reads the first
    byte and, when [is_wide], the byte after the wide prefix. It returns
    silently when the byte it has read is [_breakpoint]; it stops the VM
    when [is_wide] and the first byte is not [_wide]; otherwise it compares
    the format bits of the expected opcode with those of the decoded opcode,
    returns when they agree and, when they differ, prints a line on tty and
    stops the VM. *)
Theorem assert_same_format_as_outcome (this : Bytecode) (testbc : Bytecodes.Code)
        (is_wide : bool) (s : VM) :
  (opcode_at s this = Bytecodes._breakpoint ->
   assert_same_format_as B T this testbc is_wide s = (Normal tt, s)) /\
  (is_wide = true -> opcode_at s this <> Bytecodes._breakpoint ->
   opcode_at s this <> Bytecodes._wide ->
   assert_same_format_as B T this testbc is_wide s
   = (VMError "expected a wide instruction", s)) /\
  (is_wide = true -> opcode_at s this = Bytecodes._wide ->
   opcode_at s (this + 1) = Bytecodes._breakpoint ->
   assert_same_format_as B T this testbc is_wide s = (Normal tt, s)) /\
  (opcode_at s this <> Bytecodes._breakpoint ->
   (is_wide = true -> opcode_at s this = Bytecodes._wide) ->
   decoded_opcode s this is_wide <> Bytecodes._breakpoint ->
   (format_bits T testbc is_wide = format_bits T (decoded_opcode s this is_wide) is_wide ->
    assert_same_format_as B T this testbc is_wide s = (Normal tt, s)) /\
   (format_bits T testbc is_wide <> format_bits T (decoded_opcode s this is_wide) is_wide ->
    exists line,
      assert_same_format_as B T this testbc is_wide s
      = (VMError "expected format",
         mkVM (memory s) (tty s ++ [line]) (pending_exception s)))).
Proof.
  assert (H0 : byte_at this 0 s = (Normal (opcode_at s this), s)).
  { rewrite byte_at_reads, Z.add_0_r. reflexivity. }
  unfold assert_same_format_as. rewrite debug. cbn [negb].
  rewrite (bind_normal _ _ _ _ _ H0). unfold Bytecodes.cast.
  split; [|split; [|split]].
  - intros Hbp. rewrite Hbp. reflexivity.
  - intros -> Hbp Hw. apply Z.eqb_neq in Hbp, Hw. rewrite Hbp.
    unfold vm_assert, vm_assertM. rewrite debug, Hw. reflexivity.
  - intros -> Hw Hbp. rewrite Hw.
    change (Bytecodes._wide =? Bytecodes._breakpoint) with false.
    change (Bytecodes._wide =? Bytecodes._wide) with true. cbv iota.
    rewrite (bind_normal _ _ _ _ _ (vm_assert_true B _ s)).
    rewrite (bind_normal _ _ _ _ _ (byte_at_reads this 1 s)), Hbp. reflexivity.
  - intros Hbp Hw Hd. apply Z.eqb_neq in Hbp. rewrite Hbp.
    destruct is_wide.
    + rewrite (Hw eq_refl).
      change (Bytecodes._wide =? Bytecodes._wide) with true.
      rewrite (bind_normal _ _ _ _ _ (vm_assert_true B _ s)).
      rewrite (bind_normal _ _ _ _ _ (byte_at_reads this 1 s)).
      unfold decoded_opcode in *. apply Z.eqb_neq in Hd. rewrite Hd.
      destruct (compare_formats_outcome testbc (opcode_at s (this + 1)) true s)
        as [He Hn].
      split; [exact He|]. intros Hdiff. eexists. apply (Hn Hdiff).
    + unfold decoded_opcode in *.
      destruct (compare_formats_outcome testbc (opcode_at s this) false s)
        as [He Hn].
      split; [exact He|]. intros Hdiff. eexists. apply (Hn Hdiff).
Qed.

End Format_check.

Lemma assert_same_format_as_outcome_witness :
  ASSERT debug_build = true /\
  assert_same_format_as debug_build demo_table 1000 Bytecodes._ldc false
                        breakpoint_vm
  = (Normal tt, breakpoint_vm) /\
  exists line,
    assert_same_format_as debug_build demo_table 1000 Bytecodes._ldc false
                          invokevirtual_vm
    = (VMError "expected format",
       mkVM (memory invokevirtual_vm) (tty invokevirtual_vm ++ [line])
            (pending_exception invokevirtual_vm)).
Proof.
  split; [reflexivity|]. split.
  - apply (proj1 (assert_same_format_as_outcome debug_build demo_table eq_refl
                    1000 Bytecodes._ldc false breakpoint_vm)).
    reflexivity.
  - apply (proj2 (proj2 (proj2
             (assert_same_format_as_outcome debug_build demo_table eq_refl
                1000 Bytecodes._ldc false invokevirtual_vm)))).
    + vm_compute. discriminate.
    + discriminate.
    + vm_compute. discriminate.
    + vm_compute. discriminate.
Defined.

(** C8, as stated, fails on an instruction that carries a breakpoint: the
    format bits of [_breakpoint] differ from those of the expected
    [_invokevirtual], and the check returns without a word. *)
Lemma assert_same_format_as_silent_on_breakpoint :
  ASSERT debug_build = true /\
  decoded_opcode breakpoint_vm 1000 false = Bytecodes._breakpoint /\
  format_bits demo_table Bytecodes._invokevirtual false
  <> format_bits demo_table (decoded_opcode breakpoint_vm 1000 false) false /\
  assert_same_format_as debug_build demo_table 1000 Bytecodes._invokevirtual
                        false breakpoint_vm
  = (Normal tt, breakpoint_vm).
Proof.
  split; [reflexivity|]. split; [reflexivity|]. split.
  - vm_compute. discriminate.
  - vm_compute. reflexivity.
Qed.

(** ** Computations that return in place *)

Lemma in_place_ret {A} (a : A) : in_place (ret a).
Proof. intros s a' s' H. inversion H. reflexivity. Qed.

Lemma in_place_gets {A} (f : VM -> A) : in_place (gets f).
Proof. intros s a' s' H. inversion H. reflexivity. Qed.

Lemma in_place_fatal {A} (msg : string) : in_place (@fatal A msg).
Proof. intros s a' s' H. inversion H. Qed.

Lemma in_place_undefined {A} (w : string) : in_place (@undefined A w).
Proof. intros s a' s' H. inversion H. Qed.

Lemma in_place_bind {A C} (c : M A) (k : A -> M C) :
  in_place c -> (forall a, in_place (k a)) -> in_place (bind c k).
Proof.
  intros Hc Hk s b s' H. unfold bind in H.
  destruct (c s) as [[a|msg|w] s1] eqn:E; try discriminate.
  apply Hc in E. subst s1. eapply Hk, H.
Qed.

Lemma in_place_if {A} (b : bool) (c1 c2 : M A) :
  in_place c1 -> in_place c2 -> in_place (if b then c1 else c2).
Proof. destruct b; auto. Qed.

Lemma in_place_vm_assertM (B : Build) (cond : M bool) (msg : string) :
  in_place cond -> in_place (vm_assertM B cond msg).
Proof.
  intros Hc. unfold vm_assertM. apply in_place_if; [|apply in_place_ret].
  apply in_place_bind; [exact Hc|].
  intros []; [apply in_place_ret|apply in_place_fatal].
Qed.

Lemma in_place_vm_assert (B : Build) (cond : bool) (msg : string) :
  in_place (vm_assert B cond msg).
Proof. apply in_place_vm_assertM, in_place_ret. Qed.

(** A line on tty is always followed by the failure of the assertion. *)
Lemma in_place_print_then_fail (B : Build) (l : tty_line) (msg : string) :
  ASSERT B = true -> in_place (print_cr l ;; vm_assert B false msg).
Proof.
  intros HA s a s' H. unfold bind, print_cr, vm_assert, vm_assertM in H.
  rewrite HA in H. discriminate H.
Qed.

Create HintDb in_place_db.
#[local] Hint Resolve in_place_ret in_place_gets in_place_fatal in_place_undefined
  in_place_vm_assert in_place_vm_assertM : in_place_db.

Section Readers_in_place.
Variable B : Build.
Variable T : Bytecodes.Table.

Lemma in_place_compare_formats (testbc thisbc : Bytecodes.Code) (w : bool) :
  ASSERT B = true -> in_place (compare_formats B T testbc thisbc w).
Proof.
  intros HA. unfold compare_formats.
  destruct (Z.land (Bytecodes.flags T testbc w) Bytecodes._all_fmt_bits
            =? Z.land (Bytecodes.flags T thisbc w) Bytecodes._all_fmt_bits);
    cbn [negb when].
  - apply in_place_bind; auto with in_place_db.
  - apply in_place_print_then_fail, HA.
Qed.

Lemma in_place_byte_at (this : Bytecode) (offset : Z) : in_place (byte_at this offset).
Proof. apply in_place_gets. Qed.

Lemma in_place_assert_same_format_as (this : Bytecode) (bc : Bytecodes.Code) (w : bool) :
  in_place (assert_same_format_as B T this bc w).
Proof.
  unfold assert_same_format_as. destruct (ASSERT B) eqn:HA; [|apply in_place_ret].
  cbn [negb]. apply in_place_bind; [apply in_place_byte_at|]. intros b0.
  apply in_place_if; [apply in_place_ret|].
  apply in_place_if; [|apply in_place_compare_formats, HA].
  apply in_place_bind; [apply in_place_vm_assert|]. intros _.
  apply in_place_bind; [apply in_place_byte_at|]. intros b1.
  apply in_place_if; [apply in_place_ret|apply in_place_compare_formats, HA].
Qed.

Lemma in_place_assert_index_size (size : Z) (bc : Bytecodes.Code) (w : bool) :
  in_place (assert_index_size B T size bc w).
Proof.
  unfold assert_index_size. destruct (ASSERT B) eqn:HA; [|apply in_place_ret].
  cbn [negb]. cbv zeta.
  match goal with |- in_place (if negb (?a =? ?b) then _ else _) =>
    destruct (a =? b) end; cbn [negb].
  - apply in_place_ret.
  - apply in_place_print_then_fail, HA.
Qed.

Lemma in_place_assert_native_index (bc : Bytecodes.Code) (w : bool) :
  in_place (assert_native_index B T bc w).
Proof.
  unfold assert_native_index.
  apply in_place_if; [apply in_place_ret|apply in_place_vm_assert].
Qed.

Lemma in_place_get_index_u1 (this : Bytecode) (bc : Bytecodes.Code) :
  in_place (get_index_u1 B T this bc).
Proof.
  unfold get_index_u1.
  apply in_place_bind; [apply in_place_assert_same_format_as|]. intros _.
  apply in_place_bind; [apply in_place_assert_index_size|]. intros _.
  apply in_place_byte_at.
Qed.

Lemma in_place_get_index_u2 (this : Bytecode) (bc : Bytecodes.Code) (w : bool) :
  in_place (get_index_u2 B T this bc w).
Proof.
  unfold get_index_u2.
  apply in_place_bind; [apply in_place_assert_same_format_as|]. intros _.
  apply in_place_bind; [apply in_place_assert_index_size|]. intros _.
  apply in_place_if; apply in_place_gets.
Qed.

Lemma in_place_get_index_u2_cpcache (this : Bytecode) (bc : Bytecodes.Code) :
  in_place (get_index_u2_cpcache B T this bc).
Proof.
  unfold get_index_u2_cpcache.
  apply in_place_bind; [apply in_place_assert_same_format_as|]. intros _.
  apply in_place_bind; [apply in_place_assert_index_size|]. intros _.
  apply in_place_bind; [apply in_place_assert_native_index|]. intros _.
  apply in_place_bind; [apply in_place_gets|]. intros v. apply in_place_ret.
Qed.

Lemma in_place_get_index_u4 (this : Bytecode) (bc : Bytecodes.Code) :
  in_place (get_index_u4 B T this bc).
Proof.
  unfold get_index_u4.
  apply in_place_bind; [apply in_place_assert_same_format_as|]. intros _.
  apply in_place_bind; [apply in_place_assert_index_size|]. intros _.
  apply in_place_bind; [apply in_place_vm_assert|]. intros _.
  apply in_place_gets.
Qed.

Lemma in_place_deref (h : methodHandle) : in_place (deref h).
Proof. destruct h; [apply in_place_ret|apply in_place_undefined]. Qed.

Lemma in_place_member_ref_bytecode (mr : Bytecode_member_ref) :
  in_place (Bytecode_member_ref_bytecode mr).
Proof.
  apply in_place_bind; [apply in_place_deref|]. intros m. apply in_place_ret.
Qed.

Lemma in_place_code (this : Bytecode) : in_place (code this).
Proof.
  apply in_place_bind; [apply in_place_byte_at|]. intros c. apply in_place_ret.
Qed.

Lemma in_place_member_ref_code (mr : Bytecode_member_ref) :
  in_place (Bytecode_member_ref_code mr).
Proof.
  apply in_place_bind; [apply in_place_member_ref_bytecode|]. intros bcp.
  apply in_place_code.
Qed.

Lemma in_place_member_ref_index (mr : Bytecode_member_ref) :
  in_place (Bytecode_member_ref_index B T mr).
Proof.
  unfold Bytecode_member_ref_index.
  apply in_place_bind; [apply in_place_member_ref_code|]. intros rawc.
  apply in_place_bind; [apply in_place_member_ref_bytecode|]. intros invoke.
  apply in_place_if;
    [apply in_place_get_index_u4|apply in_place_get_index_u2_cpcache].
Qed.

Lemma in_place_loadconstant_raw_index (lc : Bytecode_loadconstant) :
  in_place (Bytecode_loadconstant_raw_index B T lc).
Proof.
  unfold Bytecode_loadconstant_raw_index.
  apply in_place_bind.
  { apply in_place_bind; [apply in_place_deref|]. intros m. apply in_place_ret. }
  intros bcp. apply in_place_bind; [apply in_place_code|]. intros rawc.
  apply in_place_bind; [apply in_place_vm_assert|]. intros _.
  apply in_place_if; [apply in_place_get_index_u1|apply in_place_get_index_u2].
Qed.

End Readers_in_place.

(** ** Member references *)

Section Member_ref.
Variable B : Build.
Variable T : Bytecodes.Table.

Lemma assert_same_format_as_self (this : Bytecode) (s : VM) :
  assert_same_format_as B T this (opcode_at s this) false s = (Normal tt, s).
Proof.
  unfold assert_same_format_as. destruct (ASSERT B) eqn:HA; [|reflexivity].
  cbn [negb].
  assert (H0 : byte_at this 0 s = (Normal (opcode_at s this), s)).
  { rewrite byte_at_reads, Z.add_0_r. reflexivity. }
  rewrite (bind_normal _ _ _ _ _ H0). unfold Bytecodes.cast.
  destruct (opcode_at s this =? Bytecodes._breakpoint); [reflexivity|].
  unfold compare_formats. rewrite Z.eqb_refl. cbn [negb when].
  unfold bind at 1. unfold ret at 1. apply vm_assert_true.
Qed.

Lemma assert_index_size_holds (size : Z) (bc : Bytecodes.Code) (s : VM) :
  (size = 2 \/ size = 4) ->
  (ASSERT B = true ->
   index_size_bits T bc
   = if size =? 2 then Bytecodes._fmt_has_u2 else Bytecodes._fmt_has_u4) ->
  assert_index_size B T size bc false s = (Normal tt, s).
Proof.
  intros Hsize H. unfold assert_index_size.
  destruct (ASSERT B); [|reflexivity]. cbn [negb]. cbv zeta.
  fold (index_size_bits T bc). rewrite (H eq_refl).
  destruct Hsize as [-> | ->]; cbn [Z.eqb Pos.eqb]; rewrite Z.eqb_refl; reflexivity.
Qed.

Lemma assert_native_index_holds (bc : Bytecodes.Code) (s : VM) :
  (ASSERT B = true ->
   Z.land (Bytecodes.flags T bc false) Bytecodes._fmt_has_nbo <> 0) ->
  assert_native_index B T bc false s = (Normal tt, s).
Proof.
  intros H. unfold assert_native_index.
  destruct (ASSERT B); [|reflexivity]. cbn [negb].
  specialize (H eq_refl). apply Z.eqb_neq in H. rewrite H. apply vm_assert_true.
Qed.

(** The value of [index()]. *)
Lemma member_ref_index_reads (mr : Bytecode_member_ref) (mo : methodOop) (s : VM) :
  mr_method mr = Some mo ->
  (ASSERT B = true ->
   member_ref_format B T (opcode_at s (bcp_from mo (mr_bci mr)))) ->
  Bytecode_member_ref_index B T mr s
  = (Normal (member_ref_index_value B s (bcp_from mo (mr_bci mr))), s).
Proof.
  intros Hm Hfmt. set (bcp := bcp_from mo (mr_bci mr)) in *.
  assert (Hb : Bytecode_member_ref_bytecode mr s = (Normal bcp, s)).
  { unfold Bytecode_member_ref_bytecode. rewrite Hm. reflexivity. }
  assert (Hc : Bytecode_member_ref_code mr s = (Normal (opcode_at s bcp), s)).
  { unfold Bytecode_member_ref_code. rewrite (bind_normal _ _ _ _ _ Hb).
    apply code_reads_opcode. }
  unfold Bytecode_member_ref_index.
  rewrite (bind_normal _ _ _ _ _ Hc), (bind_normal _ _ _ _ _ Hb).
  unfold member_ref_index_value, member_ref_operand, member_ref_format in *.
  destruct (has_index_u4 (opcode_at s bcp)).
  - unfold get_index_u4.
    rewrite (bind_normal _ _ _ _ _ (assert_same_format_as_self bcp s)).
    rewrite (bind_normal _ _ _ _ _
               (assert_index_size_holds 4 _ s (or_intror eq_refl)
                  (fun HA => proj1 (Hfmt HA)))).
    assert (Hn : vm_assert B (can_use_native_byte_order B T (opcode_at s bcp) false)
                           "" s = (Normal tt, s)).
    { unfold vm_assert, vm_assertM. destruct (ASSERT B); [|reflexivity].
      rewrite (proj2 (Hfmt eq_refl)). reflexivity. }
    rewrite (bind_normal _ _ _ _ _ Hn). reflexivity.
  - unfold get_index_u2_cpcache.
    rewrite (bind_normal _ _ _ _ _ (assert_same_format_as_self bcp s)).
    rewrite (bind_normal _ _ _ _ _
               (assert_index_size_holds 2 _ s (or_introl eq_refl)
                  (fun HA => proj1 (Hfmt HA)))).
    rewrite (bind_normal _ _ _ _ _
               (assert_native_index_holds _ s (fun HA => proj2 (Hfmt HA)))).
    unfold get_native_u2_at, gets, bind, ret, addr_at.
    pose proof (get_native_u2_range B (memory s) (bcp + 1)).
    rewrite wrap_jint_small; [reflexivity|].
    unfold CPCACHE_INDEX_TAG, min_jint, max_jint. destruct (ASSERT B); lia.
Qed.

End Member_ref.

Section Member_ref_pool.
Variable B : Build.
Variable T : Bytecodes.Table.

Lemma member_ref_bytecode_reads (mr : Bytecode_member_ref) (mo : methodOop) (s : VM) :
  mr_method mr = Some mo ->
  Bytecode_member_ref_bytecode mr s = (Normal (bcp_from mo (mr_bci mr)), s).
Proof. intros Hm. unfold Bytecode_member_ref_bytecode. rewrite Hm. reflexivity. Qed.

Lemma member_ref_code_reads (mr : Bytecode_member_ref) (mo : methodOop) (s : VM) :
  mr_method mr = Some mo ->
  Bytecode_member_ref_code mr s
  = (Normal (opcode_at s (bcp_from mo (mr_bci mr))), s).
Proof.
  intros Hm. unfold Bytecode_member_ref_code.
  rewrite (bind_normal _ _ _ _ _ (member_ref_bytecode_reads mr mo s Hm)).
  apply code_reads_opcode.
Qed.

(** C1 (amended). [pool_index()] takes the operand of the instruction for a
    cache slot, whatever the instruction holds: with a cache attached, the
    opcode of the format its readers expect and the operand within the
    cache, it returns the pool slot stored in that cache entry, in every
    build and without changing the VM state. Hence, on the rewritten
    instruction, whose operand is the slot allocated for it, the result is
    the pool slot that the 2-byte operand named before the rewrite. *)
Theorem pool_index_reads_cache_entry (mr : Bytecode_member_ref) (mo : methodOop)
        (c : constantPoolCacheOop) (s : VM) :
  mr_method mr = Some mo ->
  cache (constants mo) = Some c ->
  (ASSERT B = true ->
   member_ref_format B T (opcode_at s (bcp_from mo (mr_bci mr)))) ->
  0 <= member_ref_operand B s (bcp_from mo (mr_bci mr)) < cache_length c ->
  Bytecode_member_ref_pool_index B T mr s
  = (Normal (constant_pool_index
               (cache_base c (member_ref_operand B s (bcp_from mo (mr_bci mr))))),
     s) /\
  forall s0 : VM,
    constant_pool_index
      (cache_base c (member_ref_operand B s (bcp_from mo (mr_bci mr))))
    = get_Java_u2 (memory s0) (bcp_from mo (mr_bci mr) + 1) ->
    Bytecode_member_ref_pool_index B T mr s
    = (Normal (get_Java_u2 (memory s0) (bcp_from mo (mr_bci mr) + 1)), s).
Proof.
  intros Hm Hc Hfmt Hrange. set (bcp := bcp_from mo (mr_bci mr)) in *.
  assert (Hmain : Bytecode_member_ref_pool_index B T mr s
                  = (Normal (constant_pool_index
                               (cache_base c (member_ref_operand B s bcp))), s)).
  { unfold Bytecode_member_ref_pool_index.
    rewrite (bind_normal _ _ _ _ _ (member_ref_index_reads B T mr mo s Hm Hfmt)).
    fold bcp.
    assert (Hadj :
      (if ASSERT B
       then bcp' <- Bytecode_member_ref_bytecode mr ;;
            c' <- Bytecode_member_ref_code mr ;;
            (if negb (has_index_u4 c')
             then ret (wrap_jint (member_ref_index_value B s bcp - CPCACHE_INDEX_TAG B))
             else ret (member_ref_index_value B s bcp))
       else ret (member_ref_index_value B s bcp)) s
      = (Normal (member_ref_operand B s bcp), s)).
    { unfold member_ref_index_value, CPCACHE_INDEX_TAG.
      destruct (ASSERT B) eqn:HA.
      - rewrite (bind_normal _ _ _ _ _ (member_ref_bytecode_reads mr mo s Hm)).
        rewrite (bind_normal _ _ _ _ _ (member_ref_code_reads mr mo s Hm)).
        fold bcp. unfold member_ref_operand.
        destruct (has_index_u4 (opcode_at s bcp)); cbn [negb]; [reflexivity|].
        pose proof (get_native_u2_range B (memory s) (bcp + 1)).
        unfold ret. rewrite wrap_jint_small;
          [f_equal; f_equal; lia | unfold min_jint, max_jint; lia].
      - destruct (has_index_u4 (opcode_at s bcp)); unfold ret;
          f_equal; f_equal; lia. }
    rewrite (bind_normal _ _ _ _ _ Hadj).
    unfold deref. rewrite Hm. unfold bind at 1. unfold ret at 1.
    unfold cache_pool_index. rewrite Hc. unfold entry_at.
    destruct Hrange as [H0 H1]. apply Z.leb_le in H0. apply Z.ltb_lt in H1.
    rewrite H0, H1. cbn [andb].
    rewrite (bind_normal _ _ _ _ _
               (bind_normal _ _ _ _ _ (vm_assert_true B _ s))).
    reflexivity. }
  split; [exact Hmain|]. intros s0 <-. exact Hmain.
Qed.

(** C7 (amended). [name()] and [signature()] hand the value of [index()]
    to [name_ref_at] and [signature_ref_at] of the constant pool: the operand
    as stored, with the cache-index tag added by the readers of a 2-byte
    cache index. Neither evaluates [pool_index()] nor looks at the cache. *)
Theorem name_and_signature_pass_index (mr : Bytecode_member_ref) (mo : methodOop)
        (s : VM) :
  mr_method mr = Some mo ->
  (ASSERT B = true ->
   member_ref_format B T (opcode_at s (bcp_from mo (mr_bci mr)))) ->
  Bytecode_member_ref_name B T mr s
  = name_ref_at (constants mo)
                (member_ref_index_value B s (bcp_from mo (mr_bci mr))) s /\
  Bytecode_member_ref_signature B T mr s
  = signature_ref_at (constants mo)
                     (member_ref_index_value B s (bcp_from mo (mr_bci mr))) s.
Proof.
  intros Hm Hfmt.
  unfold Bytecode_member_ref_name, Bytecode_member_ref_signature, deref.
  rewrite Hm. unfold bind at 1 3. unfold ret at 1 2.
  rewrite !(bind_normal _ _ _ _ _ (member_ref_index_reads B T mr mo s Hm Hfmt)).
  split; reflexivity.
Qed.

End Member_ref_pool.

Lemma pool_index_reads_cache_entry_witness :
  mr_method demo_member_ref = Some (demo_method (Some demo_cache)) /\
  cache (constants (demo_method (Some demo_cache))) = Some demo_cache /\
  member_ref_format debug_build demo_table (opcode_at invokevirtual_vm 1000) /\
  0 <= member_ref_operand debug_build invokevirtual_vm 1000 < cache_length demo_cache /\
  Bytecode_member_ref_pool_index debug_build demo_table demo_member_ref
                                 invokevirtual_vm
  = (Normal 42, invokevirtual_vm) /\
  get_Java_u2 (memory unrewritten_invokevirtual_vm) 1001 = 42.
Proof.
  assert (Hfmt : member_ref_format debug_build demo_table
                                   (opcode_at invokevirtual_vm 1000))
    by (vm_compute; split; [reflexivity|discriminate]).
  assert (Hrange : 0 <= member_ref_operand debug_build invokevirtual_vm 1000
                   < cache_length demo_cache)
    by (vm_compute; split; [discriminate|reflexivity]).
  split; [reflexivity|]. split; [reflexivity|]. split; [exact Hfmt|].
  split; [exact Hrange|]. split; [|reflexivity].
  exact (proj1 (pool_index_reads_cache_entry debug_build demo_table
                  demo_member_ref (demo_method (Some demo_cache)) demo_cache
                  invokevirtual_vm eq_refl eq_refl (fun _ => Hfmt) Hrange)).
Defined.

(** C1, as stated, fails: the cache entry of the call site (slot 7) holds
    the pool slot (42) that the instruction named before the rewrite, and
    [pool_index()] returns 42 on the rewritten bytes; on the bytes before
    the rewrite it takes 42 for a cache slot and returns the pool slot of
    that other entry, in the product build and in the debug build alike. *)
Lemma pool_index_differs_before_rewrite :
  get_Java_u2 (memory unrewritten_invokevirtual_vm) 1001 = 42 /\
  member_ref_operand product_build invokevirtual_vm 1000 = 7 /\
  constant_pool_index (cache_base demo_cache 7) = 42 /\
  Bytecode_member_ref_pool_index product_build demo_table demo_member_ref
                                 invokevirtual_vm
  = (Normal 42, invokevirtual_vm) /\
  Bytecode_member_ref_pool_index product_build demo_table demo_member_ref
                                 unrewritten_invokevirtual_vm
  = (Normal 142, unrewritten_invokevirtual_vm) /\
  Bytecode_member_ref_pool_index debug_build demo_table demo_member_ref
                                 invokevirtual_vm
  = (Normal 42, invokevirtual_vm) /\
  Bytecode_member_ref_pool_index debug_build demo_table demo_member_ref
                                 unrewritten_invokevirtual_vm
  = (Normal 142, unrewritten_invokevirtual_vm).
Proof. repeat split; vm_compute; reflexivity. Qed.

Lemma name_and_signature_pass_index_witness :
  mr_method demo_member_ref = Some (demo_method (Some demo_cache)) /\
  member_ref_format debug_build demo_table (opcode_at invokevirtual_vm 1000) /\
  Bytecode_member_ref_name debug_build demo_table demo_member_ref invokevirtual_vm
  = (Normal (5000 + (7 + 65536)), invokevirtual_vm) /\
  Bytecode_member_ref_signature debug_build demo_table demo_member_ref
                                invokevirtual_vm
  = (Normal (6000 + (7 + 65536)), invokevirtual_vm).
Proof.
  assert (Hfmt : member_ref_format debug_build demo_table
                                   (opcode_at invokevirtual_vm 1000))
    by (vm_compute; split; [reflexivity|discriminate]).
  split; [reflexivity|]. split; [exact Hfmt|].
  exact (name_and_signature_pass_index debug_build demo_table demo_member_ref
           (demo_method (Some demo_cache)) invokevirtual_vm eq_refl
           (fun _ => Hfmt)).
Defined.

(** C7, as stated, fails: on the rewritten [invokevirtual] whose cache
    slot 7 stands for pool slot 42, [pool_index()] is 42, but [name()] and
    [signature()] ask the constant pool for 7, not for 42. *)
Lemma name_does_not_use_pool_index :
  Bytecode_member_ref_pool_index product_build demo_table demo_member_ref
                                 invokevirtual_vm
  = (Normal 42, invokevirtual_vm) /\
  Bytecode_member_ref_name product_build demo_table demo_member_ref invokevirtual_vm
  = name_ref_at (demo_pool (Some demo_cache)) 7 invokevirtual_vm /\
  Bytecode_member_ref_name product_build demo_table demo_member_ref invokevirtual_vm
  <> name_ref_at (demo_pool (Some demo_cache)) 42 invokevirtual_vm /\
  Bytecode_member_ref_signature product_build demo_table demo_member_ref
                                invokevirtual_vm
  = signature_ref_at (demo_pool (Some demo_cache)) 7 invokevirtual_vm /\
  Bytecode_member_ref_signature product_build demo_table demo_member_ref
                                invokevirtual_vm
  <> signature_ref_at (demo_pool (Some demo_cache)) 42 invokevirtual_vm.
Proof.
  repeat split; try (vm_compute; reflexivity); vm_compute; discriminate.
Qed.

(** ** Which accessor consults the cache *)

Section Cache_use.
Variable B : Build.
Variable T : Bytecodes.Table.

Lemma loadconstant_raw_index_ignores_cache (lc : Bytecode_loadconstant)
      (c : option constantPoolCacheOop) :
  Bytecode_loadconstant_raw_index B T (lc_with_cache lc c)
  = Bytecode_loadconstant_raw_index B T lc.
Proof. destruct lc as [bci [mo|]]; reflexivity. Qed.

Lemma loadconstant_has_cache_index_reads (lc : Bytecode_loadconstant)
      (mo : methodOop) (s : VM) :
  lc_method lc = Some mo ->
  Bytecode_loadconstant_has_cache_index lc s
  = (Normal (Bytecodes.number_of_java_codes
             <=? opcode_at s (bcp_from mo (lc_bci lc))), s).
Proof.
  intros Hm.
  assert (Hc : Bytecode_loadconstant_code lc s
               = (Normal (opcode_at s (bcp_from mo (lc_bci lc))), s)).
  { unfold Bytecode_loadconstant_code, Bytecode_loadconstant_bytecode, deref.
    rewrite Hm. unfold bind at 1 2. unfold ret at 1 2. apply code_reads_opcode. }
  unfold Bytecode_loadconstant_has_cache_index.
  rewrite (bind_normal _ _ _ _ _ Hc). reflexivity.
Qed.

Lemma loadconstant_pool_index_direct (lc : Bytecode_loadconstant)
      (mo : methodOop) (s : VM) :
  lc_method lc = Some mo ->
  opcode_at s (bcp_from mo (lc_bci lc)) < Bytecodes.number_of_java_codes ->
  Bytecode_loadconstant_pool_index B T lc s
  = Bytecode_loadconstant_raw_index B T lc s.
Proof.
  intros Hm Hop. unfold Bytecode_loadconstant_pool_index.
  destruct (Bytecode_loadconstant_raw_index B T lc s) as [[i|msg|w] s1] eqn:E.
  - pose proof (in_place_loadconstant_raw_index B T lc s i s1 E). subst s1.
    rewrite (bind_normal _ _ _ _ _ E).
    rewrite (bind_normal _ _ _ _ _ (loadconstant_has_cache_index_reads lc mo s Hm)).
    apply Z.leb_gt in Hop. rewrite Hop. reflexivity.
  - unfold bind. rewrite E. reflexivity.
  - unfold bind. rewrite E. reflexivity.
Qed.

(** A check that returned left the state as it was. *)
Lemma check_passed {C} (c : M unit) (k : M C) (s s' : VM) (b : C) :
  in_place c ->
  bind c (fun _ => k) s = (Normal b, s') -> k s = (Normal b, s').
Proof.
  intros Hc H. apply bind_normal_inv in H. destruct H as (u & s1 & H1 & H2).
  rewrite (Hc s u s1 H1) in H2. exact H2.
Qed.

(** The value of [index()] whenever it returns, with no assumption on the
    format of the opcode. *)
Lemma member_ref_index_returns (mr : Bytecode_member_ref) (mo : methodOop)
      (s s' : VM) (i : Z) :
  mr_method mr = Some mo ->
  Bytecode_member_ref_index B T mr s = (Normal i, s') ->
  i = member_ref_index_value B s (bcp_from mo (mr_bci mr)) /\ s' = s.
Proof.
  intros Hm H. set (bcp := bcp_from mo (mr_bci mr)).
  unfold Bytecode_member_ref_index in H.
  rewrite (bind_normal _ _ _ _ _ (member_ref_code_reads mr mo s Hm)) in H.
  rewrite (bind_normal _ _ _ _ _ (member_ref_bytecode_reads mr mo s Hm)) in H.
  fold bcp in H. unfold member_ref_index_value, member_ref_operand.
  destruct (has_index_u4 (opcode_at s bcp)).
  - unfold get_index_u4 in H.
    apply check_passed in H; [|apply in_place_assert_same_format_as].
    apply check_passed in H; [|apply in_place_assert_index_size].
    apply check_passed in H; [|apply in_place_vm_assert].
    unfold get_native_u4_at, gets, addr_at in H.
    injection H as Hv Hs. split; [symmetry; exact Hv|symmetry; exact Hs].
  - unfold get_index_u2_cpcache in H.
    apply check_passed in H; [|apply in_place_assert_same_format_as].
    apply check_passed in H; [|apply in_place_assert_index_size].
    apply check_passed in H; [|apply in_place_assert_native_index].
    unfold get_native_u2_at, gets, bind, ret, addr_at in H.
    injection H as Hv Hs. split; [|symmetry; exact Hs]. rewrite <- Hv.
    pose proof (get_native_u2_range B (memory s) (bcp + 1)).
    apply wrap_jint_small.
    unfold CPCACHE_INDEX_TAG, min_jint, max_jint. destruct (ASSERT B); lia.
Qed.

(** Once [index()] has returned, [pool_index()] is the pool slot of the
    cache entry that the operand of the instruction names. *)
Lemma member_ref_pool_index_after_index (mr : Bytecode_member_ref)
      (mo : methodOop) (s : VM) :
  mr_method mr = Some mo ->
  Bytecode_member_ref_index B T mr s
  = (Normal (member_ref_index_value B s (bcp_from mo (mr_bci mr))), s) ->
  Bytecode_member_ref_pool_index B T mr s
  = cache_pool_index B mo (member_ref_operand B s (bcp_from mo (mr_bci mr))) s.
Proof.
  intros Hm Hi. set (bcp := bcp_from mo (mr_bci mr)) in *.
  unfold Bytecode_member_ref_pool_index.
  rewrite (bind_normal _ _ _ _ _ Hi).
  assert (Hadj :
    (if ASSERT B
     then bcp' <- Bytecode_member_ref_bytecode mr ;;
          c' <- Bytecode_member_ref_code mr ;;
          (if negb (has_index_u4 c')
           then ret (wrap_jint (member_ref_index_value B s bcp - CPCACHE_INDEX_TAG B))
           else ret (member_ref_index_value B s bcp))
     else ret (member_ref_index_value B s bcp)) s
    = (Normal (member_ref_operand B s bcp), s)).
  { unfold member_ref_index_value, CPCACHE_INDEX_TAG.
    destruct (ASSERT B) eqn:HA.
    - rewrite (bind_normal _ _ _ _ _ (member_ref_bytecode_reads mr mo s Hm)).
      rewrite (bind_normal _ _ _ _ _ (member_ref_code_reads mr mo s Hm)).
      fold bcp. unfold member_ref_operand.
      destruct (has_index_u4 (opcode_at s bcp)); cbn [negb]; [reflexivity|].
      pose proof (get_native_u2_range B (memory s) (bcp + 1)).
      unfold ret. rewrite wrap_jint_small;
        [f_equal; f_equal; lia | unfold min_jint, max_jint; lia].
    - destruct (has_index_u4 (opcode_at s bcp)); unfold ret;
        f_equal; f_equal; lia. }
  rewrite (bind_normal _ _ _ _ _ Hadj).
  unfold deref. rewrite Hm. unfold bind at 1. unfold ret at 1. reflexivity.
Qed.

(** What [_method->constants()->cache()->entry_at(k)->constant_pool_index()]
    comes to. *)
Lemma cache_pool_index_cases (m : methodOop) (k : Z) (s : VM) :
  cache_pool_index B m k s
  = match cache (constants m) with
    | None => (Undefined "NULL constant pool cache", s)
    | Some c =>
        if ASSERT B && negb ((0 <=? k) && (k <? cache_length c))
        then (VMError "index out of bounds", s)
        else (Normal (constant_pool_index (cache_base c k)), s)
    end.
Proof.
  unfold cache_pool_index. destruct (cache (constants m)) as [c|]; [|reflexivity].
  unfold entry_at, bind, vm_assert, vm_assertM, ret, fatal.
  destruct (ASSERT B); [|reflexivity].
  destruct ((0 <=? k) && (k <? cache_length c)); reflexivity.
Qed.

(** C10. [Bytecode_member_ref::pool_index()] goes through [entry_at] on the
    cache of the method's constant pool in every call. Whenever it returns,
    a cache is attached, the value is the pool slot stored in the cache
    entry that the operand of the instruction names, the operand lies
    within the cache in a debug build, and the VM state is as it was. With
    no cache attached it never returns, whatever the encoding of the
    instruction: it dereferences the null cache. With a cache attached and
    an opcode of the format its readers expect it does return that pool
    slot, in a debug build provided the operand lies within the cache, and
    stops the VM there otherwise. [Bytecode_loadconstant::pool_index()], on
    an opcode without a cache index, is [raw_index()], whatever cache is
    attached or none. *)
Theorem pool_index_and_the_cache :
  (forall (mr : Bytecode_member_ref) (s s' : VM) (v : Z),
      Bytecode_member_ref_pool_index B T mr s = (Normal v, s') ->
      exists mo c,
        mr_method mr = Some mo /\ cache (constants mo) = Some c /\
        v = constant_pool_index
              (cache_base c (member_ref_operand B s (bcp_from mo (mr_bci mr)))) /\
        (ASSERT B = true ->
         0 <= member_ref_operand B s (bcp_from mo (mr_bci mr)) < cache_length c) /\
        s' = s) /\
  (forall (mr : Bytecode_member_ref) (mo : methodOop) (s s' : VM) (v : Z),
      mr_method mr = Some mo -> cache (constants mo) = None ->
      Bytecode_member_ref_pool_index B T mr s <> (Normal v, s')) /\
  (forall (lc : Bytecode_loadconstant) (mo : methodOop) (s : VM)
          (c : option constantPoolCacheOop),
      lc_method lc = Some mo ->
      opcode_at s (bcp_from mo (lc_bci lc)) < Bytecodes.number_of_java_codes ->
      Bytecode_loadconstant_has_cache_index lc s = (Normal false, s) /\
      Bytecode_loadconstant_pool_index B T lc s
      = Bytecode_loadconstant_raw_index B T lc s /\
      Bytecode_loadconstant_pool_index B T (lc_with_cache lc c) s
      = Bytecode_loadconstant_raw_index B T lc s) /\
  (forall (mr : Bytecode_member_ref) (mo : methodOop) (s : VM),
      mr_method mr = Some mo ->
      (ASSERT B = true ->
       member_ref_format B T (opcode_at s (bcp_from mo (mr_bci mr)))) ->
      let k := member_ref_operand B s (bcp_from mo (mr_bci mr)) in
      (cache (constants mo) = None ->
       Bytecode_member_ref_pool_index B T mr s
       = (Undefined "NULL constant pool cache", s)) /\
      (forall c : constantPoolCacheOop,
          cache (constants mo) = Some c ->
          (ASSERT B = true -> 0 <= k < cache_length c) ->
          Bytecode_member_ref_pool_index B T mr s
          = (Normal (constant_pool_index (cache_base c k)), s)) /\
      (forall c : constantPoolCacheOop,
          cache (constants mo) = Some c ->
          ASSERT B = true -> ~ 0 <= k < cache_length c ->
          Bytecode_member_ref_pool_index B T mr s
          = (VMError "index out of bounds", s))).
Proof.
  assert (Hneeds :
    forall (mr : Bytecode_member_ref) (s s' : VM) (v : Z),
      Bytecode_member_ref_pool_index B T mr s = (Normal v, s') ->
      exists mo c,
        mr_method mr = Some mo /\ cache (constants mo) = Some c /\
        v = constant_pool_index
              (cache_base c (member_ref_operand B s (bcp_from mo (mr_bci mr)))) /\
        (ASSERT B = true ->
         0 <= member_ref_operand B s (bcp_from mo (mr_bci mr)) < cache_length c) /\
        s' = s).
  { intros mr s s' v H.
    destruct (mr_method mr) as [mo|] eqn:Hm.
    - pose proof H as H0. unfold Bytecode_member_ref_pool_index in H0.
      apply bind_normal_inv in H0. destruct H0 as (i & s1 & Hi & _).
      destruct (member_ref_index_returns mr mo s s1 i Hm Hi) as [-> ->].
      rewrite (member_ref_pool_index_after_index mr mo s Hm Hi) in H.
      rewrite cache_pool_index_cases in H.
      destruct (cache (constants mo)) as [c|] eqn:Hc; [|discriminate H].
      exists mo, c. split; [reflexivity|]. split; [exact Hc|].
      destruct (ASSERT B) eqn:HA; cbn [andb] in H.
      + destruct ((0 <=? member_ref_operand B s (bcp_from mo (mr_bci mr)))
                  && (member_ref_operand B s (bcp_from mo (mr_bci mr))
                      <? cache_length c)) eqn:Hr;
          cbn [negb] in H; [|discriminate H].
        injection H as Hv Hs. split; [symmetry; exact Hv|].
        split; [|symmetry; exact Hs].
        intros _. apply andb_prop in Hr. destruct Hr as [Hlo Hhi].
        apply Z.leb_le in Hlo. apply Z.ltb_lt in Hhi. lia.
      + injection H as Hv Hs. split; [symmetry; exact Hv|].
        split; [|symmetry; exact Hs].
        intros HA'. discriminate HA'.
    - unfold Bytecode_member_ref_pool_index, Bytecode_member_ref_index,
        Bytecode_member_ref_code, Bytecode_member_ref_bytecode, deref in H.
      rewrite Hm in H. discriminate H. }
  split; [exact Hneeds|]. split; [|split].
  - intros mr mo s s' v Hm Hc H.
    destruct (Hneeds mr s s' v H) as (mo' & c & Hm' & Hc' & _).
    rewrite Hm in Hm'. inversion Hm'. subst mo'. rewrite Hc in Hc'. discriminate Hc'.
  - intros lc mo s c Hm Hop. split; [|split].
    + rewrite (loadconstant_has_cache_index_reads lc mo s Hm).
      apply Z.leb_gt in Hop. rewrite Hop. reflexivity.
    + apply (loadconstant_pool_index_direct lc mo s Hm Hop).
    + rewrite <- (loadconstant_raw_index_ignores_cache lc c).
      apply (loadconstant_pool_index_direct (lc_with_cache lc c) (with_cache mo c) s).
      * unfold lc_with_cache. simpl. rewrite Hm. reflexivity.
      * exact Hop.
  - intros mr mo s Hm Hfmt k.
    pose proof (member_ref_pool_index_after_index mr mo s Hm
                  (member_ref_index_reads B T mr mo s Hm Hfmt)) as Hp.
    fold k in Hp. rewrite Hp, cache_pool_index_cases.
    split; [|split].
    + intros ->. reflexivity.
    + intros c -> Hr. destruct (ASSERT B); [|reflexivity].
      destruct (Hr eq_refl) as [H1 H2].
      apply Z.leb_le in H1. apply Z.ltb_lt in H2. rewrite H1, H2. reflexivity.
    + intros c -> -> Hr. cbn [andb].
      destruct ((0 <=? k) && (k <? cache_length c)) eqn:E; [|reflexivity].
      exfalso. apply Hr. apply andb_prop in E. destruct E as [H1 H2].
      apply Z.leb_le in H1. apply Z.ltb_lt in H2. lia.
Qed.

End Cache_use.

Lemma pool_index_and_the_cache_witness :
  mr_method demo_member_ref = Some (demo_method (Some demo_cache)) /\
  cache (constants (demo_method (Some demo_cache))) = Some demo_cache /\
  member_ref_format debug_build demo_table (opcode_at invokevirtual_vm 1000) /\
  member_ref_operand debug_build invokevirtual_vm 1000 = 7 /\
  0 <= 7 < cache_length demo_cache /\
  Bytecode_member_ref_pool_index debug_build demo_table
    demo_member_ref invokevirtual_vm
  = (Normal 42, invokevirtual_vm) /\
  mr_method uncached_member_ref = Some (demo_method None) /\
  cache (constants (demo_method None)) = None /\
  Bytecode_member_ref_pool_index debug_build demo_table
    uncached_member_ref unrewritten_invokevirtual_vm
  = (Undefined "NULL constant pool cache", unrewritten_invokevirtual_vm) /\
  Bytecode_member_ref_pool_index debug_build demo_table
    uncached_member_ref unrewritten_invokevirtual_vm
  <> (Normal 42, unrewritten_invokevirtual_vm) /\
  lc_method (demo_loadconstant None) = Some (demo_method None) /\
  opcode_at ldc_vm (bcp_from (demo_method None) 0) < Bytecodes.number_of_java_codes /\
  Bytecode_loadconstant_pool_index debug_build demo_table
    (demo_loadconstant None) ldc_vm
  = Bytecode_loadconstant_raw_index debug_build demo_table
      (demo_loadconstant None) ldc_vm /\
  Bytecode_loadconstant_raw_index debug_build demo_table
    (demo_loadconstant None) ldc_vm
  = (Normal 42, ldc_vm).
Proof.
  assert (Hop : opcode_at ldc_vm (bcp_from (demo_method None) 0)
                < Bytecodes.number_of_java_codes) by reflexivity.
  assert (Hf : member_ref_format debug_build demo_table (opcode_at invokevirtual_vm 1000))
    by (vm_compute; split; [reflexivity|discriminate]).
  assert (Hf0 : member_ref_format debug_build demo_table
                  (opcode_at unrewritten_invokevirtual_vm 1000))
    by (vm_compute; split; [reflexivity|discriminate]).
  assert (Hr : 0 <= 7 < cache_length demo_cache)
    by (vm_compute; split; [discriminate|reflexivity]).
  pose proof (pool_index_and_the_cache debug_build demo_table)
    as (_ & Hnone & Hlc & Hruns).
  split; [reflexivity|]. split; [reflexivity|]. split; [exact Hf|].
  split; [reflexivity|]. split; [exact Hr|]. split.
  { exact (proj1 (proj2 (Hruns demo_member_ref (demo_method (Some demo_cache))
                           invokevirtual_vm eq_refl (fun _ => Hf)))
             demo_cache eq_refl (fun _ => Hr)). }
  split; [reflexivity|]. split; [reflexivity|]. split.
  { exact (proj1 (Hruns uncached_member_ref (demo_method None)
                    unrewritten_invokevirtual_vm eq_refl (fun _ => Hf0))
             eq_refl). }
  split.
  { apply (Hnone uncached_member_ref (demo_method None)); reflexivity. }
  split; [reflexivity|]. split; [exact Hop|]. split; [|reflexivity].
  exact (proj1 (proj2 (Hlc (demo_loadconstant None) (demo_method None) ldc_vm None
                         eq_refl Hop))).
Defined.

(** ** Resolution of a call site *)

Section Static_target.
Variable B : Build.
Variable T : Bytecodes.Table.
Variable LR : LinkResolver.

(** C4. [static_target()] evaluates [index()] and calls exactly one
    resolver on the constant pool and that index: dynamic-call resolution
    when the opcode in its Java form is [_invokedynamic], interface-method
    resolution when it is [_invokeinterface], ordinary method resolution
    for every other opcode. When the resolver leaves an exception pending,
    [static_target()] returns the empty handle in the state the resolver
    left, the exception still pending; when the resolver stops the VM, so
    does [static_target()]; otherwise it returns the method the resolver
    found. *)
Theorem static_target_dispatch (inv : Bytecode_member_ref) (mo : methodOop) (s : VM) :
  mr_method inv = Some mo ->
  (ASSERT B = true ->
   member_ref_format B T (opcode_at s (bcp_from mo (mr_bci inv)))) ->
  let jc := Bytecodes.java_code T (opcode_at s (bcp_from mo (mr_bci inv))) in
  let i := member_ref_index_value B s (bcp_from mo (mr_bci inv)) in
  let resolve := resolver_for LR jc (constants mo) i in
  (jc = Bytecodes._invokedynamic ->
   resolve = resolve_dynamic_method LR (constants mo) i) /\
  (jc = Bytecodes._invokeinterface ->
   resolve = resolve_interface_method LR (constants mo) i) /\
  (jc <> Bytecodes._invokedynamic -> jc <> Bytecodes._invokeinterface ->
   resolve = resolve_method LR (constants mo) i) /\
  (forall r s2 e,
      resolve s = (Normal r, s2) -> pending_exception s2 = Some e ->
      Bytecode_invoke_static_target B T LR inv s = (Normal None, s2)) /\
  (forall r s2,
      resolve s = (Normal r, s2) -> pending_exception s2 = None ->
      Bytecode_invoke_static_target B T LR inv s = (Normal (fst r), s2)) /\
  (forall msg s2,
      resolve s = (VMError msg, s2) ->
      Bytecode_invoke_static_target B T LR inv s = (VMError msg, s2)).
Proof.
  intros Hm Hfmt jc i resolve.
  assert (Hsel : Bytecode_invoke_static_target B T LR inv s
                 = (r <- resolve ;; CHECK_ None (ret (fst r))) s).
  { unfold Bytecode_invoke_static_target, deref. rewrite Hm.
    unfold bind at 1. unfold ret at 1.
    assert (Hjc : Bytecode_member_ref_java_code T inv s = (Normal jc, s)).
    { unfold Bytecode_member_ref_java_code.
      rewrite (bind_normal _ _ _ _ _ (member_ref_code_reads inv mo s Hm)).
      reflexivity. }
    pose proof (member_ref_index_reads B T inv mo s Hm Hfmt) as Hidx.
    fold i in Hidx.
    rewrite (bind_normal _ _ _ _ _ Hjc).
    unfold resolve, resolver_for.
    destruct (jc =? Bytecodes._invokedynamic).
    - rewrite (bind_normal _ _ _ _ _ Hidx). reflexivity.
    - rewrite (bind_normal _ _ _ _ _ Hjc).
      destruct (jc =? Bytecodes._invokeinterface); cbn [negb];
        rewrite (bind_normal _ _ _ _ _ Hidx); reflexivity. }
  split; [|split; [|split; [|split; [|split]]]].
  - intros E. unfold resolve, resolver_for. rewrite E. reflexivity.
  - intros E. unfold resolve, resolver_for. rewrite E. reflexivity.
  - intros E1 E2. apply Z.eqb_neq in E1, E2.
    unfold resolve, resolver_for. rewrite E1, E2. reflexivity.
  - intros r s2 e Hr Hp. rewrite Hsel, (bind_normal _ _ _ _ _ Hr).
    unfold CHECK_, bind, gets. rewrite Hp. reflexivity.
  - intros r s2 Hr Hp. rewrite Hsel, (bind_normal _ _ _ _ _ Hr).
    unfold CHECK_, bind, gets. rewrite Hp. reflexivity.
  - intros msg s2 Hr. rewrite Hsel. apply bind_vmerror, Hr.
Qed.

End Static_target.

Lemma static_target_dispatch_witness :
  mr_method demo_member_ref = Some (demo_method (Some demo_cache)) /\
  member_ref_format debug_build demo_table (opcode_at invokevirtual_vm 1000) /\
  member_ref_format debug_build demo_table (opcode_at invokeinterface_vm 1000) /\
  Bytecode_invoke_static_target debug_build demo_table demo_resolver
                                demo_member_ref invokevirtual_vm
  = (Normal None,
     mkVM (memory invokevirtual_vm) (tty invokevirtual_vm) (Some 99)) /\
  Bytecode_invoke_static_target debug_build demo_table demo_resolver
                                demo_member_ref invokeinterface_vm
  = (Normal (Some (mkMethod 2000 (demo_pool (Some demo_cache)))),
     invokeinterface_vm).
Proof.
  assert (Hv : member_ref_format debug_build demo_table
                                 (opcode_at invokevirtual_vm 1000))
    by (vm_compute; split; [reflexivity|discriminate]).
  assert (Hi : member_ref_format debug_build demo_table
                                 (opcode_at invokeinterface_vm 1000))
    by (vm_compute; split; [reflexivity|discriminate]).
  split; [reflexivity|]. split; [exact Hv|]. split; [exact Hi|]. split.
  - apply (proj1 (proj2 (proj2 (proj2
             (static_target_dispatch debug_build demo_table demo_resolver
                demo_member_ref (demo_method (Some demo_cache)) invokevirtual_vm
                eq_refl (fun _ => Hv)))))
             (None, None) _ 99); reflexivity.
  - apply (proj1 (proj2 (proj2 (proj2 (proj2
             (static_target_dispatch debug_build demo_table demo_resolver
                demo_member_ref (demo_method (Some demo_cache)) invokeinterface_vm
                eq_refl (fun _ => Hi))))))
             (Some (mkMethod 2000 (demo_pool (Some demo_cache))), Some 77));
      reflexivity.
Defined.

(** ** Resolution of a constant *)

Section Load_constant.
Variable B : Build.
Variable T : Bytecodes.Table.

Lemma assert_index_size_1_holds (bc : Bytecodes.Code) (s : VM) :
  (ASSERT B = true -> index_size_bits T bc = 0) ->
  assert_index_size B T 1 bc false s = (Normal tt, s).
Proof.
  intros H. unfold assert_index_size.
  destruct (ASSERT B); [|reflexivity]. cbn [negb]. cbv zeta.
  fold (index_size_bits T bc). rewrite (H eq_refl). reflexivity.
Qed.

Lemma loadconstant_raw_index_reads (lc : Bytecode_loadconstant) (mo : methodOop)
      (s : VM) :
  lc_method lc = Some mo ->
  (ASSERT B = true ->
   loadconstant_format T (opcode_at s (bcp_from mo (lc_bci lc)))) ->
  Bytecode_loadconstant_raw_index B T lc s
  = (Normal (loadconstant_operand B T s (bcp_from mo (lc_bci lc))), s).
Proof.
  intros Hm Hfmt. set (bcp := bcp_from mo (lc_bci lc)) in *.
  assert (Hb : Bytecode_loadconstant_bytecode lc s = (Normal bcp, s)).
  { unfold Bytecode_loadconstant_bytecode, deref. rewrite Hm. reflexivity. }
  assert (Hw : vm_assert B (negb (opcode_at s bcp =? Bytecodes._wide))
                         "verifier prevents this" s = (Normal tt, s)).
  { unfold vm_assert, vm_assertM. destruct (ASSERT B); [|reflexivity].
    destruct (Hfmt eq_refl) as [Hne _]. apply Z.eqb_neq in Hne. rewrite Hne.
    reflexivity. }
  unfold Bytecode_loadconstant_raw_index.
  rewrite (bind_normal _ _ _ _ _ Hb).
  rewrite (bind_normal _ _ _ _ _ (code_reads_opcode bcp s)).
  rewrite (bind_normal _ _ _ _ _ Hw).
  unfold loadconstant_operand, loadconstant_format in *. fold bcp.
  destruct (Bytecodes.java_code T (opcode_at s bcp) =? Bytecodes._ldc).
  - unfold get_index_u1.
    rewrite (bind_normal _ _ _ _ _ (assert_same_format_as_self B T bcp s)).
    rewrite (bind_normal _ _ _ _ _
               (assert_index_size_1_holds _ s (fun HA => proj2 (Hfmt HA)))).
    reflexivity.
  - unfold get_index_u2.
    rewrite (bind_normal _ _ _ _ _ (assert_same_format_as_self B T bcp s)).
    rewrite (bind_normal _ _ _ _ _
               (assert_index_size_holds B T 2 _ s (or_introl eq_refl)
                  (fun HA => proj2 (Hfmt HA)))).
    destruct (can_use_native_byte_order B T (opcode_at s bcp) false); reflexivity.
Qed.

(** C3. [resolve_constant()] hands [raw_index()] to the cached-constant
    path of the constant pool when [has_cache_index()] holds, and to the
    direct path otherwise. Over a constant pool whose cache has been
    populated for the slot, the rewritten instruction, which carries the
    cache slot, and the instruction that named the pool slot of that cache
    entry resolve to the same value, the constant of that pool slot, and
    [pool_index()] is that pool slot for both. An entry that holds another
    value makes the two differ. *)
Theorem resolve_constant_converges (lc : Bytecode_loadconstant) (mo : methodOop)
        (c : constantPoolCacheOop) (d : pool_model) (s s0 : VM) :
  lc_method lc = Some mo ->
  (ASSERT B = true ->
   loadconstant_format T (opcode_at s (bcp_from mo (lc_bci lc))) /\
   loadconstant_format T (opcode_at s0 (bcp_from mo (lc_bci lc)))) ->
  let bcp := bcp_from mo (lc_bci lc) in
  let k := loadconstant_operand B T s bcp in
  let p := loadconstant_operand B T s0 bcp in
  (Bytecode_loadconstant_has_cache_index lc s = (Normal true, s) ->
   Bytecode_loadconstant_resolve_constant B T lc s
   = resolve_cached_constant_at (constants mo) k s) /\
  (Bytecode_loadconstant_has_cache_index lc s0 = (Normal false, s0) ->
   Bytecode_loadconstant_resolve_constant B T lc s0
   = resolve_constant_at (constants mo) p s0) /\
  (constants mo = model_pool (populate d c k) (Some c) ->
   Bytecode_loadconstant_has_cache_index lc s = (Normal true, s) ->
   Bytecode_loadconstant_has_cache_index lc s0 = (Normal false, s0) ->
   0 <= k < cache_length c ->
   p = constant_pool_index (cache_base c k) ->
   Bytecode_loadconstant_resolve_constant B T lc s
   = (Normal (pool_constant d p), s) /\
   Bytecode_loadconstant_resolve_constant B T lc s0
   = (Normal (pool_constant d p), s0) /\
   Bytecode_loadconstant_pool_index B T lc s = (Normal p, s) /\
   Bytecode_loadconstant_pool_index B T lc s0 = (Normal p, s0)) /\
  (constants mo = model_pool d (Some c) ->
   Bytecode_loadconstant_has_cache_index lc s = (Normal true, s) ->
   Bytecode_loadconstant_has_cache_index lc s0 = (Normal false, s0) ->
   p = constant_pool_index (cache_base c k) ->
   forall v : oop,
     entry_value d k = Some v -> v <> pool_constant d p ->
     fst (Bytecode_loadconstant_resolve_constant B T lc s)
     <> fst (Bytecode_loadconstant_resolve_constant B T lc s0)).
Proof.
  intros Hm Hfmt bcp k p.
  assert (Hnn : forall st, vm_assert B
                   (match lc_method lc with Some _ => true | None => false end)
                   "must supply method to resolve constant" st = (Normal tt, st)).
  { intros st. rewrite Hm. apply vm_assert_true. }
  pose proof (loadconstant_raw_index_reads lc mo s Hm
                (fun HA => proj1 (Hfmt HA))) as Hk.
  pose proof (loadconstant_raw_index_reads lc mo s0 Hm
                (fun HA => proj2 (Hfmt HA))) as Hp.
  fold bcp in Hk, Hp. fold k in Hk. fold p in Hp.
  assert (Hcached : Bytecode_loadconstant_has_cache_index lc s = (Normal true, s) ->
                    Bytecode_loadconstant_resolve_constant B T lc s
                    = resolve_cached_constant_at (constants mo) k s).
  { intros Hh. unfold Bytecode_loadconstant_resolve_constant.
    rewrite (bind_normal _ _ _ _ _ (Hnn s)), (bind_normal _ _ _ _ _ Hk).
    unfold deref. rewrite Hm. unfold bind at 1. unfold ret at 1.
    rewrite (bind_normal _ _ _ _ _ Hh). reflexivity. }
  assert (Hdirect : Bytecode_loadconstant_has_cache_index lc s0 = (Normal false, s0) ->
                    Bytecode_loadconstant_resolve_constant B T lc s0
                    = resolve_constant_at (constants mo) p s0).
  { intros Hh. unfold Bytecode_loadconstant_resolve_constant.
    rewrite (bind_normal _ _ _ _ _ (Hnn s0)), (bind_normal _ _ _ _ _ Hp).
    unfold deref. rewrite Hm. unfold bind at 1. unfold ret at 1.
    rewrite (bind_normal _ _ _ _ _ Hh). reflexivity. }
  split; [exact Hcached|]. split; [exact Hdirect|]. split.
  - intros Hpool Hh Hh0 Hrange Hslot.
    assert (Hc : cache (constants mo) = Some c) by (rewrite Hpool; reflexivity).
    split; [|split; [|split]].
    + rewrite (Hcached Hh), Hpool. unfold model_pool, populate. cbn.
      rewrite Z.eqb_refl, <- Hslot. reflexivity.
    + rewrite (Hdirect Hh0), Hpool. reflexivity.
    + unfold Bytecode_loadconstant_pool_index.
      rewrite (bind_normal _ _ _ _ _ Hk), (bind_normal _ _ _ _ _ Hh).
      unfold deref. rewrite Hm. unfold bind at 1. unfold ret at 1.
      unfold cache_pool_index. rewrite Hc. unfold entry_at.
      destruct Hrange as [H0 H1]. apply Z.leb_le in H0. apply Z.ltb_lt in H1.
      rewrite H0, H1. cbn [andb].
      rewrite (bind_normal _ _ _ _ _
                 (bind_normal _ _ _ _ _ (vm_assert_true B _ s))).
      unfold ret. rewrite Hslot. reflexivity.
    + unfold Bytecode_loadconstant_pool_index.
      rewrite (bind_normal _ _ _ _ _ Hp), (bind_normal _ _ _ _ _ Hh0).
      reflexivity.
  - intros Hpool Hh Hh0 Hslot v Hv Hne.
    rewrite (Hcached Hh), (Hdirect Hh0), Hpool. unfold model_pool. cbn.
    rewrite Hv. cbn. intros E. apply Hne. inversion E. reflexivity.
Qed.

End Load_constant.

Lemma resolve_constant_converges_witness :
  lc_method (loadconstant_over
               (model_pool (populate demo_pool_model demo_cache 7) (Some demo_cache)))
  = Some (mkMethod 1000
            (model_pool (populate demo_pool_model demo_cache 7) (Some demo_cache))) /\
  loadconstant_format demo_table (opcode_at fast_aldc_vm 1000) /\
  loadconstant_format demo_table (opcode_at ldc_vm 1000) /\
  loadconstant_operand debug_build demo_table fast_aldc_vm 1000 = 7 /\
  0 <= 7 < cache_length demo_cache /\
  loadconstant_operand debug_build demo_table ldc_vm 1000
  = constant_pool_index (cache_base demo_cache 7) /\
  Bytecode_loadconstant_resolve_constant debug_build demo_table
    (loadconstant_over
       (model_pool (populate demo_pool_model demo_cache 7) (Some demo_cache)))
    fast_aldc_vm
  = (Normal 7042, fast_aldc_vm) /\
  Bytecode_loadconstant_resolve_constant debug_build demo_table
    (loadconstant_over
       (model_pool (populate demo_pool_model demo_cache 7) (Some demo_cache)))
    ldc_vm
  = (Normal 7042, ldc_vm) /\
  fst (Bytecode_loadconstant_resolve_constant debug_build demo_table
         (loadconstant_over (model_pool misfilled_pool_model (Some demo_cache)))
         fast_aldc_vm)
  <> fst (Bytecode_loadconstant_resolve_constant debug_build demo_table
            (loadconstant_over (model_pool misfilled_pool_model (Some demo_cache)))
            ldc_vm).
Proof.
  assert (Hf : loadconstant_format demo_table (opcode_at fast_aldc_vm 1000))
    by (vm_compute; split; [discriminate|reflexivity]).
  assert (Hf0 : loadconstant_format demo_table (opcode_at ldc_vm 1000))
    by (vm_compute; split; [discriminate|reflexivity]).
  assert (Hr : 0 <= 7 < cache_length demo_cache)
    by (vm_compute; split; [discriminate|reflexivity]).
  split; [reflexivity|]. split; [exact Hf|]. split; [exact Hf0|].
  split; [reflexivity|]. split; [exact Hr|]. split; [reflexivity|].
  destruct (proj1 (proj2 (proj2
              (resolve_constant_converges debug_build demo_table
                 (loadconstant_over
                    (model_pool (populate demo_pool_model demo_cache 7)
                                (Some demo_cache)))
                 (mkMethod 1000
                    (model_pool (populate demo_pool_model demo_cache 7)
                                (Some demo_cache)))
                 demo_cache demo_pool_model fast_aldc_vm ldc_vm
                 eq_refl (fun _ => conj Hf Hf0))))
              eq_refl eq_refl eq_refl Hr eq_refl) as (H1 & H2 & _ & _).
  split; [exact H1|]. split; [exact H2|].
  apply (proj2 (proj2 (proj2
           (resolve_constant_converges debug_build demo_table
              (loadconstant_over (model_pool misfilled_pool_model (Some demo_cache)))
              (mkMethod 1000 (model_pool misfilled_pool_model (Some demo_cache)))
              demo_cache misfilled_pool_model fast_aldc_vm ldc_vm
              eq_refl (fun _ => conj Hf Hf0))))
           eq_refl eq_refl eq_refl eq_refl 9007 eq_refl).
  vm_compute. discriminate.
Defined.

(** ** The scenarios of the specification, evaluated *)

(** [invokevirtual] at bytes [B6 00 07] with cache slot 7 standing for pool
    slot 42, on a platform of Java byte order. *)
Example scenario_invokevirtual_index :
  Bytecode_member_ref_index product_build demo_table demo_member_ref
                            invokevirtual_vm
  = (Normal 7, invokevirtual_vm) /\
  Bytecode_member_ref_pool_index product_build demo_table demo_member_ref
                                 invokevirtual_vm
  = (Normal 42, invokevirtual_vm) /\
  Bytecode_member_ref_index debug_build demo_table demo_member_ref
                            invokevirtual_vm
  = (Normal (7 + 65536), invokevirtual_vm).
Proof. repeat split; vm_compute; reflexivity. Qed.

(** On a platform of the other byte order the rewritten operand is stored
    least significant byte first. *)
Example scenario_invokevirtual_native_order :
  Bytecode_member_ref_pool_index product_build_le demo_table demo_member_ref
                                 (vm_of_bytes 1000 [182; 7; 0])
  = (Normal 42, vm_of_bytes 1000 [182; 7; 0]).
Proof. vm_compute. reflexivity. Qed.

(** [tableswitch] with [low = 2], [high = 4], [default = -20] and offsets
    [10, 20, 30]; the word after the table is outside it. *)
Example scenario_tableswitch :
  Bytecode_tableswitch_default_offset 1000 demo_tableswitch_vm
  = (Normal (-20), demo_tableswitch_vm) /\
  Bytecode_tableswitch_dest_offset_at 1000 0 demo_tableswitch_vm
  = (Normal 10, demo_tableswitch_vm) /\
  Bytecode_tableswitch_dest_offset_at 1000 2 demo_tableswitch_vm
  = (Normal 30, demo_tableswitch_vm) /\
  Bytecode_tableswitch_dest_offset_at 1000 3 demo_tableswitch_vm
  = (Normal 0, demo_tableswitch_vm) /\
  ~ in_jump_table demo_tableswitch_vm 1000 (tableswitch_entries 1000 + 3 * jintSize).
Proof.
  repeat split; try (vm_compute; reflexivity).
  intros [_ H]. vm_compute in H. apply H. reflexivity.
Qed.

(** [lookupswitch] with pairs [(1,100), (5,200), (9,300)] passes the
    validation of a debug build; pairs [(5,200), (1,100)] do not. *)
Example scenario_lookupswitch :
  Bytecode_lookupswitch_verify debug_build demo_table 1000 demo_lookupswitch_vm
  = (Normal tt, demo_lookupswitch_vm) /\
  Bytecode_lookupswitch_verify debug_build demo_table 1000 unsorted_lookupswitch_vm
  = (VMError "unsorted table entries", unsorted_lookupswitch_vm).
Proof. split; vm_compute; reflexivity. Qed.

(** * Further properties of bytecode.cpp *)

(** ** Decoding the words of a switch instruction *)

Lemma wrap_jint_shift (z q : Z) : wrap_jint (z - 2 ^ 32 * q) = wrap_jint z.
Proof.
  unfold wrap_jint.
  replace (z - 2 ^ 32 * q + 2 ^ 31) with (z + 2 ^ 31 + (- q) * 2 ^ 32) by lia.
  rewrite Z_mod_plus_full. reflexivity.
Qed.

Lemma be32_sum (z : Z) :
  (z / 2 ^ 24) mod 256 * 2 ^ 24 + (z / 2 ^ 16) mod 256 * 2 ^ 16
  + (z / 2 ^ 8) mod 256 * 2 ^ 8 + z mod 256
  = z - 2 ^ 32 * (z / 2 ^ 32).
Proof.
  pose proof (Z.div_mod z 256 ltac:(lia)) as H0.
  pose proof (Z.div_mod (z / 2 ^ 8) 256 ltac:(lia)) as H1.
  pose proof (Z.div_mod (z / 2 ^ 16) 256 ltac:(lia)) as H2.
  pose proof (Z.div_mod (z / 2 ^ 24) 256 ltac:(lia)) as H3.
  assert (E1 : z / 2 ^ 8 / 256 = z / 2 ^ 16)
    by (rewrite Z.div_div by lia; reflexivity).
  assert (E2 : z / 2 ^ 16 / 256 = z / 2 ^ 24)
    by (rewrite Z.div_div by lia; reflexivity).
  assert (E3 : z / 2 ^ 24 / 256 = z / 2 ^ 32)
    by (rewrite Z.div_div by lia; reflexivity).
  rewrite E1 in H1. rewrite E2 in H2. rewrite E3 in H3.
  change (2 ^ 8) with 256 in *. lia.
Qed.

Lemma word_at_jint (s : VM) (p : address) (z : Z) :
  word_at s p z -> is_jint z -> jint_at s p = z.
Proof.
  intros (H0 & H1 & H2 & H3) Hz. unfold jint_at.
  rewrite get_Java_u4_value, H0, H1, H2, H3, be32_sum, wrap_jint_shift.
  apply wrap_jint_small. exact Hz.
Qed.

Lemma dest_offset_at_address (this : Bytecode) (i : Z) (s : VM) :
  - 2 ^ 28 < i < 2 ^ 28 ->
  Bytecode_tableswitch_dest_offset_at this i s
  = (Normal (jint_at s (aligned_addr_at this 1 + 12 + 4 * i)), s).
Proof.
  intros Hi. unfold Bytecode_tableswitch_dest_offset_at, jint_add, jint_mul, jintSize.
  rewrite (wrap_jint_small (3 + i)) by (unfold min_jint, max_jint; lia).
  rewrite (wrap_jint_small ((3 + i) * 4)) by (unfold min_jint, max_jint; lia).
  rewrite (wrap_jint_small (1 + (3 + i) * 4)) by (unfold min_jint, max_jint; lia).
  unfold get_Java_u4_at, gets, jint_at, addr_at.
  rewrite aligned_offset_small by (unfold min_jint, max_jint; lia).
  replace (1 + (3 + i) * 4) with (1 + 4 * (3 + i)) by lia.
  rewrite aligned_addr_at_shift.
  replace (aligned_addr_at this 1 + 4 * (3 + i))
    with (aligned_addr_at this 1 + 12 + 4 * i) by lia.
  reflexivity.
Qed.

(** X1. Decoding a tableswitch returns what was laid out: when the memory
    at [this] holds the opcode, the padding, and the big-endian words of
    [default], [lo], [hi] and the offsets, then [default_offset()],
    [low_key()] and [high_key()] return these values and [dest_offset_at(i)]
    returns the [i]-th offset, for every 32-bit value and every alignment of
    [this]. *)
Theorem tableswitch_decodes_layout (this : Bytecode) (s : VM)
        (default lo hi : Z) (offsets : list Z) :
  holds_tableswitch s this default lo hi offsets ->
  is_jint default -> is_jint lo -> is_jint hi ->
  Forall is_jint offsets ->
  Z.of_nat (List.length offsets) < 2 ^ 28 ->
  Bytecode_tableswitch_default_offset this s = (Normal default, s) /\
  Bytecode_tableswitch_low_key this s = (Normal lo, s) /\
  Bytecode_tableswitch_high_key this s = (Normal hi, s) /\
  forall i : nat, (i < List.length offsets)%nat ->
    Bytecode_tableswitch_dest_offset_at this (Z.of_nat i) s
    = (Normal (nth i offsets 0), s).
Proof.
  intros (_ & Hd & Hlo & Hhi & Hoffs) Jd Jlo Jhi Joffs Hlen.
  destruct (tableswitch_header this s) as (Ed & Elo & Ehi).
  unfold jintSize in Elo, Ehi.
  replace (aligned_addr_at this 1 + 1 * 4) with (aligned_addr_at this 1 + 4)
    in Elo by lia.
  replace (aligned_addr_at this 1 + 2 * 4) with (aligned_addr_at this 1 + 8)
    in Ehi by lia.
  rewrite Ed, Elo, Ehi.
  rewrite (word_at_jint _ _ _ Hd Jd), (word_at_jint _ _ _ Hlo Jlo),
    (word_at_jint _ _ _ Hhi Jhi).
  repeat split.
  intros i Hi. rewrite dest_offset_at_address by lia.
  rewrite (word_at_jint _ _ _ (Hoffs i Hi)); [reflexivity|].
  rewrite Forall_forall in Joffs. apply Joffs, nth_In, Hi.
Qed.

Lemma demo_tableswitch_layout :
  holds_tableswitch demo_tableswitch_vm 1000 (-20) 2 4 [10; 20; 30].
Proof.
  split; [reflexivity|]. split; [vm_compute; repeat split; reflexivity|].
  split; [vm_compute; repeat split; reflexivity|].
  split; [vm_compute; repeat split; reflexivity|].
  intros i Hi. destruct i as [|[|[|i]]];
    [vm_compute; repeat split; reflexivity .. | simpl in Hi; lia].
Qed.

Lemma tableswitch_decodes_layout_witness :
  holds_tableswitch demo_tableswitch_vm 1000 (-20) 2 4 [10; 20; 30] /\
  is_jint (-20) /\ is_jint 2 /\ is_jint 4 /\ Forall is_jint [10; 20; 30] /\
  Z.of_nat (List.length [10; 20; 30]) < 2 ^ 28 /\
  Bytecode_tableswitch_default_offset 1000 demo_tableswitch_vm
  = (Normal (-20), demo_tableswitch_vm) /\
  Bytecode_tableswitch_low_key 1000 demo_tableswitch_vm
  = (Normal 2, demo_tableswitch_vm) /\
  Bytecode_tableswitch_high_key 1000 demo_tableswitch_vm
  = (Normal 4, demo_tableswitch_vm) /\
  Bytecode_tableswitch_dest_offset_at 1000 (Z.of_nat 2) demo_tableswitch_vm
  = (Normal (nth 2 [10; 20; 30] 0), demo_tableswitch_vm).
Proof.
  assert (J1 : is_jint (-20)) by (unfold is_jint, min_jint, max_jint; lia).
  assert (J2 : is_jint 2) by (unfold is_jint, min_jint, max_jint; lia).
  assert (J3 : is_jint 4) by (unfold is_jint, min_jint, max_jint; lia).
  assert (J4 : Forall is_jint [10; 20; 30])
    by (repeat constructor; unfold min_jint, max_jint; lia).
  assert (J5 : Z.of_nat (List.length [10; 20; 30]) < 2 ^ 28) by (simpl; lia).
  destruct (tableswitch_decodes_layout 1000 demo_tableswitch_vm (-20) 2 4
              [10; 20; 30] demo_tableswitch_layout J1 J2 J3 J4 J5)
    as (Hd & Hlo & Hhi & Hat).
  repeat (split; [assumption|]).
  split; [exact demo_tableswitch_layout|]. repeat (split; [assumption|]).
  apply Hat. simpl. lia.
Defined.

(** X2. [dest_offset_at] has no lower bound either: the three indices
    below the table return the header words, [dest_offset_at(-1)] being
    [high_key()], [dest_offset_at(-2)] [low_key()] and [dest_offset_at(-3)]
    [default_offset()], in every state and at every address. *)
Theorem dest_offset_at_below_table (this : Bytecode) (s : VM) :
  Bytecode_tableswitch_dest_offset_at this (-1) s
  = Bytecode_tableswitch_high_key this s /\
  Bytecode_tableswitch_dest_offset_at this (-2) s
  = Bytecode_tableswitch_low_key this s /\
  Bytecode_tableswitch_dest_offset_at this (-3) s
  = Bytecode_tableswitch_default_offset this s.
Proof.
  destruct (tableswitch_header this s) as (Ed & Elo & Ehi).
  rewrite Ed, Elo, Ehi.
  rewrite (dest_offset_at_address this (-1) s) by lia.
  rewrite (dest_offset_at_address this (-2) s) by lia.
  rewrite (dest_offset_at_address this (-3) s) by lia.
  unfold jintSize. repeat split; do 3 f_equal; lia.
Qed.

(** X3. Every word that [dest_offset_at] reads lies at an address that is a
    multiple of four, at most three bytes of padding after the opcode. *)
Theorem dest_offset_at_is_aligned (this : Bytecode) (i : Z) (s : VM) :
  - 2 ^ 28 < i < 2 ^ 28 ->
  exists a : address,
    Bytecode_tableswitch_dest_offset_at this i s = (Normal (jint_at s a), s) /\
    a mod 4 = 0 /\
    this + 1 + 12 + 4 * i <= a <= this + 1 + 3 + 12 + 4 * i.
Proof.
  intros Hi. exists (aligned_addr_at this 1 + 12 + 4 * i).
  split; [apply dest_offset_at_address, Hi|].
  pose proof (round_to_jint_bounds (this + 1)) as Hb.
  unfold aligned_addr_at, addr_at. split; [|lia].
  rewrite round_to_jint.
  replace (4 * ((this + 1 + 3) / 4) + 12 + 4 * i)
    with (((this + 1 + 3) / 4 + 3 + i) * 4) by lia.
  apply Z_mod_mult.
Qed.

Lemma dest_offset_at_is_aligned_witness :
  - 2 ^ 28 < 1 < 2 ^ 28 /\
  exists a : address,
    Bytecode_tableswitch_dest_offset_at 1003 1 unpadded_tableswitch_vm
    = (Normal (jint_at unpadded_tableswitch_vm a), unpadded_tableswitch_vm) /\
    a mod 4 = 0 /\
    1003 + 1 + 12 + 4 * 1 <= a <= 1003 + 1 + 3 + 12 + 4 * 1.
Proof.
  split; [lia|].
  apply (dest_offset_at_is_aligned 1003 1 unpadded_tableswitch_vm). lia.
Defined.

(** ** Decoding a lookupswitch *)

Lemma pair_address (this : Bytecode) (i : Z) :
  0 <= i < 2 ^ 27 ->
  aligned_addr_at this (jint_add 1 (jint_mul (jint_mul (jint_add 1 i) 2) jintSize))
  = aligned_addr_at this 1 + 8 + 8 * i.
Proof.
  intros Hi. unfold jint_add, jint_mul, jintSize.
  rewrite (wrap_jint_small (1 + i)) by (unfold min_jint, max_jint; lia).
  rewrite (wrap_jint_small ((1 + i) * 2)) by (unfold min_jint, max_jint; lia).
  rewrite (wrap_jint_small ((1 + i) * 2 * 4)) by (unfold min_jint, max_jint; lia).
  rewrite wrap_jint_small by (unfold min_jint, max_jint; lia).
  replace (1 + (1 + i) * 2 * 4) with (1 + 4 * ((1 + i) * 2)) by lia.
  rewrite aligned_addr_at_shift. lia.
Qed.

Lemma pair_at_returns (B : Build) (this : Bytecode) (i : Z) (s : VM) :
  0 <= i < number_of_pairs_at s this ->
  Bytecode_lookupswitch_pair_at B this i s
  = (Normal (aligned_addr_at this
               (jint_add 1 (jint_mul (jint_mul (jint_add 1 i) 2) jintSize))), s).
Proof.
  intros Hi. destruct (ASSERT B) eqn:HA.
  - apply (pair_at_in_bounds B HA this i s Hi).
  - unfold Bytecode_lookupswitch_pair_at, vm_assertM. rewrite HA. reflexivity.
Qed.

Lemma pair_offset_reads (p : address) (s : VM) :
  LookupswitchPair_offset p s = (Normal (jint_at s (p + 4)), s).
Proof. reflexivity. Qed.

Lemma lookupswitch_count (this : Bytecode) (s : VM) (default : Z)
      (pairs : list (Z * Z)) :
  holds_lookupswitch s this default pairs ->
  Z.of_nat (List.length pairs) < 2 ^ 27 ->
  number_of_pairs_at s this = Z.of_nat (List.length pairs).
Proof.
  intros (_ & _ & Hn & _) Hlen.
  rewrite (proj1 (lookupswitch_layout this 0 s ltac:(lia))).
  unfold jintSize. replace (aligned_addr_at this 1 + 1 * 4)
    with (aligned_addr_at this 1 + 4) by lia.
  apply (word_at_jint _ _ _ Hn). unfold is_jint, min_jint, max_jint. lia.
Qed.

Lemma lookupswitch_key (this : Bytecode) (s : VM) (default : Z)
      (pairs : list (Z * Z)) (i : nat) :
  holds_lookupswitch s this default pairs ->
  Forall (fun p => is_jint (fst p) /\ is_jint (snd p)) pairs ->
  Z.of_nat (List.length pairs) < 2 ^ 27 ->
  (i < List.length pairs)%nat ->
  pair_match_at s this (Z.of_nat i) = fst (nth i pairs (0, 0)).
Proof.
  intros (_ & _ & _ & Hp) Hj Hlen Hi.
  unfold pair_match_at. rewrite pair_address by lia.
  apply (word_at_jint _ _ _ (proj1 (Hp i Hi))).
  rewrite Forall_forall in Hj. apply (Hj (nth i pairs (0, 0))), nth_In, Hi.
Qed.

(** X4. Decoding a lookupswitch returns what was laid out: when the memory
    at [this] holds the opcode, the padding, the default offset, the number
    of pairs and the pairs, then [default_offset()] and [number_of_pairs()]
    return the first two, and for every index below the number of pairs
    [pair_at(i)] returns, in every build, a pair whose [match()] and
    [offset()] are the [i]-th key and offset. *)
Theorem lookupswitch_decodes_layout (B : Build) (this : Bytecode) (s : VM)
        (default : Z) (pairs : list (Z * Z)) :
  holds_lookupswitch s this default pairs ->
  is_jint default ->
  Forall (fun p => is_jint (fst p) /\ is_jint (snd p)) pairs ->
  Z.of_nat (List.length pairs) < 2 ^ 27 ->
  Bytecode_lookupswitch_default_offset this s = (Normal default, s) /\
  Bytecode_lookupswitch_number_of_pairs this s
  = (Normal (Z.of_nat (List.length pairs)), s) /\
  forall i : nat, (i < List.length pairs)%nat ->
    exists a : address,
      Bytecode_lookupswitch_pair_at B this (Z.of_nat i) s = (Normal a, s) /\
      LookupswitchPair_match a s = (Normal (fst (nth i pairs (0, 0))), s) /\
      LookupswitchPair_offset a s = (Normal (snd (nth i pairs (0, 0))), s).
Proof.
  intros Hl Jd Jp Hlen.
  pose proof (lookupswitch_count this s default pairs Hl Hlen) as Hn.
  destruct Hl as (Hop & Hd & Hcount & Hp).
  split; [|split].
  - destruct (tableswitch_header this s) as (Ed & _).
    unfold Bytecode_lookupswitch_default_offset.
    unfold Bytecode_tableswitch_default_offset in Ed. rewrite Ed.
    rewrite (word_at_jint _ _ _ Hd Jd). reflexivity.
  - rewrite number_of_pairs_reads, Hn. reflexivity.
  - intros i Hi. eexists. split; [apply pair_at_returns; lia|].
    rewrite pair_address by lia. rewrite Forall_forall in Jp.
    pose proof (Jp (nth i pairs (0, 0)) (nth_In _ _ Hi)) as [Jk Jo].
    destruct (Hp i Hi) as [Hk Ho]. split.
    + rewrite pair_match_reads, (word_at_jint _ _ _ Hk Jk). reflexivity.
    + rewrite pair_offset_reads.
      replace (aligned_addr_at this 1 + 8 + 8 * Z.of_nat i + 4)
        with (aligned_addr_at this 1 + 12 + 8 * Z.of_nat i) by lia.
      rewrite (word_at_jint _ _ _ Ho Jo). reflexivity.
Qed.

Lemma demo_lookupswitch_layout :
  holds_lookupswitch demo_lookupswitch_vm 1000 0 [(1, 100); (5, 200); (9, 300)].
Proof.
  split; [reflexivity|]. split; [vm_compute; repeat split; reflexivity|].
  split; [vm_compute; repeat split; reflexivity|].
  intros i Hi. destruct i as [|[|[|i]]];
    [vm_compute; repeat split; reflexivity .. | simpl in Hi; lia].
Qed.

Lemma demo_lookupswitch_jint :
  Forall (fun p => is_jint (fst p) /\ is_jint (snd p))
         [(1, 100); (5, 200); (9, 300)].
Proof.
  repeat constructor; unfold is_jint, min_jint, max_jint; simpl; lia.
Qed.

Lemma lookupswitch_decodes_layout_witness :
  holds_lookupswitch demo_lookupswitch_vm 1000 0 [(1, 100); (5, 200); (9, 300)] /\
  is_jint 0 /\
  Forall (fun p => is_jint (fst p) /\ is_jint (snd p))
         [(1, 100); (5, 200); (9, 300)] /\
  Z.of_nat (List.length [(1, 100); (5, 200); (9, 300)]) < 2 ^ 27 /\
  Bytecode_lookupswitch_number_of_pairs 1000 demo_lookupswitch_vm
  = (Normal 3, demo_lookupswitch_vm) /\
  exists a : address,
    Bytecode_lookupswitch_pair_at debug_build 1000 (Z.of_nat 1) demo_lookupswitch_vm
    = (Normal a, demo_lookupswitch_vm) /\
    LookupswitchPair_match a demo_lookupswitch_vm = (Normal 5, demo_lookupswitch_vm) /\
    LookupswitchPair_offset a demo_lookupswitch_vm
    = (Normal 200, demo_lookupswitch_vm).
Proof.
  assert (J0 : is_jint 0) by (unfold is_jint, min_jint, max_jint; lia).
  assert (J5 : Z.of_nat (List.length [(1, 100); (5, 200); (9, 300)]) < 2 ^ 27)
    by (simpl; lia).
  destruct (lookupswitch_decodes_layout debug_build 1000 demo_lookupswitch_vm 0
              [(1, 100); (5, 200); (9, 300)] demo_lookupswitch_layout J0
              demo_lookupswitch_jint J5)
    as (Hd & Hn & Hat).
  split; [exact demo_lookupswitch_layout|]. split; [exact J0|].
  split; [exact demo_lookupswitch_jint|]. split; [exact J5|].
  split; [exact Hn|]. apply (Hat 1%nat). simpl. lia.
Defined.

(** ** Validation of laid-out switch instructions *)

Section Verify_layouts.
Variable B : Build.
Variable T : Bytecodes.Table.

(** X5. In a debug build, [verify()] of a lookupswitch accessor placed on a
    laid-out lookupswitch returns exactly when the match keys of its list of
    pairs increase strictly, and stops the VM otherwise; a table with no
    pair or a single pair is always accepted. *)
Theorem lookupswitch_verify_accepts_increasing_keys (this : Bytecode) (s : VM)
        (default : Z) (pairs : list (Z * Z)) :
  ASSERT B = true -> PRODUCT B = false ->
  Bytecodes.java_code T Bytecodes._lookupswitch = Bytecodes._lookupswitch ->
  holds_lookupswitch s this default pairs ->
  Forall (fun p => is_jint (fst p) /\ is_jint (snd p)) pairs ->
  Z.of_nat (List.length pairs) < 2 ^ 27 ->
  (keys_increasing pairs /\
   Bytecode_lookupswitch_verify B T this s = (Normal tt, s)) \/
  (~ keys_increasing pairs /\
   Bytecode_lookupswitch_verify B T this s
   = (VMError "unsorted table entries", s)).
Proof.
  intros debug HP Hjava Hl Jp Hlen.
  pose proof (lookupswitch_count this s default pairs Hl Hlen) as Hn.
  assert (Hop : opcode_at s this = Bytecodes._lookupswitch) by apply Hl.
  assert (Hkey : forall i : nat, (i < List.length pairs)%nat ->
                   pair_match_at s this (Z.of_nat i) = fst (nth i pairs (0, 0))).
  { intros i Hi. apply (lookupswitch_key this s default pairs i Hl Jp Hlen Hi). }
  unfold Bytecode_lookupswitch_verify. rewrite HP.
  rewrite (bind_normal _ _ _ _ _ (code_reads_opcode this s)), Hop, Hjava.
  rewrite Z.eqb_refl.
  rewrite (bind_normal _ _ _ _ _ (number_of_pairs_reads this s)), Hn.
  set (n := List.length pairs) in *.
  assert (Hsub : jint_sub (Z.of_nat n) 1 = Z.of_nat n - 1).
  { unfold jint_sub. apply wrap_jint_small. unfold min_jint, max_jint. lia. }
  rewrite Hsub.
  assert (Hk : 0 < Z.of_nat (Z.to_nat (Z.of_nat n - 1)) ->
               Z.of_nat (Z.to_nat (Z.of_nat n - 1)) < number_of_pairs_at s this)
    by lia.
  destruct (sorted_loop_result B debug this s (Z.to_nat (Z.of_nat n - 1)) Hk)
    as [[Hr Hs] | [Hr (i & Hi & Hs)]].
  - left. split; [|exact Hr]. intros i Hi.
    rewrite <- (Hkey i) by lia. rewrite <- (Hkey (S i)) by lia.
    rewrite Nat2Z.inj_succ. apply Hs. lia.
  - right. split; [|exact Hr]. intros Hinc. apply Hs.
    assert (Hi' : (S (Z.to_nat i) < n)%nat) by lia.
    specialize (Hinc (Z.to_nat i) Hi').
    rewrite <- (Hkey (Z.to_nat i)) in Hinc by lia.
    rewrite <- (Hkey (S (Z.to_nat i))) in Hinc by lia.
    rewrite Nat2Z.inj_succ, Z2Nat.id in Hinc by lia. exact Hinc.
Qed.

(** X6. In a debug build, [verify()] of a tableswitch accessor placed on a
    laid-out tableswitch returns exactly when [lo <= hi]. It looks at
    nothing else: the offsets, and how many of them follow the header, do
    not matter. *)
Theorem tableswitch_verify_compares_keys_only (this : Bytecode) (s : VM)
        (default lo hi : Z) (offsets : list Z) :
  ASSERT B = true -> PRODUCT B = false ->
  Bytecodes.java_code T Bytecodes._tableswitch = Bytecodes._tableswitch ->
  holds_tableswitch s this default lo hi offsets ->
  is_jint lo -> is_jint hi ->
  (lo <= hi /\ Bytecode_tableswitch_verify B T this s = (Normal tt, s)) \/
  (hi < lo /\
   Bytecode_tableswitch_verify B T this s
   = (VMError "incorrect hi/lo values in tableswitch", s)).
Proof.
  intros debug HP Hjava (Hop & _ & Hlo & Hhi & _) Jlo Jhi.
  destruct (tableswitch_header this s) as (_ & Elo & Ehi).
  unfold jintSize in Elo, Ehi.
  replace (aligned_addr_at this 1 + 1 * 4) with (aligned_addr_at this 1 + 4)
    in Elo by lia.
  replace (aligned_addr_at this 1 + 2 * 4) with (aligned_addr_at this 1 + 8)
    in Ehi by lia.
  rewrite (word_at_jint _ _ _ Hlo Jlo) in Elo.
  rewrite (word_at_jint _ _ _ Hhi Jhi) in Ehi.
  unfold Bytecode_tableswitch_verify. rewrite HP.
  rewrite (bind_normal _ _ _ _ _ (code_reads_opcode this s)), Hop, Hjava.
  rewrite Z.eqb_refl.
  rewrite (bind_normal _ _ _ _ _ Elo), (bind_normal _ _ _ _ _ Ehi).
  unfold vm_assert, vm_assertM. rewrite debug.
  destruct (lo <=? hi) eqn:E.
  - left. split; [apply Z.leb_le, E|].
    unfold bind, ret at 1. apply countdown_skip.
  - right. split; [apply Z.leb_gt, E|]. reflexivity.
Qed.

Lemma countdown_unchecked (this : Bytecode) (k : nat) (s : VM) :
  ASSERT B = false -> countdown (sorted_check B this) k s = (Normal tt, s).
Proof.
  intros HA. induction k as [|k IH]; [reflexivity|].
  simpl. unfold bind. unfold sorted_check at 1. unfold vm_assertM.
  rewrite HA. unfold ret at 1. exact IH.
Qed.

(** X7. Without assertions [verify()] looks at the opcode and at nothing
    else: in a build that is not the product build it returns on every
    instruction whose opcode has the Java form of the switch, whatever its
    table holds, and stops the VM on any other; in the product build it
    returns on every instruction. The VM state is never changed. *)
Theorem verify_without_assertions (this : Bytecode) (s : VM) :
  ASSERT B = false ->
  Bytecode_lookupswitch_verify B T this s
  = (if PRODUCT B then Normal tt
     else if Bytecodes.java_code T (opcode_at s this) =? Bytecodes._lookupswitch
          then Normal tt
          else VMError "not a lookupswitch bytecode", s) /\
  Bytecode_tableswitch_verify B T this s
  = (if PRODUCT B then Normal tt
     else if Bytecodes.java_code T (opcode_at s this) =? Bytecodes._tableswitch
          then Normal tt
          else VMError "not a tableswitch bytecode", s).
Proof.
  intros HA.
  unfold Bytecode_lookupswitch_verify, Bytecode_tableswitch_verify.
  destruct (PRODUCT B); [split; reflexivity|].
  rewrite !(bind_normal _ _ _ _ _ (code_reads_opcode this s)). split.
  - destruct (Bytecodes.java_code T (opcode_at s this) =? Bytecodes._lookupswitch);
      [|reflexivity].
    rewrite (bind_normal _ _ _ _ _ (number_of_pairs_reads this s)).
    apply countdown_unchecked, HA.
  - destruct (Bytecodes.java_code T (opcode_at s this) =? Bytecodes._tableswitch);
      [|reflexivity].
    rewrite (bind_normal _ _ _ _ _ (low_key_reads this s)).
    rewrite (bind_normal _ _ _ _ _ (high_key_reads this s)).
    unfold vm_assert, vm_assertM. rewrite HA.
    unfold bind, ret at 1. apply countdown_skip.
Qed.

End Verify_layouts.

Lemma lookupswitch_verify_accepts_increasing_keys_witness :
  ASSERT debug_build = true /\ PRODUCT debug_build = false /\
  Bytecodes.java_code demo_table Bytecodes._lookupswitch = Bytecodes._lookupswitch /\
  holds_lookupswitch demo_lookupswitch_vm 1000 0 [(1, 100); (5, 200); (9, 300)] /\
  Forall (fun p => is_jint (fst p) /\ is_jint (snd p))
         [(1, 100); (5, 200); (9, 300)] /\
  Z.of_nat (List.length [(1, 100); (5, 200); (9, 300)]) < 2 ^ 27 /\
  keys_increasing [(1, 100); (5, 200); (9, 300)] /\
  Bytecode_lookupswitch_verify debug_build demo_table 1000 demo_lookupswitch_vm
  = (Normal tt, demo_lookupswitch_vm).
Proof.
  assert (J5 : Z.of_nat (List.length [(1, 100); (5, 200); (9, 300)]) < 2 ^ 27)
    by (simpl; lia).
  split; [reflexivity|]. split; [reflexivity|]. split; [reflexivity|].
  split; [exact demo_lookupswitch_layout|].
  split; [exact demo_lookupswitch_jint|]. split; [exact J5|].
  destruct (lookupswitch_verify_accepts_increasing_keys debug_build demo_table
              1000 demo_lookupswitch_vm 0 [(1, 100); (5, 200); (9, 300)]
              eq_refl eq_refl eq_refl demo_lookupswitch_layout
              demo_lookupswitch_jint J5)
    as [[Hk Hr] | [Hk Hr]].
  - split; assumption.
  - exfalso. vm_compute in Hr. discriminate Hr.
Defined.

Lemma tableswitch_verify_compares_keys_only_witness :
  ASSERT debug_build = true /\ PRODUCT debug_build = false /\
  Bytecodes.java_code demo_table Bytecodes._tableswitch = Bytecodes._tableswitch /\
  holds_tableswitch demo_tableswitch_vm 1000 (-20) 2 4 [10; 20; 30] /\
  is_jint 2 /\ is_jint 4 /\
  2 <= 4 /\
  Bytecode_tableswitch_verify debug_build demo_table 1000 demo_tableswitch_vm
  = (Normal tt, demo_tableswitch_vm).
Proof.
  assert (J2 : is_jint 2) by (unfold is_jint, min_jint, max_jint; lia).
  assert (J3 : is_jint 4) by (unfold is_jint, min_jint, max_jint; lia).
  split; [reflexivity|]. split; [reflexivity|]. split; [reflexivity|].
  split; [exact demo_tableswitch_layout|]. split; [exact J2|]. split; [exact J3|].
  destruct (tableswitch_verify_compares_keys_only debug_build demo_table
              1000 demo_tableswitch_vm (-20) 2 4 [10; 20; 30]
              eq_refl eq_refl eq_refl demo_tableswitch_layout J2 J3)
    as [[Hk Hr] | [Hk Hr]].
  - split; assumption.
  - exfalso. lia.
Defined.

Lemma verify_without_assertions_witness :
  ASSERT optimized_build = false /\
  Bytecode_lookupswitch_verify optimized_build demo_table 1000
                               unsorted_lookupswitch_vm
  = (Normal tt, unsorted_lookupswitch_vm) /\
  Bytecode_tableswitch_verify optimized_build demo_table 1000
                              unsorted_lookupswitch_vm
  = (VMError "not a tableswitch bytecode", unsorted_lookupswitch_vm).
Proof.
  split; [reflexivity|].
  exact (verify_without_assertions optimized_build demo_table 1000
           unsorted_lookupswitch_vm eq_refl).
Defined.

(** ** The size checks *)

Lemma land_is_not_minus_one (a mask need : Z) :
  0 <= mask -> need = -1 -> (Z.land a mask =? need) = false.
Proof.
  intros Hm ->. apply Z.eqb_neq. intros H.
  assert (0 <= Z.land a mask) by (apply Z.land_nonneg; right; exact Hm). lia.
Qed.

Section Size_checks.
Variable B : Build.
Variable T : Bytecodes.Table.
Hypothesis debug : ASSERT B = true.

(** X8. In a debug build each size check stops the VM, after a line on
    tty, when it is asked about a size it does not know, whatever the opcode
    and its flags: [assert_index_size] knows 1, 2 and 4, [assert_offset_size]
    knows 2 and 4, [assert_constant_size] knows 1 and 2. *)
Theorem size_checks_reject_unknown_sizes (size : Z) (bc : Bytecodes.Code)
        (is_wide : bool) (s : VM) :
  (size <> 1 -> size <> 2 -> size <> 4 ->
   exists line,
     assert_index_size B T size bc is_wide s
     = (VMError "assert_index_size",
        mkVM (memory s) (tty s ++ [line]) (pending_exception s))) /\
  (size <> 2 -> size <> 4 ->
   exists line,
     assert_offset_size B T size bc is_wide s
     = (VMError "assert_offset_size",
        mkVM (memory s) (tty s ++ [line]) (pending_exception s))) /\
  (size <> 1 -> size <> 2 ->
   forall where_ : Z,
   exists line,
     assert_constant_size B T size where_ bc is_wide s
     = (VMError "assert_constant_size",
        mkVM (memory s) (tty s ++ [line]) (pending_exception s))).
Proof.
  assert (Hneed : forall w : bool,
            (if w then Z.lor (-1) Bytecodes._fmt_not_simple else -1) = -1)
    by (intros []; reflexivity).
  split; [|split].
  - intros H1 H2 H4. apply Z.eqb_neq in H1, H2, H4.
    unfold assert_index_size. rewrite debug, H1, H2, H4. cbn [negb]. cbv zeta.
    rewrite land_is_not_minus_one; [|vm_compute; discriminate|apply Hneed].
    cbn [negb]. eexists. unfold bind, print_cr, vm_assert, vm_assertM.
    rewrite debug. reflexivity.
  - intros H2 H4. apply Z.eqb_neq in H2, H4.
    unfold assert_offset_size. rewrite debug, H2, H4. cbn [negb]. cbv zeta.
    rewrite land_is_not_minus_one; [|vm_compute; discriminate|apply Hneed].
    cbn [negb]. eexists. unfold bind, print_cr, vm_assert, vm_assertM.
    rewrite debug. reflexivity.
  - intros H1 H2 where_. apply Z.eqb_neq in H1, H2.
    unfold assert_constant_size. rewrite debug, H1, H2. cbn [negb]. cbv zeta.
    rewrite land_is_not_minus_one; [|vm_compute; discriminate|apply Hneed].
    cbn [negb orb when]. eexists. unfold bind, print_cr, vm_assert, vm_assertM.
    rewrite debug. reflexivity.
Qed.

End Size_checks.

Lemma size_checks_reject_unknown_sizes_witness :
  ASSERT debug_build = true /\
  exists line,
    assert_index_size debug_build demo_table 3 Bytecodes._invokevirtual false
                      invokevirtual_vm
    = (VMError "assert_index_size",
       mkVM (memory invokevirtual_vm) (tty invokevirtual_vm ++ [line])
            (pending_exception invokevirtual_vm)).
Proof.
  split; [reflexivity|].
  apply (proj1 (size_checks_reject_unknown_sizes debug_build demo_table eq_refl
                  3 Bytecodes._invokevirtual false invokevirtual_vm));
    discriminate.
Defined.

Lemma land_lor_masked (f i a : Z) :
  Z.land (Z.lor f i) (Z.land a (Z.lnot i)) = Z.land f (Z.land a (Z.lnot i)).
Proof.
  apply Z.bits_inj'. intros n Hn.
  rewrite !Z.land_spec, Z.lor_spec, Z.lnot_spec by exact Hn.
  destruct (Z.testbit f n), (Z.testbit i n), (Z.testbit a n); reflexivity.
Qed.

(** X9. [assert_constant_size] ignores the local-index field of an
    instruction such as [iinc]: giving an opcode the [_fmt_has_i] bit changes
    nothing in what the check does, in any build and for any size and
    position. *)
Theorem assert_constant_size_ignores_local_index (B : Build)
        (T T' : Bytecodes.Table) (size where_ : Z) (bc : Bytecodes.Code)
        (is_wide : bool) (s : VM) :
  Bytecodes.flags T' bc is_wide
  = Z.lor (Bytecodes.flags T bc is_wide) Bytecodes._fmt_has_i ->
  Bytecodes.length_for T' bc = Bytecodes.length_for T bc ->
  Bytecodes.wide_length_for T' bc = Bytecodes.wide_length_for T bc ->
  assert_constant_size B T' size where_ bc is_wide s
  = assert_constant_size B T size where_ bc is_wide s.
Proof.
  intros Hf Hl Hw. unfold assert_constant_size.
  rewrite Hf, Hl, Hw, land_lor_masked. reflexivity.
Qed.

Lemma assert_constant_size_ignores_local_index_witness :
  Bytecodes.flags
    (Bytecodes.mkTable
       (fun c w => Z.lor (demo_flags c w) Bytecodes._fmt_has_i)
       demo_length_for (fun _ => 0) demo_java_code)
    Bytecodes._ldc false
  = Z.lor (Bytecodes.flags demo_table Bytecodes._ldc false) Bytecodes._fmt_has_i /\
  assert_constant_size debug_build
    (Bytecodes.mkTable
       (fun c w => Z.lor (demo_flags c w) Bytecodes._fmt_has_i)
       demo_length_for (fun _ => 0) demo_java_code)
    1 1 Bytecodes._ldc false ldc_vm
  = assert_constant_size debug_build demo_table 1 1 Bytecodes._ldc false ldc_vm.
Proof.
  split; [reflexivity|].
  apply (assert_constant_size_ignores_local_index debug_build demo_table); reflexivity.
Defined.

(** ** What the accessors leave alone *)

Lemma keeps_state_ret {A} (a : A) : keeps_state (ret a).
Proof. intros s. reflexivity. Qed.

Lemma keeps_state_gets {A} (f : VM -> A) : keeps_state (gets f).
Proof. intros s. reflexivity. Qed.

Lemma keeps_state_fatal {A} (msg : string) : keeps_state (@fatal A msg).
Proof. intros s. reflexivity. Qed.

Lemma keeps_state_bind {A C} (c : M A) (k : A -> M C) :
  keeps_state c -> (forall a, keeps_state (k a)) -> keeps_state (bind c k).
Proof.
  intros Hc Hk s. unfold bind. specialize (Hc s).
  destruct (c s) as [[a|msg|w] s1]; simpl in Hc; subst s1;
    [apply Hk|reflexivity|reflexivity].
Qed.

Lemma keeps_state_if {A} (b : bool) (c1 c2 : M A) :
  keeps_state c1 -> keeps_state c2 -> keeps_state (if b then c1 else c2).
Proof. destruct b; auto. Qed.

Lemma keeps_state_vm_assertM (B : Build) (cond : M bool) (msg : string) :
  keeps_state cond -> keeps_state (vm_assertM B cond msg).
Proof.
  intros Hc. unfold vm_assertM. apply keeps_state_if; [|apply keeps_state_ret].
  apply keeps_state_bind; [exact Hc|].
  intros []; [apply keeps_state_ret|apply keeps_state_fatal].
Qed.

Lemma keeps_state_countdown (body : Z -> M unit) (k : nat) :
  (forall i, keeps_state (body i)) -> keeps_state (countdown body k).
Proof.
  intros Hb. induction k as [|k IH]; [apply keeps_state_ret|].
  simpl. apply keeps_state_bind; [apply Hb|]. intros _. exact IH.
Qed.

Lemma keeps_state_pair_at (B : Build) (this : Bytecode) (i : Z) :
  keeps_state (Bytecode_lookupswitch_pair_at B this i).
Proof.
  unfold Bytecode_lookupswitch_pair_at.
  apply keeps_state_bind; [|intros _; apply keeps_state_ret].
  apply keeps_state_vm_assertM.
  apply keeps_state_bind; [apply keeps_state_gets|]. intros n. apply keeps_state_ret.
Qed.

Lemma keeps_state_sorted_check (B : Build) (this : Bytecode) (i : Z) :
  keeps_state (sorted_check B this i).
Proof.
  unfold sorted_check. apply keeps_state_vm_assertM.
  apply keeps_state_bind; [apply keeps_state_pair_at|]. intros p.
  apply keeps_state_bind; [apply keeps_state_gets|]. intros m.
  apply keeps_state_bind; [apply keeps_state_pair_at|]. intros p'.
  apply keeps_state_bind; [apply keeps_state_gets|]. intros m'.
  apply keeps_state_ret.
Qed.

Lemma in_place_cache_pool_index (B : Build) (m : methodOop) (i : Z) :
  in_place (cache_pool_index B m i).
Proof.
  unfold cache_pool_index. destruct (cache (constants m)) as [c|].
  - apply in_place_bind; [|intros e; apply in_place_ret].
    apply in_place_bind; [apply in_place_vm_assert|]. intros _. apply in_place_ret.
  - apply in_place_undefined.
Qed.

(** X10. No accessor changes the VM when it returns: [index()],
    [pool_index()] and [raw_index()] leave the memory, the tty stream and
    the pending exception as they found them on every normal return, in
    every build (a line is printed only on the way to a fatal error); and
    [verify()] of the switch accessors leaves the state alone whatever its
    outcome. *)
Theorem accessors_leave_the_state (B : Build) (T : Bytecodes.Table) :
  (forall (mr : Bytecode_member_ref) (s s' : VM) (v : Z),
      Bytecode_member_ref_index B T mr s = (Normal v, s') -> s' = s) /\
  (forall (mr : Bytecode_member_ref) (s s' : VM) (v : Z),
      Bytecode_member_ref_pool_index B T mr s = (Normal v, s') -> s' = s) /\
  (forall (lc : Bytecode_loadconstant) (s s' : VM) (v : Z),
      Bytecode_loadconstant_raw_index B T lc s = (Normal v, s') -> s' = s) /\
  (forall (lc : Bytecode_loadconstant) (s s' : VM) (v : Z),
      Bytecode_loadconstant_pool_index B T lc s = (Normal v, s') -> s' = s) /\
  (forall (this : Bytecode) (s : VM),
      snd (Bytecode_lookupswitch_verify B T this s) = s) /\
  (forall (this : Bytecode) (s : VM),
      snd (Bytecode_tableswitch_verify B T this s) = s).
Proof.
  split; [|split; [|split; [|split; [|split]]]].
  - intros mr s s' v. apply in_place_member_ref_index.
  - intros mr s s' v. revert s v s'.
    change (in_place (Bytecode_member_ref_pool_index B T mr)).
    unfold Bytecode_member_ref_pool_index.
    apply in_place_bind; [apply in_place_member_ref_index|]. intros i.
    apply in_place_bind.
    { apply in_place_if; [|apply in_place_ret].
      apply in_place_bind; [apply in_place_member_ref_bytecode|]. intros bcp.
      apply in_place_bind; [apply in_place_member_ref_code|]. intros c.
      apply in_place_if; apply in_place_ret. }
    intros k. apply in_place_bind; [apply in_place_deref|]. intros m.
    apply in_place_cache_pool_index.
  - intros lc s s' v. apply in_place_loadconstant_raw_index.
  - intros lc s s' v. revert s v s'.
    change (in_place (Bytecode_loadconstant_pool_index B T lc)).
    unfold Bytecode_loadconstant_pool_index.
    apply in_place_bind; [apply in_place_loadconstant_raw_index|]. intros i.
    apply in_place_bind.
    { unfold Bytecode_loadconstant_has_cache_index, Bytecode_loadconstant_code,
        Bytecode_loadconstant_bytecode.
      apply in_place_bind; [|intros c; apply in_place_ret].
      apply in_place_bind; [|apply in_place_code].
      apply in_place_bind; [apply in_place_deref|]. intros m. apply in_place_ret. }
    intros h. apply in_place_if; [|apply in_place_ret].
    apply in_place_bind; [apply in_place_deref|]. intros m.
    apply in_place_cache_pool_index.
  - intros this. change (keeps_state (Bytecode_lookupswitch_verify B T this)).
    unfold Bytecode_lookupswitch_verify.
    apply keeps_state_if; [apply keeps_state_ret|].
    apply keeps_state_bind.
    { apply keeps_state_bind; [apply keeps_state_gets|]. intros c.
      apply keeps_state_ret. }
    intros c. apply keeps_state_if; [|apply keeps_state_fatal].
    apply keeps_state_bind; [apply keeps_state_gets|]. intros n.
    apply keeps_state_countdown. apply keeps_state_sorted_check.
  - intros this. change (keeps_state (Bytecode_tableswitch_verify B T this)).
    unfold Bytecode_tableswitch_verify.
    apply keeps_state_if; [apply keeps_state_ret|].
    apply keeps_state_bind.
    { apply keeps_state_bind; [apply keeps_state_gets|]. intros c.
      apply keeps_state_ret. }
    intros c. apply keeps_state_if; [|apply keeps_state_fatal].
    apply keeps_state_bind; [apply keeps_state_gets|]. intros lo.
    apply keeps_state_bind; [apply keeps_state_gets|]. intros hi.
    apply keeps_state_bind; [apply keeps_state_vm_assertM, keeps_state_ret|].
    intros _. apply keeps_state_countdown. intros i. apply keeps_state_ret.
Qed.

Lemma accessors_leave_the_state_witness :
  Bytecode_member_ref_pool_index debug_build demo_table demo_member_ref
                                 invokevirtual_vm
  = (Normal 42, invokevirtual_vm) /\
  invokevirtual_vm = invokevirtual_vm /\
  snd (Bytecode_lookupswitch_verify debug_build demo_table 1000
         unsorted_lookupswitch_vm)
  = unsorted_lookupswitch_vm.
Proof.
  assert (H : Bytecode_member_ref_pool_index debug_build demo_table
                demo_member_ref invokevirtual_vm
              = (Normal 42, invokevirtual_vm)) by (vm_compute; reflexivity).
  split; [exact H|]. split.
  - exact (proj1 (proj2 (accessors_leave_the_state debug_build demo_table))
             demo_member_ref invokevirtual_vm invokevirtual_vm 42 H).
  - exact (proj1 (proj2 (proj2 (proj2 (proj2
             (accessors_leave_the_state debug_build demo_table)))))
             1000 unsorted_lookupswitch_vm).
Defined.

(** ** The index of a member reference *)

(** X12. When [index()] stops the VM, nothing is resolved and nothing is
    looked up: [static_target()], [name()] and [signature()] end in the same
    fatal error and the same state as [index()], whatever the link resolver
    and the constant pool would have answered. *)
Theorem decode_failure_reaches_no_collaborator (B : Build) (T : Bytecodes.Table)
        (LR : LinkResolver) (inv : Bytecode_member_ref) (s s1 : VM)
        (msg : string) :
  Bytecode_member_ref_index B T inv s = (VMError msg, s1) ->
  Bytecode_invoke_static_target B T LR inv s = (VMError msg, s1) /\
  Bytecode_member_ref_name B T inv s = (VMError msg, s1) /\
  Bytecode_member_ref_signature B T inv s = (VMError msg, s1).
Proof.
  intros Hidx.
  destruct (mr_method inv) as [mo|] eqn:Hm.
  2:{ unfold Bytecode_member_ref_index, Bytecode_member_ref_code,
        Bytecode_member_ref_bytecode, deref in Hidx.
      rewrite Hm in Hidx. discriminate Hidx. }
  assert (Hjc : Bytecode_member_ref_java_code T inv s
                = (Normal (Bytecodes.java_code T
                             (opcode_at s (bcp_from mo (mr_bci inv)))), s)).
  { unfold Bytecode_member_ref_java_code.
    rewrite (bind_normal _ _ _ _ _ (member_ref_code_reads inv mo s Hm)).
    reflexivity. }
  split; [|split].
  - unfold Bytecode_invoke_static_target, deref. rewrite Hm.
    unfold bind at 1. unfold ret at 1.
    rewrite (bind_normal _ _ _ _ _ Hjc).
    destruct (Bytecodes.java_code T (opcode_at s (bcp_from mo (mr_bci inv)))
              =? Bytecodes._invokedynamic).
    + apply bind_vmerror, Hidx.
    + rewrite (bind_normal _ _ _ _ _ Hjc).
      destruct (negb (Bytecodes.java_code T (opcode_at s (bcp_from mo (mr_bci inv)))
                      =? Bytecodes._invokeinterface));
        apply bind_vmerror, Hidx.
  - unfold Bytecode_member_ref_name, deref. rewrite Hm.
    unfold bind at 1. unfold ret at 1. apply bind_vmerror, Hidx.
  - unfold Bytecode_member_ref_signature, deref. rewrite Hm.
    unfold bind at 1. unfold ret at 1. apply bind_vmerror, Hidx.
Qed.

Lemma decode_failure_reaches_no_collaborator_witness :
  exists s1,
    Bytecode_member_ref_index debug_build demo_table demo_member_ref ldc_vm
    = (VMError "assert_index_size", s1) /\
    Bytecode_invoke_static_target debug_build demo_table demo_resolver
                                  demo_member_ref ldc_vm
    = (VMError "assert_index_size", s1).
Proof.
  eexists. assert (H : Bytecode_member_ref_index debug_build demo_table
                         demo_member_ref ldc_vm
                       = (VMError "assert_index_size",
                          snd (Bytecode_member_ref_index debug_build demo_table
                                 demo_member_ref ldc_vm)))
    by (vm_compute; reflexivity).
  split; [exact H|].
  exact (proj1 (decode_failure_reaches_no_collaborator debug_build demo_table
                  demo_resolver demo_member_ref ldc_vm _ _ H)).
Defined.

(** ** Computations that return or stop *)

Lemma ros_ret {A} (a : A) : returns_or_stops (ret a).
Proof. intros s. left. exists a. reflexivity. Qed.

Lemma ros_gets {A} (f : VM -> A) : returns_or_stops (gets f).
Proof. intros s. left. exists (f s). reflexivity. Qed.

Lemma ros_fatal {A} (msg : string) : returns_or_stops (@fatal A msg).
Proof. intros s. right. exists msg, s. reflexivity. Qed.

Lemma ros_bind {A C} (c : M A) (k : A -> M C) :
  returns_or_stops c -> (forall a, returns_or_stops (k a)) ->
  returns_or_stops (bind c k).
Proof.
  intros Hc Hk s. unfold bind.
  destruct (Hc s) as [(a & E) | (msg & s' & E)]; rewrite E.
  - apply Hk.
  - right. exists msg, s'. reflexivity.
Qed.

Lemma ros_if {A} (b : bool) (c1 c2 : M A) :
  returns_or_stops c1 -> returns_or_stops c2 ->
  returns_or_stops (if b then c1 else c2).
Proof. destruct b; auto. Qed.

Lemma ros_vm_assert (B : Build) (cond : bool) (msg : string) :
  returns_or_stops (vm_assert B cond msg).
Proof.
  unfold vm_assert, vm_assertM. apply ros_if; [|apply ros_ret].
  apply ros_bind; [apply ros_ret|]. intros []; [apply ros_ret|apply ros_fatal].
Qed.

Lemma ros_print_then_fail (B : Build) (l : tty_line) (msg : string) :
  ASSERT B = true -> returns_or_stops (print_cr l ;; vm_assert B false msg).
Proof.
  intros HA s. right. unfold bind, print_cr, vm_assert, vm_assertM.
  rewrite HA. eexists. eexists. reflexivity.
Qed.

Section Readers_return_or_stop.
Variable B : Build.
Variable T : Bytecodes.Table.

Lemma ros_compare_formats (testbc thisbc : Bytecodes.Code) (w : bool) :
  ASSERT B = true -> returns_or_stops (compare_formats B T testbc thisbc w).
Proof.
  intros HA. unfold compare_formats.
  destruct (Z.land (Bytecodes.flags T testbc w) Bytecodes._all_fmt_bits
            =? Z.land (Bytecodes.flags T thisbc w) Bytecodes._all_fmt_bits);
    cbn [negb when].
  - apply ros_bind; [apply ros_ret|]. intros _. apply ros_vm_assert.
  - apply ros_print_then_fail, HA.
Qed.

Lemma ros_assert_same_format_as (this : Bytecode) (bc : Bytecodes.Code) (w : bool) :
  returns_or_stops (assert_same_format_as B T this bc w).
Proof.
  unfold assert_same_format_as. destruct (ASSERT B) eqn:HA; [|apply ros_ret].
  cbn [negb]. apply ros_bind; [apply ros_gets|]. intros b0.
  apply ros_if; [apply ros_ret|].
  apply ros_if; [|apply ros_compare_formats, HA].
  apply ros_bind; [apply ros_vm_assert|]. intros _.
  apply ros_bind; [apply ros_gets|]. intros b1.
  apply ros_if; [apply ros_ret|apply ros_compare_formats, HA].
Qed.

Lemma ros_assert_index_size (size : Z) (bc : Bytecodes.Code) (w : bool) :
  returns_or_stops (assert_index_size B T size bc w).
Proof.
  unfold assert_index_size. destruct (ASSERT B) eqn:HA; [|apply ros_ret].
  cbn [negb]. cbv zeta.
  match goal with |- returns_or_stops (if negb (?a =? ?b) then _ else _) =>
    destruct (a =? b) end; cbn [negb].
  - apply ros_ret.
  - apply ros_print_then_fail, HA.
Qed.

Lemma ros_assert_native_index (bc : Bytecodes.Code) (w : bool) :
  returns_or_stops (assert_native_index B T bc w).
Proof.
  unfold assert_native_index. apply ros_if; [apply ros_ret|apply ros_vm_assert].
Qed.

Lemma ros_member_ref_index (mr : Bytecode_member_ref) (mo : methodOop) :
  mr_method mr = Some mo -> returns_or_stops (Bytecode_member_ref_index B T mr).
Proof.
  intros Hm.
  assert (Hb : returns_or_stops (Bytecode_member_ref_bytecode mr)).
  { unfold Bytecode_member_ref_bytecode, deref. rewrite Hm.
    apply ros_bind; [apply ros_ret|]. intros m. apply ros_ret. }
  unfold Bytecode_member_ref_index.
  apply ros_bind.
  { unfold Bytecode_member_ref_code. apply ros_bind; [exact Hb|]. intros bcp.
    apply ros_bind; [apply ros_gets|]. intros c. apply ros_ret. }
  intros rawc. apply ros_bind; [exact Hb|]. intros invoke.
  apply ros_if.
  - unfold get_index_u4.
    apply ros_bind; [apply ros_assert_same_format_as|]. intros _.
    apply ros_bind; [apply ros_assert_index_size|]. intros _.
    apply ros_bind; [apply ros_vm_assert|]. intros _. apply ros_gets.
  - unfold get_index_u2_cpcache.
    apply ros_bind; [apply ros_assert_same_format_as|]. intros _.
    apply ros_bind; [apply ros_assert_index_size|]. intros _.
    apply ros_bind; [apply ros_assert_native_index|]. intros _.
    apply ros_bind; [apply ros_gets|]. intros v. apply ros_ret.
Qed.

Lemma ros_member_ref_pool_index (mr : Bytecode_member_ref) (mo : methodOop)
      (c : constantPoolCacheOop) :
  mr_method mr = Some mo -> cache (constants mo) = Some c ->
  returns_or_stops (Bytecode_member_ref_pool_index B T mr).
Proof.
  intros Hm Hc.
  assert (Hb : returns_or_stops (Bytecode_member_ref_bytecode mr)).
  { unfold Bytecode_member_ref_bytecode, deref. rewrite Hm.
    apply ros_bind; [apply ros_ret|]. intros m. apply ros_ret. }
  unfold Bytecode_member_ref_pool_index.
  apply ros_bind; [apply (ros_member_ref_index mr mo Hm)|]. intros i.
  apply ros_bind.
  { apply ros_if; [|apply ros_ret].
    apply ros_bind; [exact Hb|]. intros bcp.
    apply ros_bind.
    { unfold Bytecode_member_ref_code. apply ros_bind; [exact Hb|]. intros b.
      apply ros_bind; [apply ros_gets|]. intros c0. apply ros_ret. }
    intros c0. apply ros_if; apply ros_ret. }
  intros k. unfold deref. rewrite Hm.
  change (returns_or_stops (cache_pool_index B mo k)).
  unfold cache_pool_index. rewrite Hc.
  apply ros_bind; [|intros e; apply ros_ret].
  apply ros_bind; [apply ros_vm_assert|]. intros _. apply ros_ret.
Qed.

End Readers_return_or_stop.

(** ** The guard of the call-site accessor *)

Section Invoke_verify.
Variable B : Build.
Variable T : Bytecodes.Table.
Variable is_valid : Bytecode_member_ref -> M bool.

(** X13. In a debug build [Bytecode_invoke::verify()] is the guard of
    [pool_index()]: when it returns, the method is there and its constant
    pool has a cache, so that [pool_index()] never dereferences [NULL]; and
    on a valid call site whose pool has no cache yet it stops the VM. *)
Theorem invoke_verify_guards_pool_index (inv : Bytecode_member_ref) :
  ASSERT B = true ->
  (forall s s' : VM,
      Bytecode_invoke_verify B is_valid inv s = (Normal tt, s') ->
      (exists mo c, mr_method inv = Some mo /\ cache (constants mo) = Some c) /\
      never_undefined (Bytecode_member_ref_pool_index B T inv)) /\
  (forall (s : VM) (mo : methodOop),
      is_valid inv s = (Normal true, s) ->
      mr_method inv = Some mo -> cache (constants mo) = None ->
      Bytecode_invoke_verify B is_valid inv s
      = (VMError "do not call this from verifier or rewriter", s)).
Proof.
  intros debug. split.
  - intros s s' H.
    assert (Hc : exists mo c, mr_method inv = Some mo /\ cache (constants mo) = Some c).
    { unfold Bytecode_invoke_verify, vm_assertM in H. rewrite debug in H.
      unfold bind at 1 2 in H.
      destruct (is_valid inv s) as [[[|]|msg|w] s1]; try discriminate H.
      unfold ret at 1 in H. unfold bind at 1 2, deref in H.
      destruct (mr_method inv) as [mo|]; [|discriminate H].
      unfold ret at 1 2 in H.
      destruct (cache (constants mo)) as [c|] eqn:Hc; [|discriminate H].
      exists mo, c. split; [reflexivity|exact Hc]. }
    split; [exact Hc|]. destruct Hc as (mo & c & Hm & Hc).
    intros s0 w s0' Hu.
    destruct (ros_member_ref_pool_index B T inv mo c Hm Hc s0)
      as [(a & E) | (msg & s2 & E)]; rewrite E in Hu; discriminate Hu.
  - intros s mo Hv Hm Hc.
    unfold Bytecode_invoke_verify.
    assert (H1 : vm_assertM B (is_valid inv) "check invoke" s = (Normal tt, s)).
    { unfold vm_assertM. rewrite debug, (bind_normal _ _ _ _ _ Hv). reflexivity. }
    rewrite (bind_normal _ _ _ _ _ H1).
    unfold vm_assertM, deref. rewrite debug, Hm.
    cbv beta iota delta [bind ret]. rewrite Hc. reflexivity.
Qed.

End Invoke_verify.

Lemma invoke_verify_guards_pool_index_witness :
  ASSERT debug_build = true /\
  Bytecode_invoke_verify debug_build demo_is_valid demo_member_ref invokevirtual_vm
  = (Normal tt, invokevirtual_vm) /\
  never_undefined
    (Bytecode_member_ref_pool_index debug_build demo_table demo_member_ref) /\
  Bytecode_invoke_verify debug_build demo_is_valid uncached_member_ref
                         invokevirtual_vm
  = (VMError "do not call this from verifier or rewriter", invokevirtual_vm).
Proof.
  assert (H : Bytecode_invoke_verify debug_build demo_is_valid demo_member_ref
                invokevirtual_vm = (Normal tt, invokevirtual_vm))
    by (vm_compute; reflexivity).
  split; [reflexivity|]. split; [exact H|]. split.
  - exact (proj2 (proj1 (invoke_verify_guards_pool_index debug_build demo_table
                           demo_is_valid demo_member_ref eq_refl)
                    invokevirtual_vm invokevirtual_vm H)).
  - apply (proj2 (invoke_verify_guards_pool_index debug_build demo_table
                    demo_is_valid uncached_member_ref eq_refl)
             invokevirtual_vm (demo_method None)); reflexivity.
Defined.

(** ** The load-constant accessor *)

Section Load_constant_more.
Variable B : Build.
Variable T : Bytecodes.Table.

Lemma loadconstant_bytecode_reads (lc : Bytecode_loadconstant) (mo : methodOop)
      (s : VM) :
  lc_method lc = Some mo ->
  Bytecode_loadconstant_bytecode lc s = (Normal (bcp_from mo (lc_bci lc)), s).
Proof.
  intros Hm. unfold Bytecode_loadconstant_bytecode, deref. rewrite Hm. reflexivity.
Qed.

(** X14. The guards of the load-constant accessor: in a debug build
    [raw_index()], and with it [resolve_constant()], stops the VM on a [wide]
    prefix before any operand is read; and [resolve_constant()] without a
    method stops the VM in a debug build and dereferences [NULL] otherwise.
    In neither case is the constant pool asked anything. *)
Theorem loadconstant_guards (lc : Bytecode_loadconstant) (s : VM) :
  (forall mo : methodOop,
      lc_method lc = Some mo -> ASSERT B = true ->
      opcode_at s (bcp_from mo (lc_bci lc)) = Bytecodes._wide ->
      Bytecode_loadconstant_raw_index B T lc s
      = (VMError "verifier prevents this", s) /\
      Bytecode_loadconstant_resolve_constant B T lc s
      = (VMError "verifier prevents this", s)) /\
  (lc_method lc = None ->
   Bytecode_loadconstant_resolve_constant B T lc s
   = if ASSERT B
     then (VMError "must supply method to resolve constant", s)
     else (Undefined "NULL method handle", s)).
Proof.
  split.
  - intros mo Hm debug Hw.
    assert (Hr : Bytecode_loadconstant_raw_index B T lc s
                 = (VMError "verifier prevents this", s)).
    { unfold Bytecode_loadconstant_raw_index.
      rewrite (bind_normal _ _ _ _ _ (loadconstant_bytecode_reads lc mo s Hm)).
      rewrite (bind_normal _ _ _ _ _ (code_reads_opcode _ s)), Hw.
      unfold vm_assert, vm_assertM. rewrite debug. reflexivity. }
    split; [exact Hr|].
    unfold Bytecode_loadconstant_resolve_constant. rewrite Hm.
    rewrite (bind_normal _ _ _ _ _ (vm_assert_true B _ s)).
    apply bind_vmerror, Hr.
  - intros Hm. unfold Bytecode_loadconstant_resolve_constant. rewrite Hm.
    unfold vm_assert, vm_assertM. destruct (ASSERT B); [reflexivity|].
    unfold Bytecode_loadconstant_raw_index, Bytecode_loadconstant_bytecode, deref.
    rewrite Hm. reflexivity.
Qed.

Lemma loadconstant_pool_index_cached (lc : Bytecode_loadconstant) (mo : methodOop)
      (c : constantPoolCacheOop) (s : VM) :
  lc_method lc = Some mo ->
  cache (constants mo) = Some c ->
  (ASSERT B = true ->
   loadconstant_format T (opcode_at s (bcp_from mo (lc_bci lc)))) ->
  Bytecodes.number_of_java_codes <= opcode_at s (bcp_from mo (lc_bci lc)) ->
  0 <= loadconstant_operand B T s (bcp_from mo (lc_bci lc)) < cache_length c ->
  Bytecode_loadconstant_pool_index B T lc s
  = (Normal (constant_pool_index
               (cache_base c (loadconstant_operand B T s (bcp_from mo (lc_bci lc))))),
     s).
Proof.
  intros Hm Hc Hfmt Hop [H0 H1].
  unfold Bytecode_loadconstant_pool_index.
  rewrite (bind_normal _ _ _ _ _ (loadconstant_raw_index_reads B T lc mo s Hm Hfmt)).
  rewrite (bind_normal _ _ _ _ _ (loadconstant_has_cache_index_reads lc mo s Hm)).
  apply Z.leb_le in Hop. rewrite Hop.
  unfold deref. rewrite Hm. unfold bind at 1. unfold ret at 1.
  unfold cache_pool_index. rewrite Hc. unfold entry_at.
  apply Z.leb_le in H0. apply Z.ltb_lt in H1. rewrite H0, H1. cbn [andb].
  rewrite (bind_normal _ _ _ _ _
             (bind_normal _ _ _ _ _ (vm_assert_true B _ s))).
  reflexivity.
Qed.

(** X15. On a rewritten load-constant instruction (an opcode with a cache
    index) [pool_index()] goes through the cache: it returns the pool slot
    stored in the cache entry that the operand names, and with no cache
    attached it dereferences [NULL] instead of returning the operand. *)
Theorem loadconstant_pool_index_through_cache (lc : Bytecode_loadconstant)
        (mo : methodOop) (s : VM) :
  lc_method lc = Some mo ->
  (ASSERT B = true ->
   loadconstant_format T (opcode_at s (bcp_from mo (lc_bci lc)))) ->
  Bytecodes.number_of_java_codes <= opcode_at s (bcp_from mo (lc_bci lc)) ->
  (forall c : constantPoolCacheOop,
      cache (constants mo) = Some c ->
      0 <= loadconstant_operand B T s (bcp_from mo (lc_bci lc)) < cache_length c ->
      Bytecode_loadconstant_pool_index B T lc s
      = (Normal (constant_pool_index
                   (cache_base c
                      (loadconstant_operand B T s (bcp_from mo (lc_bci lc))))),
         s)) /\
  (cache (constants mo) = None ->
   Bytecode_loadconstant_pool_index B T lc s
   = (Undefined "NULL constant pool cache", s)).
Proof.
  intros Hm Hfmt Hop. split.
  - intros c Hc Hr. apply (loadconstant_pool_index_cached lc mo c s Hm Hc Hfmt Hop Hr).
  - intros Hc. unfold Bytecode_loadconstant_pool_index.
    rewrite (bind_normal _ _ _ _ _ (loadconstant_raw_index_reads B T lc mo s Hm Hfmt)).
    rewrite (bind_normal _ _ _ _ _ (loadconstant_has_cache_index_reads lc mo s Hm)).
    apply Z.leb_le in Hop. rewrite Hop.
    unfold deref. rewrite Hm. unfold bind at 1. unfold ret at 1.
    unfold cache_pool_index. rewrite Hc. reflexivity.
Qed.

(** X16. [raw_index()] stays within its operand: it is a value below 256
    for an opcode whose Java form is [_ldc] and a value below 65536 for the
    other load-constant opcodes. *)
Theorem raw_index_bounds (lc : Bytecode_loadconstant) (mo : methodOop) (s : VM) :
  lc_method lc = Some mo ->
  (ASSERT B = true ->
   loadconstant_format T (opcode_at s (bcp_from mo (lc_bci lc)))) ->
  exists v : Z,
    Bytecode_loadconstant_raw_index B T lc s = (Normal v, s) /\
    0 <= v < 65536 /\
    (Bytecodes.java_code T (opcode_at s (bcp_from mo (lc_bci lc))) = Bytecodes._ldc ->
     v < 256).
Proof.
  intros Hm Hfmt. eexists.
  split; [apply (loadconstant_raw_index_reads B T lc mo s Hm Hfmt)|].
  unfold loadconstant_operand.
  pose proof (u1_at_range (memory s) (bcp_from mo (lc_bci lc) + 1)).
  pose proof (u1_at_range (memory s) (bcp_from mo (lc_bci lc) + 1 + 1)).
  pose proof (get_native_u2_range B (memory s) (bcp_from mo (lc_bci lc) + 1)).
  pose proof (get_Java_u2_value (memory s) (bcp_from mo (lc_bci lc) + 1)).
  destruct (Bytecodes.java_code T (opcode_at s (bcp_from mo (lc_bci lc)))
            =? Bytecodes._ldc) eqn:E.
  - split; [lia|]. intros _. lia.
  - apply Z.eqb_neq in E. split; [|intros Hj; contradiction].
    destruct (can_use_native_byte_order B T _ false); lia.
Qed.

Variable constantTag : Type.
Variable BasicType : Type.
Variable tag_at : constantPoolOop -> Z -> constantTag.
Variable basic_type : constantTag -> BasicType.

(** X17. [result_type()] does not change when an instruction is rewritten:
    on the instruction that names pool slot [p] and on its rewritten form,
    whose cache entry stores [p], it is the basic type of the tag of slot
    [p]. It follows [pool_index()], where [resolve_constant()] follows
    [raw_index()]. *)
Theorem result_type_survives_rewrite (lc : Bytecode_loadconstant) (mo : methodOop)
        (c : constantPoolCacheOop) (s s0 : VM) :
  lc_method lc = Some mo ->
  cache (constants mo) = Some c ->
  (ASSERT B = true ->
   loadconstant_format T (opcode_at s (bcp_from mo (lc_bci lc))) /\
   loadconstant_format T (opcode_at s0 (bcp_from mo (lc_bci lc)))) ->
  Bytecodes.number_of_java_codes <= opcode_at s (bcp_from mo (lc_bci lc)) ->
  opcode_at s0 (bcp_from mo (lc_bci lc)) < Bytecodes.number_of_java_codes ->
  0 <= loadconstant_operand B T s (bcp_from mo (lc_bci lc)) < cache_length c ->
  loadconstant_operand B T s0 (bcp_from mo (lc_bci lc))
  = constant_pool_index
      (cache_base c (loadconstant_operand B T s (bcp_from mo (lc_bci lc)))) ->
  Bytecode_loadconstant_result_type B T constantTag BasicType tag_at basic_type lc s
  = (Normal (basic_type
               (tag_at (constants mo)
                       (loadconstant_operand B T s0 (bcp_from mo (lc_bci lc))))), s) /\
  Bytecode_loadconstant_result_type B T constantTag BasicType tag_at basic_type lc s0
  = (Normal (basic_type
               (tag_at (constants mo)
                       (loadconstant_operand B T s0 (bcp_from mo (lc_bci lc))))), s0).
Proof.
  intros Hm Hc Hfmt Hop Hop0 Hr Hslot.
  unfold Bytecode_loadconstant_result_type. split.
  - rewrite (bind_normal _ _ _ _ _
               (loadconstant_pool_index_cached lc mo c s Hm Hc
                  (fun HA => proj1 (Hfmt HA)) Hop Hr)).
    unfold deref. rewrite Hm, <- Hslot. reflexivity.
  - assert (Hp0 : Bytecode_loadconstant_pool_index B T lc s0
                  = (Normal (loadconstant_operand B T s0 (bcp_from mo (lc_bci lc))),
                     s0)).
    { rewrite (loadconstant_pool_index_direct B T lc mo s0 Hm Hop0).
      apply (loadconstant_raw_index_reads B T lc mo s0 Hm
               (fun HA => proj2 (Hfmt HA))). }
    rewrite (bind_normal _ _ _ _ _ Hp0).
    unfold deref. rewrite Hm. reflexivity.
Qed.

End Load_constant_more.

Lemma loadconstant_guards_witness :
  lc_method (demo_loadconstant None) = Some (demo_method None) /\
  ASSERT debug_build = true /\
  opcode_at wide_vm (bcp_from (demo_method None) 0) = Bytecodes._wide /\
  Bytecode_loadconstant_raw_index debug_build demo_table (demo_loadconstant None)
                                  wide_vm
  = (VMError "verifier prevents this", wide_vm) /\
  Bytecode_loadconstant_resolve_constant debug_build demo_table
                                         (demo_loadconstant None) wide_vm
  = (VMError "verifier prevents this", wide_vm) /\
  lc_method (mkLoadConstant 0 None) = None /\
  Bytecode_loadconstant_resolve_constant product_build demo_table
                                         (mkLoadConstant 0 None) ldc_vm
  = (Undefined "NULL method handle", ldc_vm).
Proof.
  split; [reflexivity|]. split; [reflexivity|]. split; [reflexivity|].
  destruct (proj1 (loadconstant_guards debug_build demo_table
                     (demo_loadconstant None) wide_vm)
              (demo_method None) eq_refl eq_refl eq_refl) as [H1 H2].
  split; [exact H1|]. split; [exact H2|]. split; [reflexivity|].
  exact (proj2 (loadconstant_guards product_build demo_table
                  (mkLoadConstant 0 None) ldc_vm) eq_refl).
Defined.

Lemma loadconstant_pool_index_through_cache_witness :
  lc_method (demo_loadconstant (Some demo_cache))
  = Some (demo_method (Some demo_cache)) /\
  loadconstant_format demo_table (opcode_at fast_aldc_vm 1000) /\
  Bytecodes.number_of_java_codes <= opcode_at fast_aldc_vm 1000 /\
  0 <= loadconstant_operand debug_build demo_table fast_aldc_vm 1000
  < cache_length demo_cache /\
  Bytecode_loadconstant_pool_index debug_build demo_table
    (demo_loadconstant (Some demo_cache)) fast_aldc_vm
  = (Normal 42, fast_aldc_vm) /\
  Bytecode_loadconstant_pool_index debug_build demo_table
    (demo_loadconstant None) fast_aldc_vm
  = (Undefined "NULL constant pool cache", fast_aldc_vm).
Proof.
  assert (Hf : loadconstant_format demo_table (opcode_at fast_aldc_vm 1000))
    by (vm_compute; split; [discriminate|reflexivity]).
  assert (Hop : Bytecodes.number_of_java_codes <= opcode_at fast_aldc_vm 1000)
    by (vm_compute; discriminate).
  assert (Hr : 0 <= loadconstant_operand debug_build demo_table fast_aldc_vm 1000
               < cache_length demo_cache)
    by (vm_compute; split; [discriminate|reflexivity]).
  split; [reflexivity|]. split; [exact Hf|]. split; [exact Hop|].
  split; [exact Hr|]. split.
  - exact (proj1 (loadconstant_pool_index_through_cache debug_build demo_table
                    (demo_loadconstant (Some demo_cache))
                    (demo_method (Some demo_cache)) fast_aldc_vm
                    eq_refl (fun _ => Hf) Hop) demo_cache eq_refl Hr).
  - exact (proj2 (loadconstant_pool_index_through_cache debug_build demo_table
                    (demo_loadconstant None) (demo_method None) fast_aldc_vm
                    eq_refl (fun _ => Hf) Hop) eq_refl).
Defined.

Lemma raw_index_bounds_witness :
  lc_method (demo_loadconstant None) = Some (demo_method None) /\
  loadconstant_format demo_table (opcode_at ldc_vm 1000) /\
  exists v : Z,
    Bytecode_loadconstant_raw_index debug_build demo_table
                                    (demo_loadconstant None) ldc_vm
    = (Normal v, ldc_vm) /\
    0 <= v < 65536 /\
    (Bytecodes.java_code demo_table (opcode_at ldc_vm 1000) = Bytecodes._ldc ->
     v < 256).
Proof.
  assert (Hf : loadconstant_format demo_table (opcode_at ldc_vm 1000))
    by (vm_compute; split; [discriminate|reflexivity]).
  split; [reflexivity|]. split; [exact Hf|].
  exact (raw_index_bounds debug_build demo_table (demo_loadconstant None)
           (demo_method None) ldc_vm eq_refl (fun _ => Hf)).
Defined.

Lemma result_type_survives_rewrite_witness :
  lc_method (demo_loadconstant (Some demo_cache))
  = Some (demo_method (Some demo_cache)) /\
  cache (constants (demo_method (Some demo_cache))) = Some demo_cache /\
  loadconstant_format demo_table (opcode_at fast_aldc_vm 1000) /\
  loadconstant_format demo_table (opcode_at ldc_vm 1000) /\
  Bytecodes.number_of_java_codes <= opcode_at fast_aldc_vm 1000 /\
  opcode_at ldc_vm 1000 < Bytecodes.number_of_java_codes /\
  0 <= loadconstant_operand debug_build demo_table fast_aldc_vm 1000
  < cache_length demo_cache /\
  loadconstant_operand debug_build demo_table ldc_vm 1000
  = constant_pool_index
      (cache_base demo_cache
         (loadconstant_operand debug_build demo_table fast_aldc_vm 1000)) /\
  Bytecode_loadconstant_result_type debug_build demo_table Z Z
    (fun _ i => i) (fun t => t + 1) (demo_loadconstant (Some demo_cache))
    fast_aldc_vm
  = (Normal 43, fast_aldc_vm) /\
  Bytecode_loadconstant_result_type debug_build demo_table Z Z
    (fun _ i => i) (fun t => t + 1) (demo_loadconstant (Some demo_cache)) ldc_vm
  = (Normal 43, ldc_vm).
Proof.
  assert (Hf : loadconstant_format demo_table (opcode_at fast_aldc_vm 1000))
    by (vm_compute; split; [discriminate|reflexivity]).
  assert (Hf0 : loadconstant_format demo_table (opcode_at ldc_vm 1000))
    by (vm_compute; split; [discriminate|reflexivity]).
  assert (Hop : Bytecodes.number_of_java_codes <= opcode_at fast_aldc_vm 1000)
    by (vm_compute; discriminate).
  assert (Hop0 : opcode_at ldc_vm 1000 < Bytecodes.number_of_java_codes)
    by reflexivity.
  assert (Hr : 0 <= loadconstant_operand debug_build demo_table fast_aldc_vm 1000
               < cache_length demo_cache)
    by (vm_compute; split; [discriminate|reflexivity]).
  split; [reflexivity|]. split; [reflexivity|]. split; [exact Hf|].
  split; [exact Hf0|]. split; [exact Hop|]. split; [exact Hop0|].
  split; [exact Hr|]. split; [reflexivity|].
  exact (result_type_survives_rewrite debug_build demo_table Z Z
           (fun _ i => i) (fun t => t + 1)
           (demo_loadconstant (Some demo_cache)) (demo_method (Some demo_cache))
           demo_cache fast_aldc_vm ldc_vm eq_refl eq_refl
           (fun _ => conj Hf Hf0) Hop Hop0 Hr eq_refl).
Defined.
